(** * agents-playground: the HTTP services, embedded and verified

    Three small Go services live in this repository:

    - [code/currency-converter/backend] : a rate proxy ([convertHandler],
      [fetchRate]);
    - [code/search-engine/backend/main.go] : movie search and CRUD over an
      Elasticsearch index ([handleSearchMovies], [handleDeleteMovie], ...);
    - [code/travel-blog/backend] : countries and places in Postgres
      ([updateCountry], [updatePlace], [deleteCountry], ...).

    Each handler is translated into a function of the request and of the
    state of the external system it talks to.  Go's [int] is taken at 64
    bits, two's complement (amd64, arm64); [float64] is Rocq's primitive
    binary64 float. *)

From Stdlib Require Import ZArith String Ascii List Bool Lia.
From Stdlib Require Import Floats Uint63.
From stdpp Require Import gmap strings list.

Local Open Scope string_scope.
Local Open Scope Z_scope.

(** ** The fragment of Go's runtime and standard library the handlers use *)

Module Go.

(** *** [int]: 64 bits, wrapping *)

Definition intSize : Z := 64.
Definition MaxInt : Z := 2 ^ (intSize - 1) - 1.
Definition MinInt : Z := - 2 ^ (intSize - 1).

(** The value an [int] holds after an arithmetic result [z] is truncated
    to [intSize] bits. *)
Definition wrap (z : Z) : Z :=
  (z - MinInt) mod 2 ^ intSize + MinInt.

Definition add (a b : Z) : Z := wrap (a + b).
Definition sub (a b : Z) : Z := wrap (a - b).
Definition mul (a b : Z) : Z := wrap (a * b).
(** [a / b] truncates toward zero; [b = 0] panics and is never reached by
    the code below. *)
Definition quo (a b : Z) : Z := wrap (Z.quot a b).

Definition inRange (z : Z) : bool := (MinInt <=? z) && (z <=? MaxInt).

(** *** [strconv.Atoi] and [strconv.ParseInt(s, 10, 64)]

    An optional sign, then one or more ASCII digits, and a value that fits
    the type; everything else is a syntax or range error.  (The fast path
    of [Atoi] for short strings computes the same value.) *)

Definition isDigit (c : ascii) : bool :=
  let n := Z.of_N (N_of_ascii c) in (48 <=? n) && (n <=? 57).

Definition digitVal (c : ascii) : Z := Z.of_N (N_of_ascii c) - 48.

Fixpoint digits (acc : Z) (s : string) : option Z :=
  match s with
  | EmptyString => Some acc
  | String c rest =>
      if isDigit c then digits (acc * 10 + digitVal c) rest else None
  end.

Definition ParseInt (s : string) : option Z :=
  match s with
  | EmptyString => None
  | String c rest =>
      let neg := Ascii.eqb c "-" in
      let body := if Ascii.eqb c "+" || neg then rest else s in
      match body with
      | EmptyString => None
      | _ =>
          match digits 0 body with
          | None => None
          | Some un =>
              let n := if neg then - un else un in
              if inRange n then Some n else None
          end
      end
  end.

Definition Atoi (s : string) : option Z := ParseInt s.

(** *** [encoding/json]: the members of a decoded object

    What a JSON document holds for one member of the struct it is decoded
    into: nothing, [null], a value of the member's type, or a value of
    another type. *)
Inductive field (A : Type) :=
| Absent
| Null
| Value (a : A)
| Mistyped.
Arguments Absent {A}.
Arguments Null {A}.
Arguments Value {A}.
Arguments Mistyped {A}.

(** A body read by a decoder: not JSON at all, or a document for the
    top-level value ([Absent] being the empty body). *)
Inductive document (A : Type) :=
| Malformed
| Document (d : field A).
Arguments Malformed {A}.
Arguments Document {A}.

(** Decoding into a pointer member [*T]: absent and [null] both leave
    [nil]; a mistyped value is an error (outer [None]). *)
Definition decode_pointer {A} (f : field A) : option (option A) :=
  match f with
  | Absent | Null => Some None
  | Value a => Some (Some a)
  | Mistyped => None
  end.

(** Decoding into a plain member [T] with zero value [zero], the value
    itself decoded by [dec]. *)
Definition decode_value {A B} (zero : B) (dec : A -> option B) (f : field A) : option B :=
  match f with
  | Absent | Null => Some zero
  | Value a => dec a
  | Mistyped => None
  end.

Fixpoint decode_list {A B} (dec : A -> option B) (l : list A) : option (list B) :=
  match l with
  | [] => Some []
  | a :: rest =>
      match dec a, decode_list dec rest with
      | Some b, Some bs => Some (b :: bs)
      | _, _ => None
      end
  end.

(** Decoding the top-level value into a struct. *)
Definition decode_document {A B} (zero : B) (dec : A -> option B) (d : document A) : option B :=
  match d with
  | Malformed | Document Absent | Document Mistyped => None
  | Document Null => Some zero
  | Document (Value a) => dec a
  end.

(** *** [strings.TrimSpace], on valid UTF-8

    Leading and trailing white space is cut: the six ASCII spaces and the
    UTF-8 encodings of U+0085, U+00A0, U+1680, U+2000..U+200A, U+2028,
    U+2029, U+202F, U+205F and U+3000. *)
Definition byte_is (c : ascii) (n : Z) : bool := Z.of_N (N_of_ascii c) =? n.

Definition asciiSpace (c : ascii) : bool :=
  let n := Z.of_N (N_of_ascii c) in ((9 <=? n) && (n <=? 13)) || (n =? 32).

Definition space2 (a b : ascii) : bool :=
  byte_is a 194 && (byte_is b 133 || byte_is b 160).

Definition space3 (a b c : ascii) : bool :=
  let n := Z.of_N (N_of_ascii c) in
  (byte_is a 225 && byte_is b 154 && byte_is c 128)
  || (byte_is a 226 && byte_is b 128
      && (((128 <=? n) && (n <=? 138)) || (n =? 168) || (n =? 169) || (n =? 175)))
  || (byte_is a 226 && byte_is b 129 && byte_is c 159)
  || (byte_is a 227 && byte_is b 128 && byte_is c 128).

(** Cutting the white space at the head of [s]; with [reversed], [s] is a
    string read backwards, and so is each multi-byte space. *)
Fixpoint trimHead (reversed : bool) (s : string) : string :=
  match s with
  | EmptyString => s
  | String a r1 =>
      if asciiSpace a then trimHead reversed r1
      else
        match r1 with
        | String b r2 =>
            if (if reversed then space2 b a else space2 a b) then trimHead reversed r2
            else
              match r2 with
              | String c r3 =>
                  if (if reversed then space3 c b a else space3 a b c)
                  then trimHead reversed r3 else s
              | EmptyString => s
              end
        | EmptyString => s
        end
  end.

Definition reverse (s : string) : string :=
  string_of_list_ascii (List.rev (list_ascii_of_string s)).

Definition TrimSpace (s : string) : string :=
  reverse (trimHead true (reverse (trimHead false s))).

(** *** [time.Parse("2006-01-02", value)]

    Four digits, a dash, two digits, a dash, two digits and nothing else;
    the month within 1..12 and the day within the month. *)
Record date := { year : Z; month : Z; day : Z }.

Definition isLeap (y : Z) : bool :=
  (y mod 4 =? 0) && (negb (y mod 100 =? 0) || (y mod 400 =? 0)).

Definition daysIn (m y : Z) : Z :=
  if m =? 2 then (if isLeap y then 29 else 28)
  else if (m =? 4) || (m =? 6) || (m =? 9) || (m =? 11) then 30 else 31.

Definition ParseDate (value : string) : option date :=
  match list_ascii_of_string value with
  | [y1; y2; y3; y4; s1; m1; m2; s2; d1; d2] =>
      if forallb isDigit [y1; y2; y3; y4; m1; m2; d1; d2]
         && Ascii.eqb s1 "-" && Ascii.eqb s2 "-"
      then
        let y := ((digitVal y1 * 10 + digitVal y2) * 10 + digitVal y3) * 10 + digitVal y4 in
        let m := digitVal m1 * 10 + digitVal m2 in
        let d := digitVal d1 * 10 + digitVal d2 in
        if (1 <=? m) && (m <=? 12) && (1 <=? d) && (d <=? daysIn m y)
        then Some {| year := y; month := m; day := d |}
        else None
      else None
  | _ => None
  end.

End Go.

(** ** The search engine backend ([code/search-engine/backend/main.go]) *)

Module SearchEngine.

(** *** Data *)

(** A decoded JSON value, as [encoding/json] stores it in an
    [interface{}]. *)
Inductive jvalue :=
| JString (s : string)
| JNumber (f : float)
| JOther.

(** [map[string]interface{}], the [_source] of a hit. *)
Abbreviation Source := (gmap string jvalue).

Record Movie := {
  ID : string;
  Title : string;
  Description : string;
  Genre : string;
  Rating : float;
  ReleaseYear : Z
}.

Record Pagination := {
  Page : Z;
  PageSize : Z;
  TotalHits : Z;
  TotalPages : Z
}.

(** The [query] clause of a search body. *)
Inductive Predicate :=
| match_all
| multi_match (query : string) (fields : list string).

(** The search body [handleSearchMovies] sends, [sort] being the list of
    (field, order) pairs. *)
Record SearchBody := {
  from : Z;
  size : Z;
  sort : list (string * string);
  query : Predicate
}.

Record Hit := { hit_id : string; hit_source : Source }.

(** The part of a search reply the handler decodes. *)
Record SearchResult := { total_value : Z; hits : list Hit }.

(** *** Elasticsearch

    What a client call returns: a transport error, or a response with a
    status and a payload. *)
Inductive Reply (A : Type) :=
| TransportError
| Response (StatusCode : Z) (payload : A).
Arguments TransportError {A}.
Arguments Response {A}.

(** [res.IsError()] of go-elasticsearch: status above 299. *)
Definition IsError (StatusCode : Z) : bool := 299 <? StatusCode.

(** Why a call may fail whatever the index holds. *)
Inductive Fault :=
| Healthy
| Unreachable
| Failing (StatusCode : Z).

(** The cluster: the documents of the [movies] index, and its health. *)
Record Cluster := { docs : gmap string Source; fault : Fault }.

(** The document API, [DELETE /movies/_doc/<id>]: 200 when the document
    existed, 404 when it did not. *)
Definition es_Delete (es : Cluster) (id : string) : Reply unit * Cluster :=
  match fault es with
  | Unreachable => (TransportError, es)
  | Failing st => (Response st tt, es)
  | Healthy =>
      match docs es !! id with
      | Some _ => (Response 200 tt, {| docs := delete id (docs es); fault := Healthy |})
      | None => (Response 404 tt, es)
      end
  end.

(** *** HTTP responses of the service *)

Inductive Body :=
| NoBody
| ErrorJSON (error : string)
| SearchJSON (movies : list Movie) (pagination : Pagination).

Record HTTPResponse := { status : Z; body : Body }.

Definition StatusOK : Z := 200.
Definition StatusNoContent : Z := 204.
Definition StatusNotFound : Z := 404.
Definition StatusInternalServerError : Z := 500.

(** [c.Query(key)]: the first value of [key] in the URL query, or the
    empty string. *)
Fixpoint Query (params : list (string * string)) (key : string) : string :=
  match params with
  | [] => ""
  | (k, v) :: rest => if String.eqb k key then v else Query rest key
  end.

(** *** [parseIntWithDefault] *)

Definition parseIntWithDefault (value : string) (def : Z) : Z :=
  if String.eqb value "" then def
  else
    match Go.Atoi value with
    | None => def
    | Some parsed => parsed
    end.

(** *** [mapToMovie]

    [int(v)] on a [float64]: truncation toward zero; outside the range of
    [int] (and for NaN) amd64 yields the smallest [int]. *)
Definition float_to_int (f : float) : Z :=
  match Prim2SF f with
  | S754_zero _ => 0
  | S754_finite s m e =>
      let mag := if 0 <=? e then Z.pos m * 2 ^ e else Z.pos m / 2 ^ (- e) in
      let z := if s then - mag else mag in
      if Go.inRange z then z else Go.MinInt
  | _ => Go.MinInt
  end.

(** The [json.Number] branches of the source are never taken: the
    decoders of this service do not call [UseNumber], so a JSON number
    reaches [mapToMovie] as a [float64]. *)
Definition mapToMovie (source : Source) : Movie :=
  let title := match source !! "title" with Some (JString s) => s | _ => "" end in
  let description := match source !! "description" with Some (JString s) => s | _ => "" end in
  let genre := match source !! "genre" with Some (JString s) => s | _ => "" end in
  let rating := match source !! "rating" with Some (JNumber f) => f | _ => 0%float end in
  let year := match source !! "release_year" with Some (JNumber f) => float_to_int f | _ => 0 end in
  {| ID := ""; Title := title; Description := description; Genre := genre;
     Rating := rating; ReleaseYear := year |}.

Definition withID (m : Movie) (id : string) : Movie :=
  {| ID := id; Title := Title m; Description := Description m; Genre := Genre m;
     Rating := Rating m; ReleaseYear := ReleaseYear m |}.

Section Handlers.

(** The search API, [POST /movies/_search]: which hits a healthy cluster
    returns for a body is Elasticsearch's business (analysis, scoring);
    [None] is a payload the handler cannot decode. *)
Variable es_search : gmap string Source -> SearchBody -> option SearchResult.

Definition es_Search (es : Cluster) (b : SearchBody) : Reply (option SearchResult) :=
  match fault es with
  | Unreachable => TransportError
  | Failing st => Response st None
  | Healthy => Response 200 (es_search (docs es) b)
  end.

(** *** [handleSearchMovies]

    The result pairs the response with the search bodies sent to
    Elasticsearch.  (Encoding the body cannot fail: it holds strings
    and integers only.) *)
Definition handleSearchMovies (es : Cluster) (params : list (string * string))
  : HTTPResponse * list SearchBody :=
  let query := Query params "q" in
  let page := parseIntWithDefault (Query params "page") 1 in
  let pageSize := parseIntWithDefault (Query params "pageSize") 5 in
  let page := if page <? 1 then 1 else page in
  let pageSize := if (pageSize <=? 0) || (50 <? pageSize) then 5 else pageSize in
  let from := Go.mul (Go.sub page 1) pageSize in
  let body :=
    {| from := from;
       size := pageSize;
       sort := [("rating", "desc")];
       query := if String.eqb query "" then match_all
                else multi_match query ["title^2"; "description"; "genre"] |} in
  match es_Search es body with
  | TransportError =>
      ({| status := StatusInternalServerError; body := ErrorJSON "search request failed" |}, [body])
  | Response st payload =>
      if IsError st then
        ({| status := StatusInternalServerError; body := ErrorJSON "search returned an error" |}, [body])
      else
        match payload with
        | None =>
            ({| status := StatusInternalServerError;
                body := ErrorJSON "failed to decode search results" |}, [body])
        | Some searchResult =>
            let movies := map (fun hit => withID (mapToMovie (hit_source hit)) (hit_id hit))
                              (hits searchResult) in
            let totalHits := total_value searchResult in
            let totalPages := Go.quo (Go.sub (Go.add totalHits pageSize) 1) pageSize in
            ({| status := StatusOK;
                body := SearchJSON movies
                          {| Page := page; PageSize := pageSize;
                             TotalHits := totalHits; TotalPages := totalPages |} |}, [body])
        end
  end.

(** *** [handleDeleteMovie] *)
Definition handleDeleteMovie (es : Cluster) (id : string) : HTTPResponse * Cluster :=
  match es_Delete es id with
  | (TransportError, es') =>
      ({| status := StatusInternalServerError; body := ErrorJSON "failed to delete movie" |}, es')
  | (Response st _, es') =>
      if st =? StatusNotFound then
        ({| status := StatusNotFound; body := ErrorJSON "movie not found" |}, es')
      else if IsError st then
        ({| status := StatusInternalServerError; body := ErrorJSON "failed to delete movie" |}, es')
      else
        ({| status := StatusNoContent; body := NoBody |}, es')
  end.

End Handlers.

End SearchEngine.

(** ** The currency converter backend ([code/currency-converter/backend]) *)

Module Converter.

(** A Go [error]: made by [errors.New], by
    [fmt.Errorf("unexpected status code %d", ...)], or handed over by a
    library call ([http], [json]). *)
Inductive error :=
| errors_New (text : string)
| unexpected_status_code (StatusCode : Z)
| library_error (text : string).

(** A Go result pair [(value, error)]. *)
Inductive result (A : Type) :=
| Ok (a : A)
| Err (err : error).
Arguments Ok {A}.
Arguments Err {A}.

(** *** The chart API of Yahoo Finance *)

Record Meta := { RegularMarketPrice : float }.
Record ResultItem := { Meta_of : Meta }.
Record Chart := { Result : list ResultItem; Error : bool }.
(** [Error] is [true] for a non-nil [interface{}]. *)
Record chartResponse := { Chart_of : Chart }.

(** The same shape on the wire, every member possibly absent, [null] or
    mistyped; [wire_error] tells whether [error] holds a value other than
    [null]. *)
Record wireMeta := { wire_regularMarketPrice : Go.field float }.
Record wireResult := { wire_meta : Go.field wireMeta }.
Record wireChart := { wire_result : Go.field (list (Go.field wireResult)); wire_error : bool }.
Record wirePayload := { wire_chart : Go.field wireChart }.

Definition decodeMeta (w : wireMeta) : option Meta :=
  match Go.decode_value 0%float Some (wire_regularMarketPrice w) with
  | Some price => Some {| RegularMarketPrice := price |}
  | None => None
  end.

Definition decodeResult (w : wireResult) : option ResultItem :=
  match Go.decode_value {| RegularMarketPrice := 0 |} decodeMeta (wire_meta w) with
  | Some m => Some {| Meta_of := m |}
  | None => None
  end.

Definition decodeChart (w : wireChart) : option Chart :=
  let zero := {| Meta_of := {| RegularMarketPrice := 0 |} |} in
  match Go.decode_value [] (Go.decode_list (Go.decode_value zero decodeResult)) (wire_result w) with
  | Some rs => Some {| Result := rs; Error := wire_error w |}
  | None => None
  end.

(** [json.NewDecoder(res.Body).Decode(&payload)]; [None] is a decode
    error. *)
Definition Decode (body : Go.document wirePayload) : option chartResponse :=
  let zero := {| Result := []; Error := false |} in
  Go.decode_document {| Chart_of := zero |}
    (fun w => match Go.decode_value zero decodeChart (wire_chart w) with
              | Some c => Some {| Chart_of := c |}
              | None => None
              end)
    body.

(** What becomes of the request [fetchRate] builds for an endpoint. *)
Inductive Outcome :=
| NewRequestError (err : error)
| DoError (err : error)
| HTTPResponse (StatusCode : Z) (Body : Go.document wirePayload).

Definition StatusOK : Z := 200.
Definition StatusBadRequest : Z := 400.
Definition StatusMethodNotAllowed : Z := 405.
Definition StatusBadGateway : Z := 502.

Definition endpoint (base target : string) : string :=
  let symbol := base ++ target ++ "=X" in
  "https://query1.finance.yahoo.com/v8/finance/chart/" ++ symbol ++ "?range=1d&interval=1m".

(** *** [fetchRate], over the network [yahoo] *)
Definition fetchRate (yahoo : string -> Outcome) (base target : string) : result float :=
  match yahoo (endpoint base target) with
  | NewRequestError err => Err err
  | DoError err => Err err
  | HTTPResponse StatusCode Body =>
      if negb (StatusCode =? StatusOK) then Err (unexpected_status_code StatusCode)
      else
        match Decode Body with
        | None => Err (library_error "json")
        | Some payload =>
            if Error (Chart_of payload) then Err (errors_New "chart api returned an error")
            else
              match Result (Chart_of payload) with
              | [] => Err (errors_New "chart api returned no results")
              | first :: _ =>
                  let price := RegularMarketPrice (Meta_of first) in
                  if (price =? 0)%float then Err (errors_New "received zero price from api")
                  else Ok price
              end
        end
  end.

(** *** Requests and responses *)

Record Request := { Method : string; URL_Query : list (string * string) }.

(** [url.Values.Get]: the first value of the key, or the empty string. *)
Fixpoint Get (values : list (string * string)) (key : string) : string :=
  match values with
  | [] => ""
  | (k, v) :: rest => if String.eqb k key then v else Get rest key
  end.

Record convertResponse := {
  Base : string;
  Target : string;
  Amount : float;
  Rate : float;
  Converted : float;
  Source : string
}.

Inductive ResponseBody :=
| Empty
| Text (text : string)
| JSON (resp : convertResponse).

Record ResponseRecorder := { Code : Z; Body : ResponseBody }.

Definition newline : string := String (ascii_of_nat 10) EmptyString.

(** [http.Error(w, msg, code)] *)
Definition http_Error (msg : string) (code : Z) : ResponseRecorder :=
  {| Code := code; Body := Text (msg ++ newline) |}.

(** [json.NewEncoder(w).Encode(resp)] refuses NaN and the infinities; the
    error is logged and the response stays a 200 without a body. *)
Definition Encode (resp : convertResponse) : ResponseRecorder :=
  if is_finite (Amount resp) && is_finite (Rate resp) && is_finite (Converted resp)
  then {| Code := StatusOK; Body := JSON resp |}
  else {| Code := StatusOK; Body := Empty |}.

Section Handler.

(** [strings.ToUpper] and [strconv.ParseFloat(s, 64)] ([None] for an
    error) are Go's; the handlers are read for any such functions. *)
Variable ToUpper : string -> string.
Variable ParseFloat : string -> option float.

(** The package variable [rateFetcher], [fetchRate] unless a test swaps
    it. *)
Variable rateFetcher : string -> string -> result float.

(** *** [convertHandler]

    The result pairs the response with the calls made to [rateFetcher]. *)
Definition convertHandler (r : Request) : ResponseRecorder * list (string * string) :=
  if negb (String.eqb (Method r) "GET") then
    (http_Error "method not allowed" StatusMethodNotAllowed, [])
  else
    let base := ToUpper (Get (URL_Query r) "base") in
    let target := ToUpper (Get (URL_Query r) "target") in
    let amountStr := Get (URL_Query r) "amount" in
    if String.eqb base "" || String.eqb target "" then
      (http_Error "base and target query parameters are required" StatusBadRequest, [])
    else
      let convert (amount : float) :=
        match rateFetcher base target with
        | Err _ => (http_Error "failed to fetch rate" StatusBadGateway, [(base, target)])
        | Ok rate =>
            (Encode {| Base := base; Target := target; Amount := amount; Rate := rate;
                       Converted := rate * amount; Source := "yahoo-finance" |},
             [(base, target)])
        end in
      if negb (String.eqb amountStr "") then
        match ParseFloat amountStr with
        | None => (http_Error "amount must be a number" StatusBadRequest, [])
        | Some parsed => convert parsed
        end
      else convert 1%float.

End Handler.

End Converter.

(** ** The travel blog backend ([code/travel-blog/backend]) *)

Module TravelBlog.

(** *** The database

    Rows of [countries] and [places], keyed by [id].  Timestamps are
    seconds; [visited_at] is a nullable [DATE]. *)
Record CountryRow := {
  c_name : string;
  c_description : string;
  c_created_at : Z;
  c_updated_at : Z
}.

Record PlaceRow := {
  p_country_id : Z;
  p_name : string;
  p_category : string;
  p_city : string;
  p_description : string;
  p_visited_at : option Go.date;
  p_created_at : Z;
  p_updated_at : Z
}.

(** A Go [error]: from [strconv.ParseInt], from the JSON binding, from the
    driver, or [sql.ErrNoRows]. *)
Inductive error :=
| ParseIntError (input : string)
| BindError
| DriverError (text : string)
| ErrNoRows.

Inductive result (A : Type) :=
| Ok (a : A)
| Err (err : error).
Arguments Ok {A}.
Arguments Err {A}.

(** The tables, the reading of [NOW()] during the request, and what the
    driver will do to the next statements: [Some text] fails the statement
    with that error and leaves the tables alone, [None] runs it; past the
    end of the list every statement runs. *)
Record Database := {
  countries : gmap Z CountryRow;
  places : gmap Z PlaceRow;
  now : Z;
  faults : list (option string)
}.

Definition with_tables (db : Database) (cs : gmap Z CountryRow) (ps : gmap Z PlaceRow)
  : Database :=
  {| countries := cs; places := ps; now := now db; faults := faults db |}.

(** One statement sent through [db.Exec], [db.Query] or [db.QueryRow]. *)
Definition statement {A} (db : Database) (run : Database -> A * Database)
  : result A * Database :=
  match faults db with
  | Some text :: rest =>
      (Err (DriverError text),
       {| countries := countries db; places := places db; now := now db; faults := rest |})
  | None :: rest =>
      let '(a, db') :=
        run {| countries := countries db; places := places db; now := now db; faults := rest |} in
      (Ok a, db')
  | [] => let '(a, db') := run db in (Ok a, db')
  end.

Definition COALESCE {A} (x : option A) (current : A) : A :=
  match x with
  | Some v => v
  | None => current
  end.

(** [UPDATE countries SET name = COALESCE($1, name), description =
    COALESCE($2, description) WHERE id=$3], with the [countries_updated_at]
    trigger; the result is [RowsAffected]. *)
Definition sql_update_country (name description : option string) (id : Z) (db : Database)
  : Z * Database :=
  match countries db !! id with
  | None => (0, db)
  | Some row =>
      (1, with_tables db
            (<[id := {| c_name := COALESCE name (c_name row);
                        c_description := COALESCE description (c_description row);
                        c_created_at := c_created_at row;
                        c_updated_at := now db |}]> (countries db))
            (places db))
  end.

(** [DELETE FROM countries WHERE id=$1]; [places.country_id] is declared
    [ON DELETE CASCADE]. *)
Definition sql_delete_country (id : Z) (db : Database) : Z * Database :=
  match countries db !! id with
  | None => (0, db)
  | Some _ =>
      (1, with_tables db (delete id (countries db))
            (filter (fun kv => p_country_id (snd kv) <> id) (places db)))
  end.

(** [UPDATE places SET name = COALESCE($1, name), ..., visited_at = CASE
    WHEN $5 THEN $6 ELSE visited_at END WHERE id=$7], with the
    [places_updated_at] trigger. *)
Definition sql_update_place (name category city description : option string)
    (setVisited : bool) (visitedAt : option Go.date) (id : Z) (db : Database)
  : Z * Database :=
  match places db !! id with
  | None => (0, db)
  | Some row =>
      (1, with_tables db (countries db)
            (<[id := {| p_country_id := p_country_id row;
                        p_name := COALESCE name (p_name row);
                        p_category := COALESCE category (p_category row);
                        p_city := COALESCE city (p_city row);
                        p_description := COALESCE description (p_description row);
                        p_visited_at := if setVisited then visitedAt else p_visited_at row;
                        p_created_at := p_created_at row;
                        p_updated_at := now db |}]> (places db)))
  end.

(** [SELECT country_id FROM places WHERE id=$1] *)
Definition sql_place_country (id : Z) (db : Database) : option Z * Database :=
  (p_country_id <$> places db !! id, db).

(** *** What the API returns *)

Record Place := {
  Place_ID : Z;
  CountryID : Z;
  Place_Name : string;
  Category : string;
  City : string;
  Place_Description : string;
  VisitedAt : option Go.date;
  Place_CreatedAt : Z;
  Place_UpdatedAt : Z
}.

Record Country := {
  ID : Z;
  Name : string;
  Description : string;
  Places : list Place;
  CreatedAt : Z;
  UpdatedAt : Z
}.

Definition place_of_row (kv : Z * PlaceRow) : Place :=
  {| Place_ID := fst kv; CountryID := p_country_id (snd kv); Place_Name := p_name (snd kv);
     Category := p_category (snd kv); City := p_city (snd kv);
     Place_Description := p_description (snd kv); VisitedAt := p_visited_at (snd kv);
     Place_CreatedAt := p_created_at (snd kv); Place_UpdatedAt := p_updated_at (snd kv) |}.

(** A response body: none, [gin.H{"error": "..."}] with a fixed text,
    [gin.H{"error": err.Error()}], or a country ([null] for a nil pointer). *)
Inductive Body :=
| NoBody
| ErrorJSON (text : string)
| ErrorOf (err : error)
| CountryJSON (country : option Country).

Record HTTPResponse := { status : Z; body : Body }.

Definition StatusOK : Z := 200.
Definition StatusNoContent : Z := 204.
Definition StatusBadRequest : Z := 400.
Definition StatusNotFound : Z := 404.
Definition StatusInternalServerError : Z := 500.

(** *** Request bodies *)

(** The members [updateCountry] binds, as the document holds them. *)
Record CountryPatch := {
  patch_country_name : Go.field string;
  patch_country_description : Go.field string
}.

(** The members [updatePlace] binds. *)
Record PlacePatch := {
  patch_name : Go.field string;
  patch_category : Go.field string;
  patch_city : Go.field string;
  patch_description : Go.field string;
  patch_visited_at : Go.field string
}.

(** *** [parseIDParam] *)
Definition parseIDParam (idStr : string) : result Z :=
  match Go.ParseInt idStr with
  | None => Err (ParseIntError idStr)
  | Some id => Ok id
  end.

(** *** [ShouldBindJSON] into the input structs *)

Record countryInput := { in_country_name : option string; in_country_description : option string }.

Record placeInput := {
  in_name : option string;
  in_category : option string;
  in_city : option string;
  in_description : option string;
  in_visited_at : option string
}.

Definition bindCountryInput (doc : Go.document CountryPatch) : option countryInput :=
  Go.decode_document {| in_country_name := None; in_country_description := None |}
    (fun patch =>
       match Go.decode_pointer (patch_country_name patch),
             Go.decode_pointer (patch_country_description patch) with
       | Some n, Some d => Some {| in_country_name := n; in_country_description := d |}
       | _, _ => None
       end)
    doc.

Definition bindPlaceInput (doc : Go.document PlacePatch) : option placeInput :=
  Go.decode_document
    {| in_name := None; in_category := None; in_city := None; in_description := None;
       in_visited_at := None |}
    (fun patch =>
       match Go.decode_pointer (patch_name patch), Go.decode_pointer (patch_category patch),
             Go.decode_pointer (patch_city patch), Go.decode_pointer (patch_description patch),
             Go.decode_pointer (patch_visited_at patch) with
       | Some n, Some c, Some ci, Some d, Some v =>
           Some {| in_name := n; in_category := c; in_city := ci; in_description := d;
                   in_visited_at := v |}
       | _, _, _, _, _ => None
       end)
    doc.

Section Handlers.

(** [ORDER BY visited_at DESC NULLS LAST, name], under the collation of
    the database. *)
Variable order_places : list Place -> list Place.

(** *** [fetchPlaces] and [fetchCountry] *)
Definition fetchPlaces (countryID : Z) (db : Database) : result (list Place) * Database :=
  statement db (fun db =>
    (order_places
       (map place_of_row
            (map_to_list (filter (fun kv => p_country_id (snd kv) = countryID) (places db)))),
     db)).

Definition fetchCountry (id : Z) (db : Database) : result (option Country) * Database :=
  match statement db (fun db => (countries db !! id, db)) with
  | (Err err, db1) => (Err err, db1)
  | (Ok None, db1) => (Ok None, db1)
  | (Ok (Some row), db1) =>
      match fetchPlaces id db1 with
      | (Err err, db2) => (Err err, db2)
      | (Ok places, db2) =>
          (Ok (Some {| ID := id; Name := c_name row; Description := c_description row;
                       Places := places; CreatedAt := c_created_at row;
                       UpdatedAt := c_updated_at row |}), db2)
      end
  end.

(** *** [updateCountry] *)
Definition updateCountry (db : Database) (idParam : string) (doc : Go.document CountryPatch)
  : HTTPResponse * Database :=
  match parseIDParam idParam with
  | Err err => ({| status := StatusBadRequest; body := ErrorOf err |}, db)
  | Ok id =>
      match bindCountryInput doc with
      | None => ({| status := StatusBadRequest; body := ErrorOf BindError |}, db)
      | Some input =>
          let name :=
            match in_country_name input with
            | Some value =>
                let trimmed := Go.TrimSpace value in
                if negb (String.eqb trimmed "") then Some trimmed else Some ""
            | None => None
            end in
          let description :=
            match in_country_description input with
            | Some value => Some (Go.TrimSpace value)
            | None => None
            end in
          match statement db (sql_update_country name description id) with
          | (Err err, db1) => ({| status := StatusInternalServerError; body := ErrorOf err |}, db1)
          | (Ok affected, db1) =>
              if affected =? 0 then
                ({| status := StatusNotFound; body := ErrorJSON "country not found" |}, db1)
              else
                match fetchCountry id db1 with
                | (Err err, db2) =>
                    ({| status := StatusInternalServerError; body := ErrorOf err |}, db2)
                | (Ok country, db2) => ({| status := StatusOK; body := CountryJSON country |}, db2)
                end
          end
      end
  end.

(** *** [deleteCountry] *)
Definition deleteCountry (db : Database) (idParam : string) : HTTPResponse * Database :=
  match parseIDParam idParam with
  | Err err => ({| status := StatusBadRequest; body := ErrorOf err |}, db)
  | Ok id =>
      match statement db (sql_delete_country id) with
      | (Err err, db1) => ({| status := StatusInternalServerError; body := ErrorOf err |}, db1)
      | (Ok affected, db1) =>
          if affected =? 0 then
            ({| status := StatusNotFound; body := ErrorJSON "country not found" |}, db1)
          else ({| status := StatusNoContent; body := NoBody |}, db1)
      end
  end.

(** *** [updatePlace] *)
Definition updatePlace (db : Database) (idParam : string) (doc : Go.document PlacePatch)
  : HTTPResponse * Database :=
  match parseIDParam idParam with
  | Err err => ({| status := StatusBadRequest; body := ErrorOf err |}, db)
  | Ok placeID =>
      match bindPlaceInput doc with
      | None => ({| status := StatusBadRequest; body := ErrorOf BindError |}, db)
      | Some input =>
          let exec (setVisited : bool) (visitedAt : option Go.date) :=
            let name := Go.TrimSpace <$> in_name input in
            let category := Go.TrimSpace <$> in_category input in
            let city := Go.TrimSpace <$> in_city input in
            let description := Go.TrimSpace <$> in_description input in
            match statement db
                    (sql_update_place name category city description setVisited visitedAt
                       placeID) with
            | (Err err, db1) =>
                ({| status := StatusInternalServerError; body := ErrorOf err |}, db1)
            | (Ok affected, db1) =>
                if affected =? 0 then
                  ({| status := StatusNotFound; body := ErrorJSON "place not found" |}, db1)
                else
                  match statement db1 (sql_place_country placeID) with
                  | (Err err, db2) =>
                      ({| status := StatusInternalServerError; body := ErrorOf err |}, db2)
                  | (Ok None, db2) =>
                      ({| status := StatusInternalServerError; body := ErrorOf ErrNoRows |}, db2)
                  | (Ok (Some countryID), db2) =>
                      match fetchCountry countryID db2 with
                      | (Err err, db3) =>
                          ({| status := StatusInternalServerError; body := ErrorOf err |}, db3)
                      | (Ok country, db3) =>
                          ({| status := StatusOK; body := CountryJSON country |}, db3)
                      end
                  end
            end in
          match in_visited_at input with
          | None => exec false None
          | Some value =>
              if String.eqb value "" then exec true None
              else
                match Go.ParseDate value with
                | None =>
                    ({| status := StatusBadRequest;
                        body := ErrorJSON "invalid visited_at format, expected YYYY-MM-DD" |}, db)
                | Some t => exec true (Some t)
                end
          end
      end
  end.

End Handlers.

End TravelBlog.

(** ** The contract of the specification, in its own words *)

Module Contract.

Definition DEFAULT_PAGE_SIZE : Z := 5.
Definition MAX_PAGE_SIZE : Z := 50.

(** "[page < 1] is clamped to 1." *)
Definition clamp_page (page : Z) : Z := if page <? 1 then 1 else page.

(** "[pageSize <= 0] or [pageSize > MAX_PAGE_SIZE] falls back to
    [DEFAULT_PAGE_SIZE]." *)
Definition pageSize_or_default (pageSize : Z) : Z :=
  if (pageSize <=? 0) || (MAX_PAGE_SIZE <? pageSize) then DEFAULT_PAGE_SIZE else pageSize.

(** [n = ceil (a / b)] for a positive [b]: the least [n] with [a <= n * b]. *)
Definition is_ceiling (n a b : Z) : Prop := (n - 1) * b < a <= n * b.

(** A decimal integer: an optional sign and at least one decimal digit. *)
Definition all_digits (s : string) : bool :=
  forallb Go.isDigit (list_ascii_of_string s).

Definition is_decimal_integer (s : string) : bool :=
  match s with
  | EmptyString => false
  | String c rest =>
      if Ascii.eqb c "+" || Ascii.eqb c "-"
      then negb (String.eqb rest "") && all_digits rest
      else all_digits s
  end.

(** A [page] or [pageSize] parameter that is "empty or not a decimal
    integer". *)
Definition malformed (value : string) : Prop :=
  value = "" \/ is_decimal_integer value = false.

(** A field of a [multi_match] clause, ["name^boost"] or ["name"] (boost
    1), read as the pair of the name and the boost; [None] when the boost
    is not an integer. *)
Fixpoint split_boost (f : string) : string * option string :=
  match f with
  | EmptyString => (EmptyString, None)
  | String c rest =>
      if Ascii.eqb c "^" then (EmptyString, Some rest)
      else let '(name, boost) := split_boost rest in (String c name, boost)
  end.

Definition weighted_field (f : string) : option (string * Z) :=
  match split_boost f with
  | (name, None) => Some (name, 1)
  | (name, Some b) => match Go.ParseInt b with Some w => Some (name, w) | None => None end
  end.

(** A query parameter that occurs in the URL, and one that does not. *)
Definition present (key : string) (values : list (string * string)) : Prop :=
  exists v, In (key, v) values.

Definition absent (key : string) (values : list (string * string)) : Prop :=
  forall v, ~ In (key, v) values.

(** "The external response's price": the [regularMarketPrice] of the first
    result of the chart, when the document holds one. *)
Definition wire_price (body : Go.document Converter.wirePayload) : option float :=
  match body with
  | Go.Document (Go.Value payload) =>
      match Converter.wire_chart payload with
      | Go.Value chart =>
          match Converter.wire_result chart with
          | Go.Value (Go.Value first :: _) =>
              match Converter.wire_meta first with
              | Go.Value meta =>
                  match Converter.wire_regularMarketPrice meta with
                  | Go.Value price => Some price
                  | _ => None
                  end
              | _ => None
              end
          | _ => None
          end
      | _ => None
      end
  | _ => None
  end.

(** An update request with every explicit [null] taken out. *)
Definition without_null {A} (f : Go.field A) : Go.field A :=
  match f with
  | Go.Null => Go.Absent
  | _ => f
  end.

Definition place_without_nulls (patch : TravelBlog.PlacePatch) : TravelBlog.PlacePatch :=
  {| TravelBlog.patch_name := without_null (TravelBlog.patch_name patch);
     TravelBlog.patch_category := without_null (TravelBlog.patch_category patch);
     TravelBlog.patch_city := without_null (TravelBlog.patch_city patch);
     TravelBlog.patch_description := without_null (TravelBlog.patch_description patch);
     TravelBlog.patch_visited_at := without_null (TravelBlog.patch_visited_at patch) |}.

(** [resolve(current, request)], the partial-update resolver of the
    specification, spelled out for the rows of this service over what the
    binding read: a member not read keeps the current value, a value
    replaces it (trimmed; the empty string clears [visited_at], any other
    text is its new date); the database stamps [updated_at]. *)
Definition resolve_text (current : string) (input : option string) : string :=
  match input with
  | None => current
  | Some value => Go.TrimSpace value
  end.

Definition resolve_date (current : option Go.date) (input : option string) : option Go.date :=
  match input with
  | None => current
  | Some value => if String.eqb value "" then None else Go.ParseDate value
  end.

Definition resolve_place (current : TravelBlog.PlaceRow) (input : TravelBlog.placeInput)
    (now : Z) : TravelBlog.PlaceRow :=
  {| TravelBlog.p_country_id := TravelBlog.p_country_id current;
     TravelBlog.p_name := resolve_text (TravelBlog.p_name current) (TravelBlog.in_name input);
     TravelBlog.p_category :=
       resolve_text (TravelBlog.p_category current) (TravelBlog.in_category input);
     TravelBlog.p_city := resolve_text (TravelBlog.p_city current) (TravelBlog.in_city input);
     TravelBlog.p_description :=
       resolve_text (TravelBlog.p_description current) (TravelBlog.in_description input);
     TravelBlog.p_visited_at :=
       resolve_date (TravelBlog.p_visited_at current) (TravelBlog.in_visited_at input);
     TravelBlog.p_created_at := TravelBlog.p_created_at current;
     TravelBlog.p_updated_at := now |}.

Definition resolve_country (current : TravelBlog.CountryRow) (input : TravelBlog.countryInput)
    (now : Z) : TravelBlog.CountryRow :=
  {| TravelBlog.c_name :=
       resolve_text (TravelBlog.c_name current) (TravelBlog.in_country_name input);
     TravelBlog.c_description :=
       resolve_text (TravelBlog.c_description current)
         (TravelBlog.in_country_description input);
     TravelBlog.c_created_at := TravelBlog.c_created_at current;
     TravelBlog.c_updated_at := now |}.

End Contract.

(** ** Concrete environments, to run the handlers on *)

Module Fixtures.

Import SearchEngine.

(** A stand-in for the search API that ignores predicate and sort order:
    the documents in key order, cut to the requested window. *)
Definition unranked_search (docs : gmap string Source) (b : SearchBody)
  : option SearchResult :=
  let all := map (fun kv => {| hit_id := fst kv; hit_source := snd kv |}) (map_to_list docs) in
  Some {| total_value := Z.of_nat (length all);
          hits := take (Z.to_nat (size b)) (drop (Z.to_nat (from b)) all) |}.

(** A search API that reports a fixed total and no hits. *)
Definition counting_search (total : Z) (docs : gmap string Source) (b : SearchBody)
  : option SearchResult :=
  Some {| total_value := total; hits := [] |}.

Definition movie_doc (title genre : string) (rating year : float) : Source :=
  {[ "title" := JString title; "genre" := JString genre;
     "rating" := JNumber rating; "release_year" := JNumber year ]}.

(** The five documents [seedMovies] indexes, under fixed ids. *)
Definition seeded : Cluster :=
  {| docs := {[ "m1" := movie_doc "Inception" "Sci-Fi" 8.75 2010;
                "m2" := movie_doc "The Dark Knight" "Action" 9 2008;
                "m3" := movie_doc "Interstellar" "Sci-Fi" 8.5 2014;
                "m4" := movie_doc "La La Land" "Musical" 8 2016;
                "m5" := movie_doc "The Godfather" "Crime" 9.25 1972 ]};
     fault := Healthy |}.

(** Upper-casing of the ASCII letters, the part of [strings.ToUpper] the
    currency codes need. *)
Definition upper (c : ascii) : ascii :=
  let n := N_of_ascii c in
  if ((97 <=? n) && (n <=? 122))%N then ascii_of_N (n - 32) else c.

Definition asciiToUpper (s : string) : string :=
  string_of_list_ascii (map upper (list_ascii_of_string s)).

(** The part of [strconv.ParseFloat] that reads an unsigned whole number
    below 2^53, which a [float64] holds exactly. *)
Definition parseWholeNumber (s : string) : option float :=
  match s with
  | EmptyString => None
  | _ =>
      match Go.digits 0 s with
      | Some n => if n <? 2 ^ 53 then Some (of_uint63 (Uint63.of_Z n)) else None
      | None => None
      end
  end.

(** The fetcher of [TestConvertHandlerSuccess]. *)
Definition test_fetcher (base target : string) : Converter.result float :=
  Converter.Ok 15000.5%float.

(** A chart document with one result and the given price member. *)
Definition chart_with (price : Go.field float) : Go.document Converter.wirePayload :=
  Go.Document (Go.Value
    {| Converter.wire_chart := Go.Value
         {| Converter.wire_result := Go.Value
              [Go.Value {| Converter.wire_meta := Go.Value
                             {| Converter.wire_regularMarketPrice := price |} |}];
            Converter.wire_error := false |} |}).

(** Networks that answer every request the same way. *)
Definition yahoo_answers (price : Go.field float) (url : string) : Converter.Outcome :=
  Converter.HTTPResponse 200 (chart_with price).

Definition yahoo_down (url : string) : Converter.Outcome :=
  Converter.DoError (Converter.library_error "dial tcp: connection refused").

Definition convert_request (values : list (string * string)) : Converter.Request :=
  {| Converter.Method := "GET"; Converter.URL_Query := values |}.

(** A stand-in for the [ORDER BY] of [fetchPlaces]: the rows as the table
    lists them. *)
Definition as_stored (places : list TravelBlog.Place) : list TravelBlog.Place := places.

Definition france : TravelBlog.CountryRow :=
  {| TravelBlog.c_name := "France"; TravelBlog.c_description := "Wine and cheese";
     TravelBlog.c_created_at := 1000; TravelBlog.c_updated_at := 1000 |}.

Definition eiffel : TravelBlog.PlaceRow :=
  {| TravelBlog.p_country_id := 1; TravelBlog.p_name := "Eiffel Tower";
     TravelBlog.p_category := "Landmark"; TravelBlog.p_city := "Paris";
     TravelBlog.p_description := "Iron lattice tower";
     TravelBlog.p_visited_at := Some {| Go.year := 2024; Go.month := 5; Go.day := 1 |};
     TravelBlog.p_created_at := 1100; TravelBlog.p_updated_at := 1100 |}.

(** One country with one place, a driver that never fails, the clock at
    2000. *)
Definition blog : TravelBlog.Database :=
  {| TravelBlog.countries := {[ 1 := france ]};
     TravelBlog.places := {[ 10 := eiffel ]};
     TravelBlog.now := 2000;
     TravelBlog.faults := [] |}.

(** A place update that mentions no member. *)
Definition no_change : TravelBlog.PlacePatch :=
  {| TravelBlog.patch_name := Go.Absent; TravelBlog.patch_category := Go.Absent;
     TravelBlog.patch_city := Go.Absent; TravelBlog.patch_description := Go.Absent;
     TravelBlog.patch_visited_at := Go.Absent |}.

Definition visited_at_only (f : Go.field string) : TravelBlog.PlacePatch :=
  {| TravelBlog.patch_name := Go.Absent; TravelBlog.patch_category := Go.Absent;
     TravelBlog.patch_city := Go.Absent; TravelBlog.patch_description := Go.Absent;
     TravelBlog.patch_visited_at := f |}.

Definition name_only (f : Go.field string) : TravelBlog.PlacePatch :=
  {| TravelBlog.patch_name := f; TravelBlog.patch_category := Go.Absent;
     TravelBlog.patch_city := Go.Absent; TravelBlog.patch_description := Go.Absent;
     TravelBlog.patch_visited_at := Go.Absent |}.

End Fixtures.

(** ** The search engine backend: the document handlers *)

Module Movies.

Import SearchEngine.

Definition StatusCreated : Z := 201.
Definition StatusBadRequest : Z := 400.

(** An [int] written as a JSON number and decoded into an [interface{}]:
    the [float64] nearest to it. *)
Definition int_to_float64 (z : Z) : float :=
  SF2Prim (binary_normalize prec emax z 0 false).

(** The document [indexMovie] encodes, as a later decoding of the stored
    [_source] into a [map[string]interface{}] shows it.  The [id] of the
    movie is no member of it. *)
Definition movieJSON (movie : Movie) : Source :=
  {[ "title" := JString (Title movie);
     "description" := JString (Description movie);
     "genre" := JString (Genre movie);
     "rating" := JNumber (Rating movie);
     "release_year" := JNumber (int_to_float64 (ReleaseYear movie)) ]}.

(** A movie as a request body holds it, every member possibly absent,
    [null] or mistyped (for [release_year], a number that is no integer
    literal is mistyped). *)
Record MovieDocument := {
  doc_id : Go.field string;
  doc_title : Go.field string;
  doc_description : Go.field string;
  doc_genre : Go.field string;
  doc_rating : Go.field float;
  doc_release_year : Go.field Z
}.

Definition decodeInt (z : Z) : option Z := if Go.inRange z then Some z else None.

Definition decodeMovie (w : MovieDocument) : option Movie :=
  match Go.decode_value "" Some (doc_id w), Go.decode_value "" Some (doc_title w),
        Go.decode_value "" Some (doc_description w), Go.decode_value "" Some (doc_genre w),
        Go.decode_value 0%float Some (doc_rating w),
        Go.decode_value 0 decodeInt (doc_release_year w) with
  | Some i, Some t, Some d, Some g, Some r, Some y =>
      Some {| ID := i; Title := t; Description := d; Genre := g; Rating := r;
              ReleaseYear := y |}
  | _, _, _, _, _, _ => None
  end.

(** [c.ShouldBindJSON(&input)] for a [Movie]: the document is decoded,
    then [binding:"required"] refuses an empty [Title]. *)
Definition ShouldBindJSON (body : Go.document MovieDocument) : option Movie :=
  let zero := {| ID := ""; Title := ""; Description := ""; Genre := ""; Rating := 0;
                 ReleaseYear := 0 |} in
  match Go.decode_document zero decodeMovie body with
  | Some input => if String.eqb (Title input) "" then None else Some input
  | None => None
  end.

(** What the document handlers answer: [gin.H{"error": "..."}] with a
    fixed text, [gin.H{"error": err.Error()}] of a binding error, or a
    movie. *)
Inductive MovieBody :=
| MovieError (error : string)
| BindingError
| MovieJSON (movie : Movie).

Record MovieResponse := { movie_status : Z; movie_body : MovieBody }.

(** The document API, [GET /movies/_doc/<id>]: 200 with the stored
    [_source], 404 when there is none; a failing cluster sends no payload
    the handler can decode. *)
Definition es_Get (es : Cluster) (id : string) : Reply (option Source) :=
  match fault es with
  | Unreachable => TransportError
  | Failing st => Response st None
  | Healthy =>
      match docs es !! id with
      | Some source => Response 200 (Some source)
      | None => Response 404 None
      end
  end.

(** [GET /movies/_count]; the payload is the [count] member as
    [seedMovies] decodes it, [None] for a body that does not decode.  The
    error body of a failing cluster is a JSON object without a [count]
    member: it decodes, and leaves the zero value. *)
Definition es_Count (es : Cluster) : Reply (option Z) :=
  match fault es with
  | Unreachable => TransportError
  | Failing st => Response st (Some 0)
  | Healthy => Response 200 (Some (Z.of_nat (base.size (docs es))))
  end.

(** The movies [seedMovies] indexes. *)
Definition seedData : list Movie :=
  [ {| ID := ""; Title := "Inception";
       Description := "A thief who steals corporate secrets through dream-sharing technology.";
       Genre := "Sci-Fi"; Rating := 0x1.199999999999ap+3; ReleaseYear := 2010 |};
    {| ID := ""; Title := "The Dark Knight";
       Description := "Batman battles the Joker in Gotham City.";
       Genre := "Action"; Rating := 9; ReleaseYear := 2008 |};
    {| ID := ""; Title := "Interstellar";
       Description := "Explorers travel through a wormhole in space in an attempt to ensure humanity's survival.";
       Genre := "Sci-Fi"; Rating := 0x1.1333333333333p+3; ReleaseYear := 2014 |};
    {| ID := ""; Title := "La La Land";
       Description := "A jazz pianist falls for an aspiring actress in Los Angeles.";
       Genre := "Musical"; Rating := 8; ReleaseYear := 2016 |};
    {| ID := ""; Title := "The Godfather";
       Description := "The aging patriarch of an organized crime dynasty transfers control to his reluctant son.";
       Genre := "Crime"; Rating := 0x1.2666666666666p+3; ReleaseYear := 1972 |} ].

Section Handlers.

(** Whether the index takes a document under an id is Elasticsearch's
    business (the mapping of [createMovieIndex], the limits on ids). *)
Variable es_accepts : string -> Source -> bool.

(** The document API, [PUT /movies/_doc/<id>?refresh=true]: the document
    is created (201) or replaced (200), or refused (400). *)
Definition es_Index (es : Cluster) (id : string) (source : Source) : Reply unit * Cluster :=
  match fault es with
  | Unreachable => (TransportError, es)
  | Failing st => (Response st tt, es)
  | Healthy =>
      if es_accepts id source then
        (Response (match docs es !! id with Some _ => 200 | None => 201 end) tt,
         {| docs := <[id := source]> (docs es); fault := Healthy |})
      else (Response 400 tt, es)
  end.

(** *** [indexMovie]

    [Some text] is the error returned.  The encoder refuses NaN and the
    infinities. *)
Definition indexMovie (es : Cluster) (id : string) (movie : Movie) : option string * Cluster :=
  if negb (is_finite (Rating movie)) then (Some "encode movie", es)
  else
    match es_Index es id (movieJSON movie) with
    | (TransportError, es') => (Some "index movie", es')
    | (Response st _, es') =>
        if IsError st then (Some "index response error", es') else (None, es')
    end.

(** *** [handleGetMovie]

    [id] is the path parameter [c.Param("id")], which the route
    [/movies/:id] never leaves empty. *)
Definition handleGetMovie (es : Cluster) (id : string) : MovieResponse :=
  match es_Get es id with
  | TransportError =>
      {| movie_status := StatusInternalServerError; movie_body := MovieError "failed to fetch movie" |}
  | Response st payload =>
      if st =? StatusNotFound then
        {| movie_status := StatusNotFound; movie_body := MovieError "movie not found" |}
      else if IsError st then
        {| movie_status := StatusInternalServerError;
           movie_body := MovieError "failed to fetch movie" |}
      else
        match payload with
        | None =>
            {| movie_status := StatusInternalServerError;
               movie_body := MovieError "failed to decode response" |}
        | Some source =>
            {| movie_status := StatusOK; movie_body := MovieJSON (withID (mapToMovie source) id) |}
        end
  end.

(** *** [handleCreateMovie], [uuid] being what [uuid.NewString()] draws *)
Definition handleCreateMovie (es : Cluster) (uuid : string) (body : Go.document MovieDocument)
  : MovieResponse * Cluster :=
  match ShouldBindJSON body with
  | None => ({| movie_status := StatusBadRequest; movie_body := BindingError |}, es)
  | Some input =>
      let input := withID input uuid in
      match indexMovie es (ID input) input with
      | (Some _, es') =>
          ({| movie_status := StatusInternalServerError;
              movie_body := MovieError "failed to create movie" |}, es')
      | (None, es') => ({| movie_status := StatusCreated; movie_body := MovieJSON input |}, es')
      end
  end.

(** *** [handleUpdateMovie] *)
Definition handleUpdateMovie (es : Cluster) (id : string) (body : Go.document MovieDocument)
  : MovieResponse * Cluster :=
  match ShouldBindJSON body with
  | None => ({| movie_status := StatusBadRequest; movie_body := BindingError |}, es)
  | Some input =>
      let input := withID input id in
      match indexMovie es id input with
      | (Some _, es') =>
          ({| movie_status := StatusInternalServerError;
              movie_body := MovieError "failed to update movie" |}, es')
      | (None, es') => ({| movie_status := StatusOK; movie_body := MovieJSON input |}, es')
      end
  end.

(** *** [seedMovies], [NewString n] being the n-th identifier
    [uuid.NewString()] draws; [Some text] is the error returned.  The
    status of the count reply is not looked at. *)
Fixpoint seedLoop (NewString : nat -> string) (n : nat) (movies : list Movie) (es : Cluster)
  : option string * Cluster :=
  match movies with
  | [] => (None, es)
  | movie :: rest =>
      let movie := withID movie (NewString n) in
      match indexMovie es (ID movie) movie with
      | (Some _, es') => (Some ("seed movie " ++ Title movie), es')
      | (None, es') => seedLoop NewString (S n) rest es'
      end
  end.

Definition seedMovies (NewString : nat -> string) (es : Cluster) : option string * Cluster :=
  match es_Count es with
  | TransportError => (Some "count documents", es)
  | Response _ None => (Some "decode count response", es)
  | Response _ (Some count) =>
      if 0 <? count then (None, es) else seedLoop NewString 0 seedData es
  end.

End Handlers.

End Movies.

(** ** The currency converter backend: the CORS wrapper *)

Module ConverterServer.

Import Converter.

Definition StatusNoContent : Z := 204.

(** What [withCORS next] leaves in the recorder: the headers it set, the
    response, and what the call of [next] yielded beside its response
    ([None] when [next] was not called). *)
Record Served (T : Type) := {
  Header : list (string * string);
  Recorder : ResponseRecorder;
  Next : option T
}.
Arguments Header {T}.
Arguments Recorder {T}.
Arguments Next {T}.

(** *** [withCORS] *)
Definition withCORS {T} (next : Request -> ResponseRecorder * T) (r : Request) : Served T :=
  let header := [("Access-Control-Allow-Origin", "*");
                 ("Access-Control-Allow-Methods", "GET, OPTIONS");
                 ("Access-Control-Allow-Headers", "Content-Type")] in
  if String.eqb (Method r) "OPTIONS" then
    {| Header := header; Recorder := {| Code := StatusNoContent; Body := Empty |}; Next := None |}
  else
    let '(w, t) := next r in
    {| Header := header; Recorder := w; Next := Some t |}.

End ConverterServer.

(** ** The travel blog backend: listing, reading, creating, and deleting a
    place *)

Module Destinations.

Import TravelBlog.

Definition StatusCreated : Z := 201.

(** [INSERT INTO countries(name, description) VALUES($1, $2) RETURNING
    id], [nextval] being what the sequence of [id] yields; the defaults
    stamp both times with [NOW()]. *)
Definition sql_insert_country (name description : string) (nextval : Z) (db : Database)
  : result Z * Database :=
  match countries db !! nextval with
  | Some _ => (Err (DriverError "duplicate key value violates unique constraint"), db)
  | None =>
      (Ok nextval,
       with_tables db
         (<[nextval := {| c_name := name; c_description := description;
                          c_created_at := now db; c_updated_at := now db |}]> (countries db))
         (places db))
  end.

(** [INSERT INTO places(country_id, name, category, city, description,
    visited_at) VALUES(...) RETURNING id]; [country_id] is declared
    [REFERENCES countries(id)]. *)
Definition sql_insert_place (countryID : Z) (name category city description : string)
    (visitedAt : option Go.date) (nextval : Z) (db : Database) : result Z * Database :=
  match countries db !! countryID with
  | None => (Err (DriverError "violates foreign key constraint"), db)
  | Some _ =>
      match places db !! nextval with
      | Some _ => (Err (DriverError "duplicate key value violates unique constraint"), db)
      | None =>
          (Ok nextval,
           with_tables db (countries db)
             (<[nextval := {| p_country_id := countryID; p_name := name;
                              p_category := category; p_city := city;
                              p_description := description; p_visited_at := visitedAt;
                              p_created_at := now db; p_updated_at := now db |}]> (places db)))
      end
  end.

(** [DELETE FROM places WHERE id=$1] *)
Definition sql_delete_place (id : Z) (db : Database) : Z * Database :=
  match places db !! id with
  | None => (0, db)
  | Some _ => (1, with_tables db (countries db) (delete id (places db)))
  end.

(** A statement that may fail on its own account. *)
Definition query {A} (db : Database) (run : Database -> result A * Database)
  : result A * Database :=
  match statement db run with
  | (Err err, db1) => (Err err, db1)
  | (Ok r, db1) => (r, db1)
  end.

(** *** [ShouldBindJSON] into the input structs of the creating handlers

    [binding:"required"] refuses an empty string. *)
Record newCountry := { new_country_name : string; new_country_description : string }.

Record newPlace := {
  new_name : string;
  new_category : string;
  new_city : string;
  new_description : string;
  new_visited_at : option string
}.

Definition bindNewCountry (doc : Go.document CountryPatch) : option newCountry :=
  match
    Go.decode_document {| new_country_name := ""; new_country_description := "" |}
      (fun patch =>
         match Go.decode_value "" Some (patch_country_name patch),
               Go.decode_value "" Some (patch_country_description patch) with
         | Some n, Some d => Some {| new_country_name := n; new_country_description := d |}
         | _, _ => None
         end)
      doc
  with
  | Some input => if String.eqb (new_country_name input) "" then None else Some input
  | None => None
  end.

Definition bindNewPlace (doc : Go.document PlacePatch) : option newPlace :=
  match
    Go.decode_document
      {| new_name := ""; new_category := ""; new_city := ""; new_description := "";
         new_visited_at := None |}
      (fun patch =>
         match Go.decode_value "" Some (patch_name patch),
               Go.decode_value "" Some (patch_category patch),
               Go.decode_value "" Some (patch_city patch),
               Go.decode_value "" Some (patch_description patch),
               Go.decode_pointer (patch_visited_at patch) with
         | Some n, Some c, Some ci, Some d, Some v =>
             Some {| new_name := n; new_category := c; new_city := ci; new_description := d;
                     new_visited_at := v |}
         | _, _, _, _, _ => None
         end)
      doc
  with
  | Some input =>
      if String.eqb (new_name input) "" || String.eqb (new_category input) "" then None
      else Some input
  | None => None
  end.

(** The body of [listCountries]: the slice of countries, [None] for the
    nil slice ([null] on the wire). *)
Inductive ListBody :=
| ListErrorOf (err : error)
| CountriesJSON (countries : option (list Country)).

Record ListResponse := { list_status : Z; list_body : ListBody }.

(** A slice grown by [append] from the nil slice. *)
Definition appended {A} (l : list A) : option (list A) :=
  match l with
  | [] => None
  | _ => Some l
  end.

(** What [Scan] fills in for a row of [countries], with the places read
    for it. *)
Definition country_of_row (id : Z) (row : CountryRow) (places : list Place) : Country :=
  {| ID := id; Name := c_name row; Description := c_description row; Places := places;
     CreatedAt := c_created_at row; UpdatedAt := c_updated_at row |}.

Section Handlers.

Variable order_places : list Place -> list Place.

(** [ORDER BY name], under the collation of the database. *)
Variable order_countries : list (Z * CountryRow) -> list (Z * CountryRow).

(** *** [fetchCountries]: the loop over the rows, then the function *)
Fixpoint scanCountries (rows : list (Z * CountryRow)) (db : Database)
  : result (list Country) * Database :=
  match rows with
  | [] => (Ok [], db)
  | (id, row) :: rest =>
      match fetchPlaces order_places id db with
      | (Err err, db1) => (Err err, db1)
      | (Ok places, db1) =>
          match scanCountries rest db1 with
          | (Err err, db2) => (Err err, db2)
          | (Ok countries, db2) =>
              (Ok (country_of_row id row places :: countries), db2)
          end
      end
  end.

Definition fetchCountries (db : Database) : result (option (list Country)) * Database :=
  match statement db (fun db => (order_countries (map_to_list (countries db)), db)) with
  | (Err err, db1) => (Err err, db1)
  | (Ok rows, db1) =>
      match scanCountries rows db1 with
      | (Err err, db2) => (Err err, db2)
      | (Ok countries, db2) => (Ok (appended countries), db2)
      end
  end.

(** *** [listCountries] *)
Definition listCountries (db : Database) : ListResponse * Database :=
  match fetchCountries db with
  | (Err err, db1) => ({| list_status := StatusInternalServerError; list_body := ListErrorOf err |}, db1)
  | (Ok countries, db1) => ({| list_status := StatusOK; list_body := CountriesJSON countries |}, db1)
  end.

(** *** [getCountry] *)
Definition getCountry (db : Database) (idParam : string) : HTTPResponse * Database :=
  match parseIDParam idParam with
  | Err err => ({| status := StatusBadRequest; body := ErrorOf err |}, db)
  | Ok id =>
      match fetchCountry order_places id db with
      | (Err err, db1) => ({| status := StatusInternalServerError; body := ErrorOf err |}, db1)
      | (Ok None, db1) =>
          ({| status := StatusNotFound; body := ErrorJSON "country not found" |}, db1)
      | (Ok (Some country), db1) =>
          ({| status := StatusOK; body := CountryJSON (Some country) |}, db1)
      end
  end.

(** *** [createCountry] *)
Definition createCountry (db : Database) (nextval : Z) (doc : Go.document CountryPatch)
  : HTTPResponse * Database :=
  match bindNewCountry doc with
  | None => ({| status := StatusBadRequest; body := ErrorOf BindError |}, db)
  | Some input =>
      let name := Go.TrimSpace (new_country_name input) in
      if String.eqb name "" then
        ({| status := StatusBadRequest; body := ErrorJSON "name cannot be empty" |}, db)
      else
        let description := Go.TrimSpace (new_country_description input) in
        match query db (sql_insert_country name description nextval) with
        | (Err err, db1) => ({| status := StatusInternalServerError; body := ErrorOf err |}, db1)
        | (Ok id, db1) =>
            match fetchCountry order_places id db1 with
            | (Err err, db2) =>
                ({| status := StatusInternalServerError; body := ErrorOf err |}, db2)
            | (Ok country, db2) => ({| status := StatusCreated; body := CountryJSON country |}, db2)
            end
        end
  end.

(** *** [createPlace] *)
Definition createPlace (db : Database) (nextval : Z) (idParam : string)
    (doc : Go.document PlacePatch) : HTTPResponse * Database :=
  match parseIDParam idParam with
  | Err err => ({| status := StatusBadRequest; body := ErrorOf err |}, db)
  | Ok countryID =>
      match bindNewPlace doc with
      | None => ({| status := StatusBadRequest; body := ErrorOf BindError |}, db)
      | Some input =>
          let name := Go.TrimSpace (new_name input) in
          let category := Go.TrimSpace (new_category input) in
          let city := Go.TrimSpace (new_city input) in
          let description := Go.TrimSpace (new_description input) in
          if String.eqb name "" || String.eqb category "" then
            ({| status := StatusBadRequest; body := ErrorJSON "name and category are required" |},
             db)
          else
            let insert (visitedAt : option Go.date) :=
              match query db
                      (sql_insert_place countryID name category city description visitedAt
                         nextval) with
              | (Err err, db1) =>
                  ({| status := StatusInternalServerError; body := ErrorOf err |}, db1)
              | (Ok _, db1) =>
                  match fetchCountry order_places countryID db1 with
                  | (Err err, db2) =>
                      ({| status := StatusInternalServerError; body := ErrorOf err |}, db2)
                  | (Ok country, db2) =>
                      ({| status := StatusCreated; body := CountryJSON country |}, db2)
                  end
              end in
            match new_visited_at input with
            | None => insert None
            | Some value =>
                if String.eqb value "" then insert None
                else
                  match Go.ParseDate value with
                  | None =>
                      ({| status := StatusBadRequest;
                          body := ErrorJSON "invalid visited_at format, expected YYYY-MM-DD" |},
                       db)
                  | Some t => insert (Some t)
                  end
            end
      end
  end.

(** *** [deletePlace] *)
Definition deletePlace (db : Database) (idParam : string) : HTTPResponse * Database :=
  match parseIDParam idParam with
  | Err err => ({| status := StatusBadRequest; body := ErrorOf err |}, db)
  | Ok placeID =>
      match statement db (sql_place_country placeID) with
      | (Err err, db1) => ({| status := StatusInternalServerError; body := ErrorOf err |}, db1)
      | (Ok None, db1) => ({| status := StatusNotFound; body := ErrorJSON "place not found" |}, db1)
      | (Ok (Some countryID), db1) =>
          match statement db1 (sql_delete_place placeID) with
          | (Err err, db2) =>
              ({| status := StatusInternalServerError; body := ErrorOf err |}, db2)
          | (Ok affected, db2) =>
              if affected =? 0 then
                ({| status := StatusNotFound; body := ErrorJSON "place not found" |}, db2)
              else
                match fetchCountry order_places countryID db2 with
                | (Err err, db3) =>
                    ({| status := StatusInternalServerError; body := ErrorOf err |}, db3)
                | (Ok country, db3) => ({| status := StatusOK; body := CountryJSON country |}, db3)
                end
          end
      end
  end.

End Handlers.

End Destinations.

(** ** More concrete environments *)

Module Samples.

Import SearchEngine Movies.

(** An index that takes every document. *)
Definition accepts_all (id : string) (source : Source) : bool := true.

(** [{"id": "ignored", "title": "Dune", "genre": "Sci-Fi", "rating": 8,
    "release_year": 2021}] *)
Definition dune : Go.document MovieDocument :=
  Go.Document (Go.Value
    {| doc_id := Go.Value "ignored"; doc_title := Go.Value "Dune";
       doc_description := Go.Absent; doc_genre := Go.Value "Sci-Fi";
       doc_rating := Go.Value 8%float; doc_release_year := Go.Value 2021 |}).

(** What the binding reads from it. *)
Definition dune_read : Movie :=
  {| ID := "ignored"; Title := "Dune"; Description := ""; Genre := "Sci-Fi"; Rating := 8;
     ReleaseYear := 2021 |}.

(** [{"genre": "Sci-Fi"}] *)
Definition untitled : MovieDocument :=
  {| doc_id := Go.Absent; doc_title := Go.Absent; doc_description := Go.Absent;
     doc_genre := Go.Value "Sci-Fi"; doc_rating := Go.Absent;
     doc_release_year := Go.Absent |}.

(** A healthy cluster without a document, and one with a single document
    that carries an [id] member of its own. *)
Definition emptied : Cluster := {| docs := ∅; fault := Healthy |}.

Definition solo : Cluster :=
  {| docs := {[ "m1" := <["id" := JString "stale"]>
                          (Fixtures.movie_doc "Inception" "Sci-Fi" 8.75 2010) ]};
     fault := Healthy |}.

(** A stand-in for [uuid.NewString()]: the n-th identifier drawn. *)
Definition numbered (n : nat) : string :=
  ("seed-" ++ String (ascii_of_nat (48 + n)%nat) EmptyString)%string.

(** A stand-in for the [ORDER BY] of [fetchCountries]. *)
Definition countries_as_stored (rows : list (Z * TravelBlog.CountryRow))
  : list (Z * TravelBlog.CountryRow) := rows.

(** [{"name": "  Japan ", "description": "Temples"}] *)
Definition japan : Go.document TravelBlog.CountryPatch :=
  Go.Document (Go.Value
    {| TravelBlog.patch_country_name := Go.Value "  Japan ";
       TravelBlog.patch_country_description := Go.Value "Temples" |}).

(** [{"name": "   "}] *)
Definition blank_name : TravelBlog.CountryPatch :=
  {| TravelBlog.patch_country_name := Go.Value "   ";
     TravelBlog.patch_country_description := Go.Absent |}.

(** [{"name": "Louvre", "category": "Museum", "city": "Paris",
    "visited_at": "2024-05-02"}] *)
Definition louvre : Go.document TravelBlog.PlacePatch :=
  Go.Document (Go.Value
    {| TravelBlog.patch_name := Go.Value "Louvre";
       TravelBlog.patch_category := Go.Value "Museum";
       TravelBlog.patch_city := Go.Value "Paris";
       TravelBlog.patch_description := Go.Absent;
       TravelBlog.patch_visited_at := Go.Value "2024-05-02" |}).

(** What the binding reads from it. *)
Definition louvre_read : Destinations.newPlace :=
  {| Destinations.new_name := "Louvre"; Destinations.new_category := "Museum";
     Destinations.new_city := "Paris"; Destinations.new_description := "";
     Destinations.new_visited_at := Some "2024-05-02" |}.

(** The blog with a driver that runs one statement and fails the next. *)
Definition blog_failing_second : TravelBlog.Database :=
  {| TravelBlog.countries := {[ 1 := Fixtures.france ]};
     TravelBlog.places := {[ 10 := Fixtures.eiffel ]};
     TravelBlog.now := 2000;
     TravelBlog.faults := [None; Some "connection reset"] |}.

End Samples.

(** * Properties *)

(** ** Integers and [Atoi] *)

Section GoFacts.

Lemma MinInt_eq : Go.MinInt = -9223372036854775808.
Proof. vm_compute. reflexivity. Qed.

Lemma MaxInt_eq : Go.MaxInt = 9223372036854775807.
Proof. vm_compute. reflexivity. Qed.

Lemma two_intSize : 2 ^ Go.intSize = 18446744073709551616.
Proof. vm_compute. reflexivity. Qed.

Lemma wrap_unfold z :
  Go.wrap z = (z + 9223372036854775808) mod 18446744073709551616 - 9223372036854775808.
Proof.
  unfold Go.wrap. rewrite MinInt_eq, two_intSize.
  replace (z - -9223372036854775808) with (z + 9223372036854775808) by lia. lia.
Qed.

Lemma wrap_small z : Go.MinInt <= z <= Go.MaxInt -> Go.wrap z = z.
Proof.
  rewrite MinInt_eq, MaxInt_eq, wrap_unfold. intros H.
  rewrite Z.mod_small; lia.
Qed.

Lemma wrap_range z : Go.MinInt <= Go.wrap z <= Go.MaxInt.
Proof.
  rewrite MinInt_eq, MaxInt_eq, wrap_unfold.
  pose proof (Z.mod_pos_bound (z + 9223372036854775808) 18446744073709551616).
  lia.
Qed.

Lemma inRange_spec z : Go.inRange z = true <-> Go.MinInt <= z <= Go.MaxInt.
Proof. unfold Go.inRange. rewrite andb_true_iff, !Z.leb_le. tauto. Qed.

Lemma ParseInt_range s n : Go.ParseInt s = Some n -> Go.MinInt <= n <= Go.MaxInt.
Proof.
  unfold Go.ParseInt. destruct s as [|c rest]; [discriminate|].
  destruct (if (Ascii.eqb c "+" || Ascii.eqb c "-")%bool then rest else String c rest);
    [discriminate|].
  destruct (Go.digits 0 _) as [un|]; [|discriminate].
  destruct (Go.inRange _) eqn:E; [|discriminate].
  intros [= <-]. now apply inRange_spec.
Qed.

End GoFacts.

(** ** Search: pagination and query building *)

Section SearchProperties.

Import SearchEngine Contract.

Variable es_search : gmap string Source -> SearchBody -> option SearchResult.

Lemma parseIntWithDefault_range value def :
  Go.MinInt <= def <= Go.MaxInt ->
  Go.MinInt <= parseIntWithDefault value def <= Go.MaxInt.
Proof.
  intros Hdef. unfold parseIntWithDefault.
  destruct (String.eqb value ""); [assumption|].
  unfold Go.Atoi. destruct (Go.ParseInt value) eqn:E; [|assumption].
  eauto using ParseInt_range.
Qed.

Lemma clamp_page_range page :
  page <= Go.MaxInt -> 1 <= clamp_page page <= Go.MaxInt.
Proof.
  rewrite MaxInt_eq. unfold clamp_page. destruct (Z.ltb_spec page 1); lia.
Qed.

Lemma pageSize_or_default_range pageSize :
  1 <= pageSize_or_default pageSize <= 50.
Proof.
  unfold pageSize_or_default, MAX_PAGE_SIZE, DEFAULT_PAGE_SIZE.
  destruct (Z.leb_spec pageSize 0), (Z.ltb_spec 50 pageSize); simpl; lia.
Qed.

(** The one search body a request produces. *)
Lemma handleSearchMovies_sends es params :
  snd (handleSearchMovies es_search es params) =
  [ {| from := Go.mul (Go.sub (clamp_page (parseIntWithDefault (Query params "page") 1)) 1)
                      (pageSize_or_default (parseIntWithDefault (Query params "pageSize") 5));
       size := pageSize_or_default (parseIntWithDefault (Query params "pageSize") 5);
       sort := [("rating", "desc")];
       query := if String.eqb (Query params "q") "" then match_all
                else multi_match (Query params "q") ["title^2"; "description"; "genre"] |} ].
Proof.
  unfold handleSearchMovies. cbv zeta.
  destruct (es_Search _ _ _) as [|st [r|]]; [reflexivity| |];
    destruct (IsError st); reflexivity.
Qed.

(** What a 200 answer carries. *)
Lemma handleSearchMovies_ok es params movies pg :
  body (fst (handleSearchMovies es_search es params)) = SearchJSON movies pg ->
  Page pg = clamp_page (parseIntWithDefault (Query params "page") 1)
  /\ PageSize pg = pageSize_or_default (parseIntWithDefault (Query params "pageSize") 5)
  /\ TotalPages pg = Go.quo (Go.sub (Go.add (TotalHits pg) (PageSize pg)) 1) (PageSize pg).
Proof.
  unfold handleSearchMovies. cbv zeta.
  destruct (es_Search _ _ _) as [|st [r|]]; [discriminate| |];
    destruct (IsError st); try discriminate.
  simpl. intros [= _ <-]. simpl. auto.
Qed.

Lemma wrap_sub_wrap_add a b c :
  Go.sub (Go.add a b) c = Go.wrap (a + b - c).
Proof.
  unfold Go.sub, Go.add. rewrite !wrap_unfold.
  replace ((a + b + 9223372036854775808) mod 18446744073709551616 - 9223372036854775808 - c
           + 9223372036854775808)
    with ((a + b + 9223372036854775808) mod 18446744073709551616 + - c) by lia.
  rewrite Z.add_mod_idemp_l by lia.
  do 2 f_equal. lia.
Qed.

Lemma digits_all_digits s : forall acc n,
  Go.digits acc s = Some n -> all_digits s = true.
Proof.
  unfold all_digits. induction s as [|c s IH]; intros acc n; simpl; [reflexivity|].
  destruct (Go.isDigit c); [|discriminate]. intros H. simpl. eauto.
Qed.

Lemma ParseInt_not_decimal s : is_decimal_integer s = false -> Go.ParseInt s = None.
Proof.
  destruct s as [|c rest]; [reflexivity|]. unfold is_decimal_integer, Go.ParseInt.
  destruct (Ascii.eqb c "+" || Ascii.eqb c "-")%bool.
  - destruct rest as [|d rest]; [reflexivity|]. simpl negb. rewrite andb_true_l. intros H.
    destruct (Go.digits 0 (String d rest)) eqn:E; [|reflexivity].
    apply digits_all_digits in E. congruence.
  - intros H. destruct (Go.digits 0 (String c rest)) eqn:E; [|reflexivity].
    apply digits_all_digits in E. congruence.
Qed.

Lemma parseIntWithDefault_malformed value def :
  malformed value -> parseIntWithDefault value def = def.
Proof.
  unfold parseIntWithDefault. intros [-> | H]; [reflexivity|].
  destruct (String.eqb value ""); [reflexivity|].
  unfold Go.Atoi. now rewrite ParseInt_not_decimal.
Qed.

Lemma handleSearchMovies_status es params :
  status (fst (handleSearchMovies es_search es params)) = 200
  \/ status (fst (handleSearchMovies es_search es params)) = 500.
Proof.
  unfold handleSearchMovies. cbv zeta.
  destruct (es_Search _ _ _) as [|st [r|]]; [now right| |];
    destruct (IsError st); simpl; auto.
Qed.

(** The offset within range.  The search body carries [size] = the page
    size after substitution (5 for a requested size outside 1..50) and
    [from] = [(page - 1) * pageSize] over the clamped page (1 for a requested
    page below 1), computed in wrapping [int] arithmetic: the exact product
    whenever that product fits an [int]. *)
Theorem search_offset_of_clamped_page es params :
  let page := clamp_page (parseIntWithDefault (Query params "page") 1) in
  let pageSize := pageSize_or_default (parseIntWithDefault (Query params "pageSize") 5) in
  exists b,
    snd (handleSearchMovies es_search es params) = [b]
    /\ size b = pageSize
    /\ from b = Go.wrap ((page - 1) * pageSize)
    /\ ((page - 1) * pageSize <= Go.MaxInt -> from b = (page - 1) * pageSize).
Proof.
  intros page pageSize. eexists. split; [apply handleSearchMovies_sends|].
  cbn [size from]. fold page pageSize.
  assert (Hp : 1 <= page <= Go.MaxInt).
  { apply clamp_page_range, parseIntWithDefault_range. rewrite MinInt_eq, MaxInt_eq. lia. }
  assert (Hs : 1 <= pageSize <= 50) by apply pageSize_or_default_range.
  assert (Hfrom : Go.mul (Go.sub page 1) pageSize = Go.wrap ((page - 1) * pageSize)).
  { unfold Go.mul, Go.sub. rewrite (wrap_small (page - 1)); [reflexivity|].
    rewrite MinInt_eq, MaxInt_eq in *. lia. }
  repeat split; [exact Hfrom|]. intros Hfit. rewrite Hfrom. apply wrap_small.
  rewrite MinInt_eq. nia.
Qed.

(** C4.  In a 200 answer the page size is at least 1 and, for a
    non-negative total with [total_hits + pageSize - 1] within [int],
    [total_pages] is [(total_hits + pageSize - 1) / pageSize], the ceiling of
    [total_hits / pageSize]: 0 for no hits, 1 for 5 hits in pages of 5.  The
    search body asks for no exact count ([track_total_hits] is not set), so
    the total of a reply is 10000 at most and the sum is within [int]. *)
Theorem total_pages_is_ceiling es params movies pg :
  body (fst (handleSearchMovies es_search es params)) = SearchJSON movies pg ->
  0 <= TotalHits pg ->
  TotalHits pg + PageSize pg - 1 <= Go.MaxInt ->
  1 <= PageSize pg
  /\ TotalPages pg = (TotalHits pg + PageSize pg - 1) / PageSize pg
  /\ is_ceiling (TotalPages pg) (TotalHits pg) (PageSize pg)
  /\ (TotalHits pg = 0 -> TotalPages pg = 0)
  /\ (TotalHits pg = 5 -> PageSize pg = 5 -> TotalPages pg = 1).
Proof.
  intros Hok Hnonneg Hfit. apply handleSearchMovies_ok in Hok as (_ & Hsize & Hpages).
  pose proof (pageSize_or_default_range (parseIntWithDefault (Query params "pageSize") 5)) as Hs.
  rewrite <- Hsize in Hs. set (t := TotalHits pg) in *. set (ps := PageSize pg) in *.
  assert (Hq : TotalPages pg = (t + ps - 1) / ps).
  { rewrite Hpages, wrap_sub_wrap_add. rewrite MaxInt_eq in Hfit.
    rewrite (wrap_small (t + ps - 1)) by (rewrite MinInt_eq, MaxInt_eq; lia).
    unfold Go.quo. rewrite Z.quot_div_nonneg by lia.
    apply wrap_small. rewrite MinInt_eq, MaxInt_eq.
    split; [pose proof (Z.div_pos (t + ps - 1) ps); lia|].
    apply Z.le_trans with (t + ps - 1); [|lia].
    apply Z.div_le_upper_bound; nia. }
  split; [lia|]. split; [exact Hq|]. rewrite Hq.
  pose proof (Z.div_mod (t + ps - 1) ps ltac:(lia)) as Hdm.
  pose proof (Z.mod_pos_bound (t + ps - 1) ps ltac:(lia)) as Hmod.
  split; [unfold is_ceiling; nia|].
  split.
  - intros Ht. apply Z.div_small. lia.
  - intros Ht Hps. rewrite Ht, Hps. reflexivity.
Qed.

(** C5.  The one search body a request produces holds [match_all] when
    [q] is empty and otherwise a [multi_match] on [q] over exactly title
    (boost 2), description and genre (boost 1 each). *)
Theorem search_predicate_of_query es params :
  exists b,
    snd (handleSearchMovies es_search es params) = [b]
    /\ (Query params "q" = "" -> query b = match_all)
    /\ (Query params "q" <> "" ->
        query b = multi_match (Query params "q") ["title^2"; "description"; "genre"])
    /\ (forall q fields, query b = multi_match q fields ->
        q = Query params "q"
        /\ map weighted_field fields
           = [Some ("title", 2); Some ("description", 1); Some ("genre", 1)]).
Proof.
  eexists. split; [apply handleSearchMovies_sends|]. cbn [query].
  destruct (String.eqb_spec (Query params "q") "") as [E|E].
  - repeat split; try congruence; discriminate.
  - split; [congruence|]. split; [reflexivity|].
    intros q fields [= <- <-]. split; reflexivity.
Qed.

(** C9.  A request whose [page] (or [pageSize]) parameter is empty or not
    a decimal integer is searched with page 1 (or page size 5): the search
    body is sent all the same, and the answer is a 200 or a 500, never a
    4xx. *)
Theorem malformed_paging_falls_back es params :
  exists b,
    snd (handleSearchMovies es_search es params) = [b]
    /\ (status (fst (handleSearchMovies es_search es params)) = 200
        \/ status (fst (handleSearchMovies es_search es params)) = 500)
    /\ (malformed (Query params "page") ->
        from b = 0
        /\ forall movies pg,
             body (fst (handleSearchMovies es_search es params)) = SearchJSON movies pg ->
             Page pg = 1)
    /\ (malformed (Query params "pageSize") ->
        size b = 5
        /\ forall movies pg,
             body (fst (handleSearchMovies es_search es params)) = SearchJSON movies pg ->
             PageSize pg = 5).
Proof.
  eexists. split; [apply handleSearchMovies_sends|]. cbn [size from].
  split; [apply handleSearchMovies_status|]. split.
  - intros Hbad. rewrite (parseIntWithDefault_malformed _ 1 Hbad). split.
    + change (clamp_page 1) with 1. unfold Go.sub. rewrite (wrap_small (1 - 1)) by
        (rewrite MinInt_eq, MaxInt_eq; lia).
      unfold Go.mul. simpl Z.mul. apply wrap_small. rewrite MinInt_eq, MaxInt_eq; lia.
    + intros movies pg Hok. apply handleSearchMovies_ok in Hok as (-> & _).
      now rewrite (parseIntWithDefault_malformed _ 1 Hbad).
  - intros Hbad. rewrite (parseIntWithDefault_malformed _ 5 Hbad). split; [reflexivity|].
    intros movies pg Hok. apply handleSearchMovies_ok in Hok as (_ & -> & _).
    now rewrite (parseIntWithDefault_malformed _ 5 Hbad).
Qed.

End SearchProperties.

(** *** The search properties on concrete requests *)

Section SearchRuns.

Import SearchEngine Contract Fixtures.

(** Page 3 in pages of 10 starts at offset 20. *)
Lemma search_offset_page_three :
  exists b,
    snd (handleSearchMovies unranked_search seeded [("page", "3"); ("pageSize", "10")]) = [b]
    /\ size b = 10
    /\ from b = 20
    /\ (20 <= 9223372036854775807 -> from b = 20).
Proof.
  exact (search_offset_of_clamped_page unranked_search seeded
           [("page", "3"); ("pageSize", "10")]).
Defined.

(** C3.  The offset is not [(page - 1) * pageSize] for every request: the
    page is clamped from below only, and the multiplication wraps.  Page
    368934881474191034 in pages of 50 is searched from offset 34, and the
    largest page an [int] holds from offset -100. *)
Lemma search_offset_wraps_for_large_page :
  (exists b,
     snd (handleSearchMovies unranked_search seeded
            [("page", "368934881474191034"); ("pageSize", "50")]) = [b]
     /\ clamp_page (parseIntWithDefault "368934881474191034" 1) = 368934881474191034
     /\ size b = 50
     /\ from b = 34
     /\ (368934881474191034 - 1) * 50 = 18446744073709551650)
  /\ (exists b,
     snd (handleSearchMovies unranked_search seeded
            [("page", "9223372036854775807"); ("pageSize", "50")]) = [b]
     /\ clamp_page (parseIntWithDefault "9223372036854775807" 1) = 9223372036854775807
     /\ size b = 50
     /\ from b = -100
     /\ (9223372036854775807 - 1) * 50 = 461168601842738790300).
Proof.
  split; (eexists; split; [vm_compute; reflexivity|]); vm_compute; repeat split; reflexivity.
Qed.

(** C4, the scenario of the specification: five records, [q] empty, page 1
    in pages of 5: all five are returned and [total_pages] is 1. *)
Lemma total_pages_five_of_five :
  exists movies pg,
    fst (handleSearchMovies unranked_search seeded
           [("q", ""); ("page", "1"); ("pageSize", "5")])
    = {| status := 200; body := SearchJSON movies pg |}
    /\ length movies = 5%nat
    /\ TotalHits pg = 5
    /\ TotalPages pg = 1.
Proof.
  eexists _, _. split; [vm_compute; reflexivity|]. split; [reflexivity|]. split; [reflexivity|].
  eapply (total_pages_is_ceiling unranked_search seeded
            [("q", ""); ("page", "1"); ("pageSize", "5")]).
  - vm_compute. reflexivity.
  - vm_compute. discriminate.
  - vm_compute. discriminate.
  - reflexivity.
  - reflexivity.
Defined.

(** The bound on the sum is needed: [totalHits + pageSize - 1] is [int]
    arithmetic, and for a total of [MaxInt] hits, which no reply to this
    search body reports, the page count in pages of 5 would wrap below
    zero. *)
Lemma total_pages_wraps_for_large_total :
  exists movies pg,
    fst (handleSearchMovies (counting_search 9223372036854775807) seeded [("pageSize", "5")])
    = {| status := 200; body := SearchJSON movies pg |}
    /\ 0 <= TotalHits pg
    /\ 1 <= PageSize pg
    /\ TotalPages pg = -1844674407370955161
    /\ ~ is_ceiling (TotalPages pg) (TotalHits pg) (PageSize pg).
Proof.
  eexists _, _. split; [vm_compute; reflexivity|]. cbn [TotalHits PageSize TotalPages].
  split; [lia|]. split; [lia|]. split; [reflexivity|]. unfold is_ceiling. lia.
Qed.

(** C5, two instances: a text query and an empty one. *)
Lemma search_predicate_runs :
  (exists b,
     snd (handleSearchMovies unranked_search seeded [("q", "dark knight")]) = [b]
     /\ query b = multi_match "dark knight" ["title^2"; "description"; "genre"])
  /\ (exists b,
     snd (handleSearchMovies unranked_search seeded [("page", "2")]) = [b]
     /\ query b = match_all).
Proof.
  split.
  - destruct (search_predicate_of_query unranked_search seeded [("q", "dark knight")])
      as (b & Hb & _ & Hq & _).
    exists b. split; [exact Hb|]. apply Hq. discriminate.
  - destruct (search_predicate_of_query unranked_search seeded [("page", "2")])
      as (b & Hb & Hq & _).
    exists b. split; [exact Hb|]. apply Hq. reflexivity.
Defined.

(** C9, an instance: [page=abc] and an empty [pageSize]. *)
Lemma malformed_paging_run :
  exists b,
    snd (handleSearchMovies unranked_search seeded [("page", "abc"); ("pageSize", "")]) = [b]
    /\ from b = 0
    /\ size b = 5.
Proof.
  destruct (malformed_paging_falls_back unranked_search seeded
              [("page", "abc"); ("pageSize", "")]) as (b & Hb & _ & Hpage & Hsize).
  exists b. split; [exact Hb|]. split.
  - apply Hpage. right. reflexivity.
  - apply Hsize. left. reflexivity.
Defined.

End SearchRuns.

(** ** The converter: fetching and converting *)

Section FloatFacts.

(** Multiplying a binary64 number by 1 gives the number back. *)
Lemma SFmul_one_r (x : spec_float) :
  valid_binary x = true ->
  SFmul prec emax x (S754_finite false 4503599627370496 (-52)) = x.
Proof.
  destruct x as [s|s| |s m e]; simpl; intros Hv; try (destruct s; reflexivity); [reflexivity|].
  unfold bounded, canonical_mantissa in Hv.
  apply andb_prop in Hv as [Hc Hb]. apply Z.eqb_eq in Hc.
  replace (xorb s false) with s by (destruct s; reflexivity).
  rewrite Pos.mul_comm.
  unfold binary_round_aux, shr_fexp.
  cbv [Pos.mul]. cbn [Zdigits2 digits2_pos shr_record_of_loc].
  match goal with
  | |- context [SpecFloat.fexp prec emax ?a - ?b] =>
      replace (SpecFloat.fexp prec emax a - b) with 52
  end.
  2:{ match goal with
      | |- context [SpecFloat.fexp prec emax ?a] =>
          replace a with (Z.pos (digits2_pos m) + e) by (rewrite !Pos2Z.inj_succ; lia)
      end.
      rewrite Hc. lia. }
  cbn [shr SpecFloat.iter_pos shr_1 orb shr_m loc_of_shr_record round_nearest_even Zdigits2].
  replace (e + -52 + 52) with e by lia.
  rewrite Hc, Z.sub_diag. cbn [shr shr_m]. rewrite Hb. reflexivity.
Qed.

Lemma float_mul_one_r (x : float) : (x * 1)%float = x.
Proof.
  apply Prim2SF_inj. rewrite FloatAxioms.mul_spec. unfold SF64mul.
  change (Prim2SF 1) with (S754_finite false 4503599627370496 (-52)).
  apply SFmul_one_r, Prim2SF_valid.
Qed.

End FloatFacts.

Section ConverterProperties.

Import Converter Contract.

Lemma Get_absent key values : absent key values -> Get values key = "".
Proof.
  unfold absent. induction values as [|[k v] rest IH]; intros Habs; [reflexivity|]. simpl.
  destruct (String.eqb_spec k key) as [->|Hne].
  - exfalso. apply (Habs v). now left.
  - apply IH. intros w Hin. apply (Habs w). now right.
Qed.

(** What a decoded payload holds for the first price: the price on the
    wire, or the zero value when the wire has none. *)
Lemma Decode_first_price body payload first rest :
  Decode body = Some payload ->
  Result (Chart_of payload) = first :: rest ->
  RegularMarketPrice (Meta_of first)
  = match wire_price body with Some price => price | None => 0%float end.
Proof.
  unfold Decode, wire_price.
  destruct body as [|[| |[chart]|]]; simpl; try discriminate.
  { intros [= <-]. discriminate. }
  destruct chart as [| |[results err]|]; simpl; try discriminate;
    try (intros [= <-]; discriminate).
  unfold decodeChart. simpl.
  destruct results as [| |results|]; simpl; try discriminate;
    try (intros [= <-]; discriminate).
  destruct results as [|item more]; simpl; [intros [= <-]; discriminate|].
  destruct item as [| |[meta]|]; simpl; try discriminate;
    try (destruct (Go.decode_list _ more); simpl; try discriminate;
         intros [= <-]; simpl; intros [= <- _]; reflexivity).
  unfold decodeResult. simpl.
  destruct meta as [| |[price]|]; simpl; try discriminate;
    try (destruct (Go.decode_list _ more); simpl; try discriminate;
         intros [= <-]; simpl; intros [= <- _]; reflexivity).
  unfold decodeMeta. simpl.
  destruct price as [| |price|]; simpl; try discriminate;
    destruct (Go.decode_list _ more); simpl; try discriminate;
    intros [= <-]; simpl; intros [= <- _]; reflexivity.
Qed.

Lemma fetchRate_ok yahoo base target rate :
  fetchRate yahoo base target = Ok rate ->
  exists body payload first rest,
    yahoo (endpoint base target) = HTTPResponse 200 body
    /\ Decode body = Some payload
    /\ Error (Chart_of payload) = false
    /\ Result (Chart_of payload) = first :: rest
    /\ RegularMarketPrice (Meta_of first) = rate
    /\ (rate =? 0)%float = false.
Proof.
  unfold fetchRate. destruct (yahoo _) as [err|err|st body] eqn:Hy; try discriminate.
  destruct (Z.eqb_spec st StatusOK) as [->|Hst]; simpl; [|discriminate].
  destruct (Decode body) as [payload|] eqn:Hdec; [|discriminate].
  destruct (Error (Chart_of payload)) eqn:Herr; [discriminate|].
  destruct (Result (Chart_of payload)) as [|first rest] eqn:Hres; [discriminate|].
  destruct (RegularMarketPrice (Meta_of first) =? 0)%float eqn:Hz; [discriminate|].
  intros [= <-]. exists body, payload, first, rest. repeat split; auto.
Qed.

Section Handler.

Variable ToUpper : string -> string.
Variable ParseFloat : string -> option float.
Variable rateFetcher : string -> string -> result float.

Abbreviation handler := (convertHandler ToUpper ParseFloat rateFetcher).

(** A call to the fetcher that fails ends in the 502 of [http.Error]. *)
Lemma convertHandler_fetch_failed r base target err :
  snd (handler r) = [(base, target)] ->
  rateFetcher base target = Err err ->
  fst (handler r) = http_Error "failed to fetch rate" StatusBadGateway.
Proof.
  unfold convertHandler.
  destruct (negb (String.eqb (Method r) "GET")); [discriminate|].
  destruct (String.eqb _ "" || String.eqb _ "")%bool; [discriminate|].
  destruct (negb (String.eqb (Get (URL_Query r) "amount") "")).
  - destruct (ParseFloat _); [|discriminate].
    destruct (rateFetcher _ _) eqn:Hf; simpl; intros [= <- <-] Herr; [congruence|reflexivity].
  - destruct (rateFetcher _ _) eqn:Hf; simpl; intros [= <- <-] Herr; [congruence|reflexivity].
Qed.

(** What a JSON answer holds. *)
Lemma convertHandler_json r resp :
  Body (fst (handler r)) = JSON resp ->
  Code (fst (handler r)) = 200
  /\ snd (handler r) = [(Base resp, Target resp)]
  /\ rateFetcher (Base resp) (Target resp) = Ok (Rate resp)
  /\ Converted resp = (Rate resp * Amount resp)%float
  /\ (if String.eqb (Get (URL_Query r) "amount") "" then Amount resp = 1%float
      else ParseFloat (Get (URL_Query r) "amount") = Some (Amount resp)).
Proof.
  unfold convertHandler.
  destruct (negb (String.eqb (Method r) "GET")); [discriminate|].
  destruct (String.eqb _ "" || String.eqb _ "")%bool; [discriminate|].
  destruct (String.eqb (Get (URL_Query r) "amount") ""); simpl negb; cbv iota.
  - destruct (rateFetcher _ _) eqn:Hf; [|discriminate]. unfold Encode. cbn [fst snd].
    match goal with |- context [if ?c then _ else _] => destruct c end; [|discriminate].
    cbn [Body Code]. intros [= <-]. cbn. auto.
  - destruct (ParseFloat _) eqn:Hp; [|discriminate].
    destruct (rateFetcher _ _) eqn:Hf; [|discriminate]. unfold Encode. cbn [fst snd].
    match goal with |- context [if ?c then _ else _] => destruct c end; [|discriminate].
    cbn [Body Code]. intros [= <-]. cbn. auto.
Qed.

(** C7 (as amended).  A GET request whose [amount] parameter is not empty
    and does not parse as a number is answered 400 with a validation
    message, and the rate fetcher is not called.  An empty [amount] is not
    parsed at all: a request that carries one and is answered with a JSON
    body was converted with amount 1. *)
Theorem unparseable_amount_is_bad_request r :
  (Method r = "GET" ->
   Get (URL_Query r) "amount" <> "" ->
   ParseFloat (Get (URL_Query r) "amount") = None ->
   Code (fst (handler r)) = 400
   /\ (Body (fst (handler r)) = Text ("amount must be a number" ++ newline)
       \/ Body (fst (handler r))
          = Text ("base and target query parameters are required" ++ newline))
   /\ snd (handler r) = [])
  /\ (Get (URL_Query r) "amount" = "" ->
      forall resp, Body (fst (handler r)) = JSON resp -> Amount resp = 1%float).
Proof.
  split.
  - intros Hget Hne Hparse. unfold convertHandler. rewrite Hget.
    change (String.eqb "GET" "GET") with true. cbn [negb].
    destruct (String.eqb _ "" || String.eqb _ "")%bool; [cbn; auto|].
    apply String.eqb_neq in Hne. rewrite Hne, Hparse. cbn. auto.
  - intros Hempty resp Hbody.
    apply convertHandler_json in Hbody as (_ & _ & _ & _ & Hamount).
    now rewrite Hempty in Hamount.
Qed.

(** The pair and the source a JSON answer names. *)
Lemma convertHandler_json_pair r resp :
  Body (fst (handler r)) = JSON resp ->
  Base resp = ToUpper (Get (URL_Query r) "base")
  /\ Target resp = ToUpper (Get (URL_Query r) "target")
  /\ Source resp = "yahoo-finance".
Proof.
  unfold convertHandler.
  destruct (negb (String.eqb (Method r) "GET")); [discriminate|].
  destruct (String.eqb _ "" || String.eqb _ "")%bool; [discriminate|].
  destruct (String.eqb (Get (URL_Query r) "amount") ""); simpl negb; cbv iota.
  - destruct (rateFetcher _ _) eqn:Hf; [|discriminate]. unfold Encode. cbn [fst snd].
    match goal with |- context [if ?c then _ else _] => destruct c end; [|discriminate].
    cbn [Body Code]. intros [= <-]. cbn. auto.
  - destruct (ParseFloat _) eqn:Hp; [|discriminate].
    destruct (rateFetcher _ _) eqn:Hf; [|discriminate]. unfold Encode. cbn [fst snd].
    match goal with |- context [if ?c then _ else _] => destruct c end; [|discriminate].
    cbn [Body Code]. intros [= <-]. cbn. auto.
Qed.

(** The answer to a GET request that names both currencies, whose amount
    (1 without one) and rate are numbers and whose product is finite. *)
Lemma convertHandler_converts r amount rate :
  Method r = "GET" ->
  ToUpper (Get (URL_Query r) "base") <> "" ->
  ToUpper (Get (URL_Query r) "target") <> "" ->
  (if String.eqb (Get (URL_Query r) "amount") "" then amount = 1%float
   else ParseFloat (Get (URL_Query r) "amount") = Some amount) ->
  rateFetcher (ToUpper (Get (URL_Query r) "base")) (ToUpper (Get (URL_Query r) "target"))
  = Ok rate ->
  is_finite amount = true ->
  is_finite rate = true ->
  is_finite (rate * amount) = true ->
  handler r
  = ({| Code := 200;
        Body := JSON {| Base := ToUpper (Get (URL_Query r) "base");
                        Target := ToUpper (Get (URL_Query r) "target");
                        Amount := amount; Rate := rate; Converted := rate * amount;
                        Source := "yahoo-finance" |} |},
     [(ToUpper (Get (URL_Query r) "base"), ToUpper (Get (URL_Query r) "target"))]).
Proof.
  intros Hget Hbase Htarget Hamount Hrate Hfa Hfr Hfc. unfold convertHandler.
  rewrite Hget. change (String.eqb "GET" "GET") with true. cbn [negb].
  apply String.eqb_neq in Hbase, Htarget. rewrite Hbase, Htarget. cbn [orb].
  destruct (String.eqb (Get (URL_Query r) "amount") ""); cbn [negb].
  - subst amount. rewrite Hrate. unfold Encode. cbn [Amount Rate Converted].
    now rewrite Hfa, Hfr, Hfc.
  - rewrite Hamount, Hrate. unfold Encode. cbn [Amount Rate Converted].
    now rewrite Hfa, Hfr, Hfc.
Qed.

(** C10.  A request answered with a JSON body carries [converted = rate *
    amount], the binary64 product, where [rate] is what the fetcher returned
    for the upper-cased pair of the request and [amount] is what the
    [amount] parameter parses to; without an [amount] parameter the amount
    is 1 and [converted] is [rate] itself.  And a GET request that names both
    currencies is answered so, whenever its amount (1 without one) and the
    rate fetched are numbers with a finite product. *)
Theorem converted_is_rate_times_amount r :
  (forall resp,
      fst (handler r) = {| Code := 200; Body := JSON resp |} ->
      Converted resp = (Rate resp * Amount resp)%float
      /\ rateFetcher (Base resp) (Target resp) = Ok (Rate resp)
      /\ Base resp = ToUpper (Get (URL_Query r) "base")
      /\ Target resp = ToUpper (Get (URL_Query r) "target")
      /\ (Get (URL_Query r) "amount" <> "" ->
          ParseFloat (Get (URL_Query r) "amount") = Some (Amount resp))
      /\ (Get (URL_Query r) "amount" = "" ->
          Amount resp = 1%float /\ Converted resp = Rate resp)
      /\ (absent "amount" (URL_Query r) ->
          Amount resp = 1%float /\ Converted resp = Rate resp))
  /\ (forall amount rate,
        Method r = "GET" ->
        ToUpper (Get (URL_Query r) "base") <> "" ->
        ToUpper (Get (URL_Query r) "target") <> "" ->
        (if String.eqb (Get (URL_Query r) "amount") "" then amount = 1%float
         else ParseFloat (Get (URL_Query r) "amount") = Some amount) ->
        rateFetcher (ToUpper (Get (URL_Query r) "base"))
          (ToUpper (Get (URL_Query r) "target")) = Ok rate ->
        is_finite amount = true ->
        is_finite rate = true ->
        is_finite (rate * amount) = true ->
        handler r
        = ({| Code := 200;
              Body := JSON {| Base := ToUpper (Get (URL_Query r) "base");
                              Target := ToUpper (Get (URL_Query r) "target");
                              Amount := amount; Rate := rate; Converted := rate * amount;
                              Source := "yahoo-finance" |} |},
           [(ToUpper (Get (URL_Query r) "base"), ToUpper (Get (URL_Query r) "target"))])).
Proof.
  split; [|apply convertHandler_converts].
  intros resp Hok. assert (Hbody : Body (fst (handler r)) = JSON resp) by now rewrite Hok.
  pose proof (convertHandler_json_pair _ _ Hbody) as (Hbase & Htarget & _).
  apply convertHandler_json in Hbody as (_ & _ & Hrate & Hconv & Hamount).
  split; [exact Hconv|]. split; [exact Hrate|]. split; [exact Hbase|]. split; [exact Htarget|].
  assert (Hone : Get (URL_Query r) "amount" = "" ->
                 Amount resp = 1%float /\ Converted resp = Rate resp).
  { intros Hempty. rewrite Hempty in Hamount. cbn in Hamount.
    split; [exact Hamount|]. rewrite Hconv, Hamount. apply float_mul_one_r. }
  split; [|split; [exact Hone|]].
  - intros Hne. apply String.eqb_neq in Hne. now rewrite Hne in Hamount.
  - intros Habs. apply Hone. now apply Get_absent.
Qed.

End Handler.

(** C6.  [fetchRate] returns an error when the request cannot be built or
    sent, when the status is not 200, when the body does not decode, and
    when the price of the first result is missing or zero; a rate it returns
    is never zero.  Whatever the fetcher, an error from it makes
    [convertHandler] answer 502 with the fixed text "failed to fetch rate". *)
Theorem fetch_failures_are_bad_gateway :
  (forall yahoo base target,
     match yahoo (endpoint base target) with
     | NewRequestError err | DoError err => fetchRate yahoo base target = Err err
     | HTTPResponse st body =>
         (st <> 200 -> fetchRate yahoo base target = Err (unexpected_status_code st))
         /\ (Decode body = None -> exists err, fetchRate yahoo base target = Err err)
         /\ (wire_price body = None -> exists err, fetchRate yahoo base target = Err err)
         /\ (forall price, wire_price body = Some price -> (price =? 0)%float = true ->
             exists err, fetchRate yahoo base target = Err err)
     end)
  /\ (forall yahoo base target rate,
        fetchRate yahoo base target = Ok rate -> (rate =? 0)%float = false)
  /\ (forall ToUpper ParseFloat rateFetcher r base target err,
        snd (convertHandler ToUpper ParseFloat rateFetcher r) = [(base, target)] ->
        rateFetcher base target = Err err ->
        fst (convertHandler ToUpper ParseFloat rateFetcher r)
        = {| Code := 502; Body := Text ("failed to fetch rate" ++ newline) |}).
Proof.
  split; [|split].
  - intros yahoo base target.
    destruct (yahoo (endpoint base target)) as [err|err|st body] eqn:Hy;
      try (unfold fetchRate; rewrite Hy; reflexivity).
    assert (Hcases : forall P : Prop,
               (forall rate payload first rest,
                   Decode body = Some payload ->
                   Result (Chart_of payload) = first :: rest ->
                   RegularMarketPrice (Meta_of first) = rate ->
                   (rate =? 0)%float = false -> P) ->
               (exists err, fetchRate yahoo base target = Err err) \/ P).
    { intros P HP. destruct (fetchRate yahoo base target) as [rate|err] eqn:Hf; [|eauto].
      right. apply fetchRate_ok in Hf as (body' & payload & first & rest & Hy' & Hd & _ & Hr & Hp & Hz).
      rewrite Hy in Hy'. injection Hy' as _ <-. eauto. }
    repeat split.
    + intros Hst. unfold fetchRate. rewrite Hy. apply Z.eqb_neq in Hst.
      unfold StatusOK. now rewrite Hst.
    + intros Hdec. destruct (Hcases False) as [H|[]]; [|exact H]. intros; congruence.
    + intros Hmiss. destruct (Hcases False) as [H|[]]; [|exact H].
      intros rate payload first rest Hd Hr Hp Hz.
      rewrite (Decode_first_price _ _ _ _ Hd Hr), Hmiss in Hp. subst rate. discriminate.
    + intros price Hprice Hzero. destruct (Hcases False) as [H|[]]; [|exact H].
      intros rate payload first rest Hd Hr Hp Hz.
      rewrite (Decode_first_price _ _ _ _ Hd Hr), Hprice in Hp. congruence.
  - intros yahoo base target rate Hf.
    apply fetchRate_ok in Hf as (_ & _ & _ & _ & _ & _ & _ & _ & _ & Hz). exact Hz.
  - intros. eapply convertHandler_fetch_failed; eauto.
Qed.

End ConverterProperties.

(** *** The converter on concrete requests *)

Section ConverterRuns.

Import Converter Contract Fixtures.

(** C6, the scenario of the specification: the chart reports a price of 0
    (or no price at all, or cannot be reached); [fetchRate] fails and the
    handler answers 502. *)
Lemma zero_price_is_bad_gateway :
  (exists err, fetchRate (yahoo_answers (Go.Value 0%float)) "USD" "IDR" = Err err)
  /\ (exists err, fetchRate (yahoo_answers Go.Absent) "USD" "IDR" = Err err)
  /\ fetchRate yahoo_down "USD" "IDR" = Err (library_error "dial tcp: connection refused")
  /\ fst (convertHandler asciiToUpper parseWholeNumber
            (fetchRate (yahoo_answers (Go.Value 0%float)))
            (convert_request [("base", "usd"); ("target", "idr")]))
     = {| Code := 502; Body := Text ("failed to fetch rate" ++ newline) |}.
Proof.
  destruct fetch_failures_are_bad_gateway as (Hfetch & _ & Hhandler).
  split; [|split; [|split]].
  - destruct (Hfetch (yahoo_answers (Go.Value 0%float)) "USD" "IDR") as (_ & _ & _ & Hzero).
    apply (Hzero 0%float); reflexivity.
  - destruct (Hfetch (yahoo_answers Go.Absent) "USD" "IDR") as (_ & _ & Hmissing & _).
    apply Hmissing. reflexivity.
  - exact (Hfetch yahoo_down "USD" "IDR").
  - apply (Hhandler _ _ _ _ "USD" "IDR" (errors_New "received zero price from api"));
      vm_compute; reflexivity.
Defined.

(** C7, the case of [TestConvertHandlerValidationErrors]: [amount=abc]. *)
Lemma amount_abc_is_bad_request :
  fst (convertHandler asciiToUpper parseWholeNumber test_fetcher
         (convert_request [("base", "USD"); ("target", "IDR"); ("amount", "abc")]))
  = {| Code := 400; Body := Text ("amount must be a number" ++ newline) |}
  /\ snd (convertHandler asciiToUpper parseWholeNumber test_fetcher
         (convert_request [("base", "USD"); ("target", "IDR"); ("amount", "abc")])) = [].
Proof.
  destruct (proj1 (unparseable_amount_is_bad_request asciiToUpper parseWholeNumber test_fetcher
              (convert_request [("base", "USD"); ("target", "IDR"); ("amount", "abc")])))
    as (_ & _ & Hcalls).
  - reflexivity.
  - discriminate.
  - reflexivity.
  - split; [vm_compute; reflexivity | exact Hcalls].
Defined.

(** C7 as stated fails: [amount=] is present and is no number, yet the
    request is converted with amount 1 and the fetcher is called. *)
Lemma empty_amount_is_converted :
  present "amount" [("base", "USD"); ("target", "IDR"); ("amount", "")]
  /\ parseWholeNumber (Get [("base", "USD"); ("target", "IDR"); ("amount", "")] "amount") = None
  /\ convertHandler asciiToUpper parseWholeNumber test_fetcher
       (convert_request [("base", "USD"); ("target", "IDR"); ("amount", "")])
     = ({| Code := 200;
           Body := JSON {| Base := "USD"; Target := "IDR"; Amount := 1; Rate := 15000.5;
                           Converted := 15000.5; Source := "yahoo-finance" |} |},
        [("USD", "IDR")]).
Proof.
  split; [|split].
  - exists "". simpl. auto.
  - reflexivity.
  - vm_compute. reflexivity.
Qed.

(** C10, the case of [TestConvertHandlerSuccess] (rate 15000.5, amount 2,
    converted 30001), and the same request without an amount. *)
Lemma convert_two_dollars :
  convertHandler asciiToUpper parseWholeNumber test_fetcher
    (convert_request [("base", "USD"); ("target", "IDR"); ("amount", "2")])
  = ({| Code := 200;
        Body := JSON {| Base := "USD"; Target := "IDR"; Amount := 2; Rate := 15000.5;
                        Converted := 30001; Source := "yahoo-finance" |} |},
     [("USD", "IDR")])
  /\ (exists resp,
        fst (convertHandler asciiToUpper parseWholeNumber test_fetcher
               (convert_request [("base", "USD"); ("target", "IDR")]))
        = {| Code := 200; Body := JSON resp |}
        /\ Base resp = "USD" /\ Target resp = "IDR"
        /\ Amount resp = 1%float /\ Converted resp = 15000.5%float).
Proof.
  split.
  - pose proof (proj2 (converted_is_rate_times_amount asciiToUpper parseWholeNumber
                         test_fetcher
                         (convert_request [("base", "USD"); ("target", "IDR");
                                           ("amount", "2")]))
                  2%float 15000.5%float) as Hruns.
    vm_compute in Hruns. apply Hruns; try reflexivity; discriminate.
  - eexists. split; [vm_compute; reflexivity|].
    destruct (proj1 (converted_is_rate_times_amount asciiToUpper parseWholeNumber
                       test_fetcher (convert_request [("base", "USD"); ("target", "IDR")]))
                {| Base := "USD"; Target := "IDR"; Amount := 1; Rate := 15000.5;
                   Converted := 15000.5; Source := "yahoo-finance" |})
      as (_ & _ & Hbase & Htarget & _ & _ & Habsent).
    + vm_compute. reflexivity.
    + split; [reflexivity|]. split; [reflexivity|]. apply Habsent.
      intros v [H|[H|[]]]; discriminate.
Defined.

End ConverterRuns.

(** ** The travel blog: partial updates and deletion *)

Section BlogProperties.

Import TravelBlog Contract.

Variable order_places : list Place -> list Place.

(** A statement either fails and leaves the tables alone, or runs on the
    tables as they were. *)
Lemma statement_inv {A} db (run : Database -> A * Database) r db' :
  statement db run = (r, db') ->
  (exists text, r = Err (DriverError text)
                /\ countries db' = countries db /\ places db' = places db /\ now db' = now db)
  \/ (exists dbi a, r = Ok a /\ run dbi = (a, db')
                    /\ countries dbi = countries db /\ places dbi = places db
                    /\ now dbi = now db).
Proof.
  unfold statement. destruct (faults db) as [|[text|] rest].
  - destruct (run db) as [a dbr] eqn:Hrun. intros [= <- <-]. right. exists db, a. auto.
  - intros [= <- <-]. left. exists text. auto.
  - destruct (run _) as [a dbr] eqn:Hrun. intros [= <- <-]. right.
    eexists _, a. split; [reflexivity|]. split; [exact Hrun|]. auto.
Qed.

(** With a driver that never fails, a statement is its run. *)
Lemma statement_healthy {A} db (run : Database -> A * Database) :
  faults db = [] -> statement db run = (Ok (fst (run db)), snd (run db)).
Proof. unfold statement. intros ->. now destruct (run db). Qed.

Lemma fetchPlaces_tables id db r db' :
  fetchPlaces order_places id db = (r, db') ->
  countries db' = countries db /\ places db' = places db /\ now db' = now db.
Proof.
  unfold fetchPlaces. intros H. apply statement_inv in H as [(text & _ & Hc & Hp & Hn)|H].
  - auto.
  - destruct H as (dbi & a & _ & [= _ <-] & Hc & Hp & Hn). auto.
Qed.

Lemma fetchCountry_tables id db r db' :
  fetchCountry order_places id db = (r, db') ->
  countries db' = countries db /\ places db' = places db /\ now db' = now db.
Proof.
  unfold fetchCountry.
  destruct (statement db _) as [[[row|]|err] db1] eqn:Hs.
  - apply statement_inv in Hs as [(text & [=] & _)|(dbi & a & _ & [= _ <-] & Hc & Hp & Hn)].
    destruct (fetchPlaces _ _ _) as [[ps|err] db2] eqn:Hf;
      apply fetchPlaces_tables in Hf as (Hc' & Hp' & Hn'); intros [= _ <-]; repeat split; congruence.
  - apply statement_inv in Hs as [(text & [=] & _)|(dbi & a & _ & [= _ <-] & Hc & Hp & Hn)].
    intros [= _ <-]. auto.
  - apply statement_inv in Hs as [(text & _ & Hc & Hp & Hn)|(dbi & a & [=] & _)].
    intros [= _ <-]. auto.
Qed.

Lemma COALESCE_resolve_text current input :
  COALESCE (Go.TrimSpace <$> input) current = resolve_text current input.
Proof. now destruct input. Qed.

(** What the binding reads from each member of a place update. *)
Lemma bindPlaceInput_members patch input :
  bindPlaceInput (Go.Document (Go.Value patch)) = Some input ->
  Go.decode_pointer (patch_name patch) = Some (in_name input)
  /\ Go.decode_pointer (patch_category patch) = Some (in_category input)
  /\ Go.decode_pointer (patch_city patch) = Some (in_city input)
  /\ Go.decode_pointer (patch_description patch) = Some (in_description input)
  /\ Go.decode_pointer (patch_visited_at patch) = Some (in_visited_at input).
Proof.
  unfold bindPlaceInput. simpl.
  destruct (Go.decode_pointer (patch_name patch)); [|discriminate].
  destruct (Go.decode_pointer (patch_category patch)); [|discriminate].
  destruct (Go.decode_pointer (patch_city patch)); [|discriminate].
  destruct (Go.decode_pointer (patch_description patch)); [|discriminate].
  destruct (Go.decode_pointer (patch_visited_at patch)); [|discriminate].
  intros [= <-]. simpl. auto.
Qed.

Lemma bindCountryInput_members patch input :
  bindCountryInput (Go.Document (Go.Value patch)) = Some input ->
  Go.decode_pointer (patch_country_name patch) = Some (in_country_name input)
  /\ Go.decode_pointer (patch_country_description patch) = Some (in_country_description input).
Proof.
  unfold bindCountryInput. simpl.
  destruct (Go.decode_pointer (patch_country_name patch)); [|discriminate].
  destruct (Go.decode_pointer (patch_country_description patch)); [|discriminate].
  intros [= <-]. simpl. auto.
Qed.

Lemma decode_pointer_absent {A} (f : Go.field A) o :
  Go.decode_pointer f = Some o -> f = Go.Absent -> o = None.
Proof. intros H ->. simpl in H. congruence. Qed.

Lemma decode_pointer_value {A} (f : Go.field A) o v :
  Go.decode_pointer f = Some o -> f = Go.Value v -> o = Some v.
Proof. intros H ->. simpl in H. congruence. Qed.

Lemma decode_pointer_without_null {A} (f : Go.field A) :
  Go.decode_pointer (without_null f) = Go.decode_pointer f.
Proof. now destruct f. Qed.

(** The answer of a handler once its [UPDATE] has run: whatever the reads
    that follow return, the tables stay as the [UPDATE] left them. *)
Ltac reads_keep_tables :=
  repeat match goal with
    | |- context [statement ?d (sql_place_country ?i)] =>
        let H := fresh "Hs" in
        destruct (statement d (sql_place_country i)) as [[[?|]|?] ?] eqn:H;
        apply statement_inv in H
          as [(? & ? & ? & ? & ?)|(? & ? & ? & [= _ <-] & ? & ? & ?)]
    | |- context [fetchCountry order_places ?i ?d] =>
        let H := fresh "Hf" in
        destruct (fetchCountry order_places i d) as [[?|?] ?] eqn:H;
        apply fetchCountry_tables in H as (? & ? & ?)
    end;
  intros [= <- <-].

(** The effect of [updatePlace] on the tables: none unless the answer may
    be a 200, and then the addressed row is replaced by its resolution. *)
Lemma updatePlace_runs db idParam doc resp db' :
  updatePlace order_places db idParam doc = (resp, db') ->
  countries db' = countries db
  /\ ((places db' = places db /\ status resp <> 200)
      \/ exists placeID input row,
           parseIDParam idParam = Ok placeID
           /\ bindPlaceInput doc = Some input
           /\ (forall v, in_visited_at input = Some v -> v <> "" ->
               exists t, Go.ParseDate v = Some t)
           /\ places db !! placeID = Some row
           /\ places db' = <[placeID := resolve_place row input (now db)]> (places db)).
Proof.
  unfold updatePlace.
  destruct (parseIDParam idParam) as [placeID|err] eqn:Hid;
    [|intros [= <- <-]; split; [reflexivity|left; split; [reflexivity|discriminate]]].
  destruct (bindPlaceInput doc) as [input|] eqn:Hbind;
    [|intros [= <- <-]; split; [reflexivity|left; split; [reflexivity|discriminate]]].
  assert (Hexec : forall (setVisited : bool) (visitedAt : option Go.date),
             (forall cur, (if setVisited then visitedAt else cur)
                          = resolve_date cur (in_visited_at input)) ->
             (forall v, in_visited_at input = Some v -> v <> "" ->
                        exists t, Go.ParseDate v = Some t) ->
             forall affected db1,
               statement db
                 (sql_update_place (Go.TrimSpace <$> in_name input)
                    (Go.TrimSpace <$> in_category input) (Go.TrimSpace <$> in_city input)
                    (Go.TrimSpace <$> in_description input) setVisited visitedAt placeID)
               = (Ok affected, db1) ->
               countries db1 = countries db
               /\ ((affected = 0 /\ places db1 = places db)
                   \/ (affected = 1 /\ exists row,
                         places db !! placeID = Some row
                         /\ places db1
                            = <[placeID := resolve_place row input (now db)]> (places db)))).
  { intros sv va Hres Hparse affected db1 Hs.
    apply statement_inv in Hs as [(text & [=] & _)|(dbi & a & [= <-] & Hrun & Hc & Hp & Hn)].
    unfold sql_update_place in Hrun. rewrite Hp in Hrun.
    destruct (places db !! placeID) as [row|] eqn:Hrow; injection Hrun as <- <-.
    - cbn [countries places with_tables]. split; [exact Hc|]. right. split; [reflexivity|].
      exists row. split; [reflexivity|]. rewrite Hn, !COALESCE_resolve_text, Hres.
      reflexivity.
    - auto. }
  assert (Hbranch : forall (setVisited : bool) (visitedAt : option Go.date),
             (forall cur, (if setVisited then visitedAt else cur)
                          = resolve_date cur (in_visited_at input)) ->
             (forall v, in_visited_at input = Some v -> v <> "" ->
                        exists t, Go.ParseDate v = Some t) ->
             forall r db1,
               statement db
                 (sql_update_place (Go.TrimSpace <$> in_name input)
                    (Go.TrimSpace <$> in_category input) (Go.TrimSpace <$> in_city input)
                    (Go.TrimSpace <$> in_description input) setVisited visitedAt placeID)
               = (r, db1) ->
               (exists err, r = Err err /\ countries db1 = countries db
                            /\ places db1 = places db)
               \/ (r = Ok 0 /\ countries db1 = countries db /\ places db1 = places db)
               \/ (r = Ok 1 /\ countries db1 = countries db
                   /\ exists row,
                        places db !! placeID = Some row
                        /\ places db1
                           = <[placeID := resolve_place row input (now db)]> (places db))).
  { intros sv va Hres Hparse [affected|err] db1 Hs.
    - destruct (Hexec sv va Hres Hparse _ _ Hs) as (Hc & [(-> & Hp)|(-> & Hrow)]); auto.
    - left. apply statement_inv in Hs as [(text & _ & Hc & Hp & _)|(? & ? & [=] & _)]. eauto. }
  clear Hexec.
  assert (Hparse0 : forall value, String.eqb value "" = true -> forall v : string,
             Some value = Some v -> v <> "" -> exists t, Go.ParseDate v = Some t).
  { intros value Hv v [= <-] Hne. apply String.eqb_eq in Hv. contradiction. }
  destruct (in_visited_at input) as [value|] eqn:Hvisited;
    [destruct (String.eqb value "") eqn:Hempty;
     [|destruct (Go.ParseDate value) as [t|] eqn:Ht]|].
  4: destruct (statement db _) as [r db1] eqn:Hs;
     apply (Hbranch false None) in Hs; [|reflexivity|discriminate].
  3: intros [= <- <-]; split; [reflexivity|left; split; [reflexivity|discriminate]].
  2: destruct (statement db _) as [r db1] eqn:Hs;
     apply (Hbranch true (Some t)) in Hs;
     [|intros cur; cbn; rewrite Hempty; now rewrite Ht|intros v [= <-] _; eauto].
  1: destruct (statement db _) as [r db1] eqn:Hs;
     apply (Hbranch true None) in Hs;
     [|intros cur; cbn; now rewrite Hempty|now apply Hparse0].
  all: destruct Hs as [(err & -> & Hc & Hp)|[(-> & Hc & Hp)|(-> & Hc & row & Hrow & Hp)]].
  all: try (intros [= <- <-]; split; [exact Hc|left; split; [exact Hp|discriminate]]).
  all: change (1 =? 0) with false; cbv iota; reads_keep_tables.
  all: (split; [congruence|]; right; exists placeID, input, row).
  all: repeat split; auto; try congruence.
  all: rewrite Hvisited; intros v [= <-] Hne; eauto.
  all: apply String.eqb_eq in Hempty; contradiction.
Qed.

Lemma trimmed_or_empty (trimmed : string) :
  (if negb (String.eqb trimmed "") then Some trimmed else Some "") = Some trimmed.
Proof. destruct (String.eqb_spec trimmed "") as [->|]; reflexivity. Qed.

(** The effect of [updateCountry] on the tables. *)
Lemma updateCountry_runs db idParam doc resp db' :
  updateCountry order_places db idParam doc = (resp, db') ->
  places db' = places db
  /\ ((countries db' = countries db /\ status resp <> 200)
      \/ exists id input row,
           parseIDParam idParam = Ok id
           /\ bindCountryInput doc = Some input
           /\ countries db !! id = Some row
           /\ countries db' = <[id := resolve_country row input (now db)]> (countries db)).
Proof.
  unfold updateCountry.
  destruct (parseIDParam idParam) as [id|err] eqn:Hid;
    [|intros [= <- <-]; split; [reflexivity|left; split; [reflexivity|discriminate]]].
  destruct (bindCountryInput doc) as [input|] eqn:Hbind;
    [|intros [= <- <-]; split; [reflexivity|left; split; [reflexivity|discriminate]]].
  cbv zeta.
  destruct (statement db _) as [[affected|err] db1] eqn:Hs;
    apply statement_inv in Hs as [(text & Hr & Hc & Hp & _)|(dbi & a & Hr & Hrun & Hc & Hp & Hn)];
    try discriminate Hr.
  - injection Hr as <-. unfold sql_update_country in Hrun. rewrite Hc in Hrun.
    destruct (countries db !! id) as [row|] eqn:Hrow; injection Hrun as <- <-.
    + change (1 =? 0) with false. cbv iota. reads_keep_tables.
      all: cbn [countries places with_tables] in *.
      all: (split; [congruence|]; right; exists id, input, row).
      all: repeat split; auto.
      all: match goal with H : countries _ = _ |- _ => rewrite H end.
      all: rewrite Hn; f_equal; unfold resolve_country, resolve_text; f_equal.
      all: destruct (in_country_name input), (in_country_description input);
           rewrite ?trimmed_or_empty; reflexivity.
    + intros [= <- <-]. split; [exact Hp|left; split; [exact Hc|discriminate]].
  - intros [= <- <-]. split; [exact Hp|left; split; [exact Hc|discriminate]].
Qed.

(** A row of [places] after [updatePlace]: as it was, or, for the
    addressed row, resolved against what the binding read. *)
Lemma updatePlace_row db idParam doc resp db' id row :
  updatePlace order_places db idParam doc = (resp, db') ->
  places db !! id = Some row ->
  (places db' !! id = Some row /\ (status resp = 200 -> parseIDParam idParam <> Ok id))
  \/ exists input,
       parseIDParam idParam = Ok id
       /\ bindPlaceInput doc = Some input
       /\ (forall v, in_visited_at input = Some v -> v <> "" ->
           exists t, Go.ParseDate v = Some t)
       /\ places db' !! id = Some (resolve_place row input (now db)).
Proof.
  intros Hrun Hrow.
  apply updatePlace_runs in Hrun as (_ & [(Hsame & Hne)|Hrun]).
  { left. rewrite Hsame. split; [exact Hrow|]. intros; contradiction. }
  destruct Hrun as (placeID & input & row0 & Hid & Hbind & Hparse & Hrow0 & ->).
  destruct (decide (placeID = id)) as [->|Hother].
  - right. exists input. assert (row0 = row) as -> by congruence.
    repeat split; auto. apply lookup_insert_eq.
  - left. rewrite lookup_insert_ne by exact Hother. split; [exact Hrow|]. congruence.
Qed.

Lemma bindPlaceInput_without_nulls patch :
  bindPlaceInput (Go.Document (Go.Value (place_without_nulls patch)))
  = bindPlaceInput (Go.Document (Go.Value patch)).
Proof.
  unfold bindPlaceInput, place_without_nulls. cbn.
  now rewrite !decode_pointer_without_null.
Qed.

(** C1 (as amended).  In [updatePlace] a member set to [null] is read as
    if it were absent, for [visited_at] as for [name], [category], [city]
    and [description]: the handler answers and stores exactly what it does
    for the request without the [null] members, so nothing is rejected for a
    [null], and the stored value of such a member is kept in every row.  The
    stored [visited_at] is cleared by the empty string. *)
Theorem null_member_is_read_as_absent db idParam patch :
  updatePlace order_places db idParam (Go.Document (Go.Value patch))
  = updatePlace order_places db idParam (Go.Document (Go.Value (place_without_nulls patch)))
  /\ (forall resp db' id row,
        updatePlace order_places db idParam (Go.Document (Go.Value patch)) = (resp, db') ->
        places db !! id = Some row ->
        exists row',
          places db' !! id = Some row'
          /\ (patch_name patch = Go.Null -> p_name row' = p_name row)
          /\ (patch_category patch = Go.Null -> p_category row' = p_category row)
          /\ (patch_city patch = Go.Null -> p_city row' = p_city row)
          /\ (patch_description patch = Go.Null -> p_description row' = p_description row)
          /\ (patch_visited_at patch = Go.Null -> p_visited_at row' = p_visited_at row))
  /\ (forall resp db' id,
        updatePlace order_places db idParam (Go.Document (Go.Value patch)) = (resp, db') ->
        status resp = 200 ->
        parseIDParam idParam = Ok id ->
        patch_visited_at patch = Go.Value "" ->
        exists row', places db' !! id = Some row' /\ p_visited_at row' = None).
Proof.
  split; [|split].
  - unfold updatePlace. now rewrite bindPlaceInput_without_nulls.
  - intros resp db' id row Hrun Hrow.
    destruct (updatePlace_row _ _ _ _ _ _ _ Hrun Hrow)
      as [(Hsame & _)|(input & _ & Hbind & _ & Hnew)].
    { exists row. repeat split; auto. }
    apply bindPlaceInput_members in Hbind as (Hn & Hc & Hci & Hd & Hv).
    eexists. split; [exact Hnew|].
    cbn [resolve_place p_name p_category p_city p_description p_visited_at].
    repeat split; intros Hnull; rewrite Hnull in *; cbn in *;
      repeat match goal with
        | H : Some None = Some ?o |- _ => injection H as <-
        end; reflexivity.
  - intros resp db' id Hrun Hok Hid Hempty.
    apply updatePlace_runs in Hrun as (_ & [(_ & Hne)|Hrun]); [contradiction|].
    destruct Hrun as (placeID & input & row & Hid' & Hbind & _ & Hrow & ->).
    assert (placeID = id) as -> by congruence.
    eexists. split; [apply lookup_insert_eq|]. cbn [resolve_place p_visited_at].
    apply bindPlaceInput_members in Hbind as (_ & _ & _ & _ & Hv).
    now rewrite (decode_pointer_value _ _ _ Hv Hempty).
Qed.

(** With a driver that does not fail, [fetchCountry] returns what it
    read. *)
Lemma fetchCountry_answers id db :
  faults db = [] -> exists country, fetchCountry order_places id db = (Ok country, db).
Proof.
  intros Hf. unfold fetchCountry. rewrite statement_healthy by exact Hf. cbn [fst snd].
  destruct (countries db !! id) as [row|]; [|eauto].
  unfold fetchPlaces. rewrite statement_healthy by exact Hf. cbn [fst snd]. eauto.
Qed.

(** A document whose members have the type of their field binds. *)
Lemma bindPlaceInput_welltyped patch :
  patch_name patch <> Go.Mistyped ->
  patch_category patch <> Go.Mistyped ->
  patch_city patch <> Go.Mistyped ->
  patch_description patch <> Go.Mistyped ->
  patch_visited_at patch <> Go.Mistyped ->
  exists input, bindPlaceInput (Go.Document (Go.Value patch)) = Some input.
Proof.
  intros Hn Hc Hci Hd Hv. unfold bindPlaceInput. cbn [Go.decode_document].
  destruct (patch_name patch); try contradiction;
    destruct (patch_category patch); try contradiction;
    destruct (patch_city patch); try contradiction;
    destruct (patch_description patch); try contradiction;
    destruct (patch_visited_at patch); try contradiction; cbn; eauto.
Qed.

Lemma bindCountryInput_welltyped patch :
  patch_country_name patch <> Go.Mistyped ->
  patch_country_description patch <> Go.Mistyped ->
  exists input, bindCountryInput (Go.Document (Go.Value patch)) = Some input.
Proof.
  intros Hn Hd. unfold bindCountryInput. cbn [Go.decode_document].
  destruct (patch_country_name patch); try contradiction;
    destruct (patch_country_description patch); try contradiction; cbn; eauto.
Qed.

(** With a driver that does not fail, [updatePlace] on a place that has a
    row, with a body that binds and a date that reads, is answered 200, and
    the row is resolved against the body. *)
Lemma updatePlace_applies db idParam id doc input row :
  faults db = [] ->
  parseIDParam idParam = Ok id ->
  bindPlaceInput doc = Some input ->
  (forall v, in_visited_at input = Some v -> v <> "" -> Go.ParseDate v <> None) ->
  places db !! id = Some row ->
  exists country,
    updatePlace order_places db idParam doc
    = ({| status := 200; body := CountryJSON country |},
       with_tables db (countries db)
         (<[id := resolve_place row input (now db)]> (places db))).
Proof.
  intros Hf Hid Hbind Hdate Hrow. unfold updatePlace. rewrite Hid, Hbind.
  assert (Hexec : forall (setVisited : bool) (visitedAt : option Go.date),
             (if setVisited then visitedAt else p_visited_at row)
             = resolve_date (p_visited_at row) (in_visited_at input) ->
             exists country,
               match statement db
                       (sql_update_place (Go.TrimSpace <$> in_name input)
                          (Go.TrimSpace <$> in_category input) (Go.TrimSpace <$> in_city input)
                          (Go.TrimSpace <$> in_description input) setVisited visitedAt id) with
               | (Err err, db1) =>
                   ({| status := StatusInternalServerError; body := ErrorOf err |}, db1)
               | (Ok affected, db1) =>
                   if affected =? 0 then
                     ({| status := StatusNotFound; body := ErrorJSON "place not found" |}, db1)
                   else
                     match statement db1 (sql_place_country id) with
                     | (Err err, db2) =>
                         ({| status := StatusInternalServerError; body := ErrorOf err |}, db2)
                     | (Ok None, db2) =>
                         ({| status := StatusInternalServerError; body := ErrorOf ErrNoRows |},
                          db2)
                     | (Ok (Some countryID), db2) =>
                         match fetchCountry order_places countryID db2 with
                         | (Err err, db3) =>
                             ({| status := StatusInternalServerError; body := ErrorOf err |},
                              db3)
                         | (Ok country, db3) =>
                             ({| status := StatusOK; body := CountryJSON country |}, db3)
                         end
                     end
               end
               = ({| status := 200; body := CountryJSON country |},
                  with_tables db (countries db)
                    (<[id := resolve_place row input (now db)]> (places db)))).
  { intros sv va Hres. rewrite statement_healthy by exact Hf.
    unfold sql_update_place. rewrite Hrow. cbn [fst snd].
    change (1 =? 0) with false. cbv iota.
    rewrite !COALESCE_resolve_text, Hres.
    change {| p_country_id := p_country_id row;
              p_name := resolve_text (p_name row) (in_name input);
              p_category := resolve_text (p_category row) (in_category input);
              p_city := resolve_text (p_city row) (in_city input);
              p_description := resolve_text (p_description row) (in_description input);
              p_visited_at := resolve_date (p_visited_at row) (in_visited_at input);
              p_created_at := p_created_at row;
              p_updated_at := now db |}
      with (resolve_place row input (now db)).
    set (db1 := with_tables db (countries db)
                  (<[id := resolve_place row input (now db)]> (places db))).
    assert (Hf1 : faults db1 = []) by exact Hf.
    rewrite statement_healthy by exact Hf1. unfold sql_place_country. cbn [fst snd].
    replace (places db1 !! id) with (Some (resolve_place row input (now db)))
      by (symmetry; apply lookup_insert_eq).
    cbn [fmap option_fmap option_map].
    destruct (fetchCountry_answers (p_country_id (resolve_place row input (now db))) db1 Hf1)
      as (country & ->).
    exists country. reflexivity. }
  cbv zeta.
  destruct (in_visited_at input) as [v|] eqn:Hv; [|now apply Hexec].
  destruct (String.eqb_spec v "") as [->|Hne]; [now apply Hexec|].
  destruct (Go.ParseDate v) as [t|] eqn:Hparse; [|now destruct (Hdate v eq_refl Hne)].
  apply Hexec. cbn. apply String.eqb_neq in Hne. now rewrite Hne, Hparse.
Qed.

(** The same for [updateCountry]. *)
Lemma updateCountry_applies db idParam id doc input row :
  faults db = [] ->
  parseIDParam idParam = Ok id ->
  bindCountryInput doc = Some input ->
  countries db !! id = Some row ->
  exists country,
    updateCountry order_places db idParam doc
    = ({| status := 200; body := CountryJSON country |},
       with_tables db (<[id := resolve_country row input (now db)]> (countries db))
         (places db)).
Proof.
  intros Hf Hid Hbind Hrow. unfold updateCountry. rewrite Hid, Hbind. cbv zeta.
  rewrite statement_healthy by exact Hf. unfold sql_update_country. rewrite Hrow.
  cbn [fst snd]. change (1 =? 0) with false. cbv iota.
  assert (Hresolved :
            {| c_name :=
                 COALESCE
                   match in_country_name input with
                   | Some value =>
                       if negb (String.eqb (Go.TrimSpace value) "")
                       then Some (Go.TrimSpace value) else Some ""
                   | None => None
                   end (c_name row);
               c_description :=
                 COALESCE
                   match in_country_description input with
                   | Some value => Some (Go.TrimSpace value)
                   | None => None
                   end (c_description row);
               c_created_at := c_created_at row;
               c_updated_at := now db |}
            = resolve_country row input (now db)).
  { unfold resolve_country, resolve_text.
    destruct (in_country_name input), (in_country_description input);
      rewrite ?trimmed_or_empty; reflexivity. }
  rewrite Hresolved.
  set (db1 := with_tables db (<[id := resolve_country row input (now db)]> (countries db))
                (places db)).
  assert (Hf1 : faults db1 = []) by exact Hf.
  destruct (fetchCountry_answers id db1 Hf1) as (country & ->).
  exists country. reflexivity.
Qed.

(** C2.  [updatePlace] and [updateCountry] leave every member absent from
    the request as it was stored, in every row and whatever the answer; and
    when the answer is 200, each member of the addressed row that the
    request holds with a value has been overwritten: a text by the value
    (trimmed), [visited_at] by the date the value reads as (by nothing for
    the empty string).  The answer is 200, and the members are so
    overwritten, for every request on a row the table holds whose members
    have the type of their field and whose [visited_at] reads as a date,
    with a driver that does not fail. *)
Theorem partial_update_keeps_absent_members :
  (forall db idParam patch resp db',
      updatePlace order_places db idParam (Go.Document (Go.Value patch)) = (resp, db') ->
      forall id row,
        places db !! id = Some row ->
        exists row',
          places db' !! id = Some row'
          /\ (patch_name patch = Go.Absent -> p_name row' = p_name row)
          /\ (patch_category patch = Go.Absent -> p_category row' = p_category row)
          /\ (patch_city patch = Go.Absent -> p_city row' = p_city row)
          /\ (patch_description patch = Go.Absent -> p_description row' = p_description row)
          /\ (patch_visited_at patch = Go.Absent -> p_visited_at row' = p_visited_at row)
          /\ (status resp = 200 ->
              parseIDParam idParam = Ok id ->
              (forall v, patch_name patch = Go.Value v -> p_name row' = Go.TrimSpace v)
              /\ (forall v, patch_category patch = Go.Value v ->
                  p_category row' = Go.TrimSpace v)
              /\ (forall v, patch_city patch = Go.Value v -> p_city row' = Go.TrimSpace v)
              /\ (forall v, patch_description patch = Go.Value v ->
                  p_description row' = Go.TrimSpace v)
              /\ (forall v, patch_visited_at patch = Go.Value v ->
                  if String.eqb v "" then p_visited_at row' = None
                  else exists t, Go.ParseDate v = Some t /\ p_visited_at row' = Some t)))
  /\ (forall db idParam patch resp db',
      updateCountry order_places db idParam (Go.Document (Go.Value patch)) = (resp, db') ->
      forall id row,
        countries db !! id = Some row ->
        exists row',
          countries db' !! id = Some row'
          /\ (patch_country_name patch = Go.Absent -> c_name row' = c_name row)
          /\ (patch_country_description patch = Go.Absent ->
              c_description row' = c_description row)
          /\ (status resp = 200 ->
              parseIDParam idParam = Ok id ->
              (forall v, patch_country_name patch = Go.Value v ->
                 c_name row' = Go.TrimSpace v)
              /\ (forall v, patch_country_description patch = Go.Value v ->
                  c_description row' = Go.TrimSpace v)))
  /\ (forall db idParam patch id row,
      faults db = [] ->
      parseIDParam idParam = Ok id ->
      places db !! id = Some row ->
      patch_name patch <> Go.Mistyped ->
      patch_category patch <> Go.Mistyped ->
      patch_city patch <> Go.Mistyped ->
      patch_description patch <> Go.Mistyped ->
      patch_visited_at patch <> Go.Mistyped ->
      (forall v, patch_visited_at patch = Go.Value v -> v <> "" -> Go.ParseDate v <> None) ->
      exists resp db' row',
        updatePlace order_places db idParam (Go.Document (Go.Value patch)) = (resp, db')
        /\ status resp = 200
        /\ places db' !! id = Some row'
        /\ (forall v, patch_name patch = Go.Value v -> p_name row' = Go.TrimSpace v)
        /\ (forall v, patch_category patch = Go.Value v -> p_category row' = Go.TrimSpace v)
        /\ (forall v, patch_city patch = Go.Value v -> p_city row' = Go.TrimSpace v)
        /\ (forall v, patch_description patch = Go.Value v ->
            p_description row' = Go.TrimSpace v)
        /\ (forall v, patch_visited_at patch = Go.Value v ->
            p_visited_at row' = if String.eqb v "" then None else Go.ParseDate v)
        /\ (patch_name patch = Go.Absent -> p_name row' = p_name row)
        /\ (patch_category patch = Go.Absent -> p_category row' = p_category row)
        /\ (patch_city patch = Go.Absent -> p_city row' = p_city row)
        /\ (patch_description patch = Go.Absent -> p_description row' = p_description row)
        /\ (patch_visited_at patch = Go.Absent -> p_visited_at row' = p_visited_at row))
  /\ (forall db idParam patch id row,
      faults db = [] ->
      parseIDParam idParam = Ok id ->
      countries db !! id = Some row ->
      patch_country_name patch <> Go.Mistyped ->
      patch_country_description patch <> Go.Mistyped ->
      exists resp db' row',
        updateCountry order_places db idParam (Go.Document (Go.Value patch)) = (resp, db')
        /\ status resp = 200
        /\ countries db' !! id = Some row'
        /\ (forall v, patch_country_name patch = Go.Value v -> c_name row' = Go.TrimSpace v)
        /\ (forall v, patch_country_description patch = Go.Value v ->
            c_description row' = Go.TrimSpace v)
        /\ (patch_country_name patch = Go.Absent -> c_name row' = c_name row)
        /\ (patch_country_description patch = Go.Absent ->
            c_description row' = c_description row)).
Proof.
  split; [|split; [|split]].
  3: { intros db idParam patch id row Hf Hid Hrow Hn Hc Hci Hd Hv Hdate.
       destruct (bindPlaceInput_welltyped patch Hn Hc Hci Hd Hv) as (input & Hbind).
       pose proof (bindPlaceInput_members _ _ Hbind) as (Bn & Bc & Bci & Bd & Bv).
       destruct (updatePlace_applies db idParam id _ input row Hf Hid Hbind) as (country & Hrun).
       { intros v Hin Hne. apply Hdate; [|exact Hne].
         rewrite Hin in Bv. destruct (patch_visited_at patch); cbn in Bv; congruence. }
       exact Hrow.
       eexists _, _, _. split; [exact Hrun|]. split; [reflexivity|].
       cbn [places with_tables]. split; [apply lookup_insert_eq|].
       cbn [resolve_place p_name p_category p_city p_description p_visited_at].
       repeat split.
       1-4: intros v Hval;
         repeat match goal with
           | H : Go.decode_pointer ?f = Some _, E : ?f = Go.Value _ |- _ =>
               rewrite (decode_pointer_value _ _ _ H E); clear H
           end; reflexivity.
       1: intros v Hval; rewrite (decode_pointer_value _ _ _ Bv Hval); reflexivity.
       all: intros Habs;
         repeat match goal with
           | H : Go.decode_pointer ?f = Some _, E : ?f = Go.Absent |- _ =>
               rewrite (decode_pointer_absent _ _ H E); clear H
           end; reflexivity. }
  3: { intros db idParam patch id row Hf Hid Hrow Hn Hd.
       destruct (bindCountryInput_welltyped patch Hn Hd) as (input & Hbind).
       pose proof (bindCountryInput_members _ _ Hbind) as (Bn & Bd).
       destruct (updateCountry_applies db idParam id _ input row Hf Hid Hbind Hrow)
         as (country & Hrun).
       eexists _, _, _. split; [exact Hrun|]. split; [reflexivity|].
       cbn [countries with_tables]. split; [apply lookup_insert_eq|].
       cbn [resolve_country c_name c_description].
       repeat split.
       1-2: intros v Hval;
         repeat match goal with
           | H : Go.decode_pointer ?f = Some _, E : ?f = Go.Value _ |- _ =>
               rewrite (decode_pointer_value _ _ _ H E); clear H
           end; reflexivity.
       all: intros Habs;
         repeat match goal with
           | H : Go.decode_pointer ?f = Some _, E : ?f = Go.Absent |- _ =>
               rewrite (decode_pointer_absent _ _ H E); clear H
           end; reflexivity. }
  - intros db idParam patch resp db' Hrun id row Hrow.
    apply updatePlace_runs in Hrun as (_ & [(Hsame & Hne)|Hrun]).
    { exists row. rewrite Hsame. repeat split; auto; intros; contradiction. }
    destruct Hrun as (placeID & input & row0 & Hid & Hbind & Hparse & Hrow0 & ->).
    apply bindPlaceInput_members in Hbind as (Hn & Hc & Hci & Hd & Hv).
    destruct (decide (placeID = id)) as [->|Hother].
    + assert (row0 = row) as -> by congruence.
      eexists. split; [apply lookup_insert_eq|].
      cbn [resolve_place p_name p_category p_city p_description p_visited_at].
      repeat split.
      1-5: intros Habs;
        repeat match goal with
          | H : Go.decode_pointer ?f = Some _, E : ?f = Go.Absent |- _ =>
              rewrite (decode_pointer_absent _ _ H E); clear H
          end; reflexivity.
      1-4: intros v Hval;
        repeat match goal with
          | H : Go.decode_pointer ?f = Some _, E : ?f = Go.Value _ |- _ =>
              rewrite (decode_pointer_value _ _ _ H E); clear H
          end; reflexivity.
      intros v Hval. pose proof (decode_pointer_value _ _ _ Hv Hval) as Hin.
      rewrite Hin. cbn [resolve_date]. destruct (String.eqb_spec v "") as [->|Hne]; [reflexivity|].
      destruct (Hparse v Hin Hne) as (t & Ht). exists t. now rewrite Ht.
    + exists row. split; [now rewrite lookup_insert_ne|].
      repeat split; auto; intros; congruence.
  - intros db idParam patch resp db' Hrun id row Hrow.
    apply updateCountry_runs in Hrun as (_ & [(Hsame & Hne)|Hrun]).
    { exists row. rewrite Hsame. repeat split; auto; intros; contradiction. }
    destruct Hrun as (cid & input & row0 & Hid & Hbind & Hrow0 & ->).
    apply bindCountryInput_members in Hbind as (Hn & Hd).
    destruct (decide (cid = id)) as [->|Hother].
    + assert (row0 = row) as -> by congruence.
      eexists. split; [apply lookup_insert_eq|].
      cbn [resolve_country c_name c_description].
      repeat split.
      1-2: intros Habs;
        repeat match goal with
          | H : Go.decode_pointer ?f = Some _, E : ?f = Go.Absent |- _ =>
              rewrite (decode_pointer_absent _ _ H E); clear H
          end; reflexivity.
      1-2: intros v Hval;
        repeat match goal with
          | H : Go.decode_pointer ?f = Some _, E : ?f = Go.Value _ |- _ =>
              rewrite (decode_pointer_value _ _ _ H E); clear H
          end; reflexivity.
    + exists row. split; [now rewrite lookup_insert_ne|].
      repeat split; auto; intros; congruence.
Qed.


End BlogProperties.

(** *** The travel blog on concrete requests *)

Section BlogRuns.

Import TravelBlog Contract Fixtures.

(** C1 as stated fails: on the place 10, visited on 2024-05-01,
    [{"visited_at": null}] is answered 200 and the date stays; and
    [{"name": null}] is answered 200, not 400, and the name stays. *)
Lemma null_neither_clears_nor_fails :
  (status (fst (updatePlace as_stored blog "10"
                  (Go.Document (Go.Value (visited_at_only Go.Null))))) = 200
   /\ p_visited_at
        <$> places (snd (updatePlace as_stored blog "10"
                           (Go.Document (Go.Value (visited_at_only Go.Null))))) !! 10
      = Some (Some {| Go.year := 2024; Go.month := 5; Go.day := 1 |}))
  /\ (status (fst (updatePlace as_stored blog "10"
                     (Go.Document (Go.Value (name_only Go.Null))))) = 200
      /\ p_name
           <$> places (snd (updatePlace as_stored blog "10"
                              (Go.Document (Go.Value (name_only Go.Null))))) !! 10
         = Some "Eiffel Tower").
Proof. repeat split; vm_compute; reflexivity. Qed.

(** C1, an instance: a [null] date is the request without it and leaves
    the date of place 10 as stored; the empty string clears it. *)
Lemma empty_string_clears_visited_at :
  updatePlace as_stored blog "10" (Go.Document (Go.Value (visited_at_only Go.Null)))
  = updatePlace as_stored blog "10" (Go.Document (Go.Value no_change))
  /\ (exists row',
        places (snd (updatePlace as_stored blog "10"
                       (Go.Document (Go.Value (visited_at_only Go.Null))))) !! 10
        = Some row'
        /\ p_visited_at row' = Some {| Go.year := 2024; Go.month := 5; Go.day := 1 |})
  /\ (exists row',
        places (snd (updatePlace as_stored blog "10"
                       (Go.Document (Go.Value (visited_at_only (Go.Value "")))))) !! 10
        = Some row'
        /\ p_visited_at row' = None).
Proof.
  split; [|split].
  - exact (proj1 (null_member_is_read_as_absent as_stored blog "10" (visited_at_only Go.Null))).
  - destruct (proj1 (proj2 (null_member_is_read_as_absent as_stored blog "10"
                               (visited_at_only Go.Null)))
                _ _ 10 eiffel (surjective_pairing _))
      as (row' & Hrow & _ & _ & _ & _ & Hvisited).
    + vm_compute. reflexivity.
    + exists row'. split; [exact Hrow|]. now rewrite Hvisited.
  - eapply (proj2 (proj2 (null_member_is_read_as_absent as_stored blog "10"
                            (visited_at_only (Go.Value ""))))).
    + apply surjective_pairing.
    + vm_compute. reflexivity.
    + reflexivity.
    + reflexivity.
Defined.

(** C2, instances: renaming place 10 stores the trimmed name and keeps
    its category and its date; a body with all five members is answered 200
    and overwrites all five; renaming country 1 is answered 200, stores the
    trimmed name and keeps the description. *)
Lemma rename_keeps_the_rest :
  (exists row',
     places (snd (updatePlace as_stored blog "10"
                    (Go.Document (Go.Value (name_only (Go.Value "  Tour Eiffel ")))))) !! 10
     = Some row'
     /\ p_name row' = "Tour Eiffel"
     /\ p_category row' = "Landmark"
     /\ p_visited_at row' = Some {| Go.year := 2024; Go.month := 5; Go.day := 1 |})
  /\ (exists resp db' row',
        updatePlace as_stored blog "10"
          (Go.Document (Go.Value
             {| patch_name := Go.Value "  Tour Eiffel ";
                patch_category := Go.Value "Monument";
                patch_city := Go.Value " Paris";
                patch_description := Go.Value "Seen at night";
                patch_visited_at := Go.Value "2024-06-01" |}))
        = (resp, db')
        /\ status resp = 200
        /\ places db' !! 10 = Some row'
        /\ p_name row' = "Tour Eiffel"
        /\ p_category row' = "Monument"
        /\ p_city row' = "Paris"
        /\ p_description row' = "Seen at night"
        /\ p_visited_at row' = Some {| Go.year := 2024; Go.month := 6; Go.day := 1 |})
  /\ (exists resp db' row',
        updateCountry as_stored blog "1"
          (Go.Document (Go.Value
             {| patch_country_name := Go.Value "  French Republic ";
                patch_country_description := Go.Absent |}))
        = (resp, db')
        /\ status resp = 200
        /\ countries db' !! 1 = Some row'
        /\ c_name row' = "French Republic"
        /\ c_description row' = "Wine and cheese").
Proof.
  destruct (partial_update_keeps_absent_members as_stored)
    as (Hkeeps & _ & Hplace & Hcountry).
  split; [|split].
  - destruct (Hkeeps blog "10" (name_only (Go.Value "  Tour Eiffel ")) _ _
                (surjective_pairing _) 10 eiffel)
      as (row' & Hrow & _ & Hcategory & _ & _ & Hvisited & Hover).
    + vm_compute. reflexivity.
    + exists row'. split; [exact Hrow|].
      destruct Hover as (Hname & _); [vm_compute; reflexivity|reflexivity|].
      split; [rewrite (Hname _ eq_refl); vm_compute; reflexivity|].
      split; [now rewrite Hcategory|now rewrite Hvisited].
  - destruct (Hplace blog "10"
                {| patch_name := Go.Value "  Tour Eiffel ";
                   patch_category := Go.Value "Monument";
                   patch_city := Go.Value " Paris";
                   patch_description := Go.Value "Seen at night";
                   patch_visited_at := Go.Value "2024-06-01" |} 10 eiffel)
      as (resp & db' & row' & Hrun & Hok & Hrow & Hn & Hc & Hci & Hd & Hv & _);
      try reflexivity; try discriminate.
    + intros v [= <-] _. vm_compute. discriminate.
    + exists resp, db', row'. split; [exact Hrun|]. split; [exact Hok|]. split; [exact Hrow|].
      rewrite (Hn _ eq_refl), (Hc _ eq_refl), (Hci _ eq_refl), (Hd _ eq_refl), (Hv _ eq_refl).
      repeat split; vm_compute; reflexivity.
  - destruct (Hcountry blog "1"
                {| patch_country_name := Go.Value "  French Republic ";
                   patch_country_description := Go.Absent |} 1 france)
      as (resp & db' & row' & Hrun & Hok & Hrow & Hn & _ & _ & Hd);
      try reflexivity; try discriminate.
    exists resp, db', row'. split; [exact Hrun|]. split; [exact Hok|]. split; [exact Hrow|].
    rewrite (Hn _ eq_refl), (Hd eq_refl). split; vm_compute; reflexivity.
Defined.


End BlogRuns.
(** ** Movies: reading, creating, replacing *)

Section Float64Facts.

Import SearchEngine Movies.

Lemma digits2_pos_bounds (m : positive) :
  2 ^ (Z.pos (digits2_pos m) - 1) <= Z.pos m < 2 ^ Z.pos (digits2_pos m).
Proof.
  induction m as [m IH | m IH |]; cbn [digits2_pos].
  - rewrite Pos2Z.inj_succ.
    replace (Z.succ (Z.pos (digits2_pos m)) - 1) with (Z.succ (Z.pos (digits2_pos m) - 1))
      by lia.
    rewrite !Z.pow_succ_r by lia. lia.
  - rewrite Pos2Z.inj_succ.
    replace (Z.succ (Z.pos (digits2_pos m)) - 1) with (Z.succ (Z.pos (digits2_pos m) - 1))
      by lia.
    rewrite !Z.pow_succ_r by lia. lia.
  - cbn. lia.
Qed.

Lemma iter_xO_pow (m k : positive) :
  Z.pos (Pos.iter xO m k) = Z.pos m * 2 ^ Z.pos k.
Proof.
  induction k as [|k IHk] using Pos.peano_ind.
  - cbn. lia.
  - rewrite Pos.iter_succ, Pos2Z.inj_succ, Z.pow_succ_r by lia.
    rewrite Pos2Z.inj_xO, IHk. lia.
Qed.

Lemma digits2_pos_iter_xO (m k : positive) :
  digits2_pos (Pos.iter xO m k) = (digits2_pos m + k)%positive.
Proof.
  induction k as [|k IHk] using Pos.peano_ind.
  - cbn. lia.
  - rewrite Pos.iter_succ. cbn [digits2_pos]. rewrite IHk. lia.
Qed.

Lemma fexp_normal (e : Z) : -1021 <= e -> fexp prec emax e = e - 53.
Proof.
  intros He. unfold fexp, SpecFloat.emin, prec, emax.
  change IntDef.Z.max with Z.max. lia.
Qed.

(** A mantissa of 53 bits with an exponent in range is its own rounding. *)
Lemma binary_round_aux_canonical (s : bool) (mz : positive) (ez : Z) :
  Z.pos (digits2_pos mz) = 53 -> -1074 <= ez <= 971 ->
  binary_round_aux prec emax s (Z.pos mz) ez loc_Exact = S754_finite s mz ez
  /\ valid_binary (S754_finite s mz ez) = true.
Proof.
  intros Hd He.
  assert (Hf : fexp prec emax (53 + ez) - ez = 0) by (rewrite fexp_normal; lia).
  assert (Hle : (ez <=? emax - prec) = true) by (apply Z.leb_le; unfold emax, prec; lia).
  split.
  - unfold binary_round_aux, shr_fexp.
    cbn [shr_record_of_loc Zdigits2]. rewrite Hd, Hf.
    cbn [shr shr_m loc_of_shr_record shr_r shr_s round_nearest_even Zdigits2].
    rewrite Hd, Hf. cbn [shr shr_m]. rewrite Hle. reflexivity.
  - cbn [SpecFloat.valid_binary]. unfold bounded, canonical_mantissa.
    rewrite Hd, Hle, andb_true_r. apply Z.eqb_eq. rewrite fexp_normal; lia.
Qed.

(** An integer below 2^53 is rounded to itself. *)
Lemma binary_round_small (s : bool) (m : positive) :
  Z.pos m < 2 ^ 53 ->
  exists mz ez,
    binary_round prec emax s m 0 = S754_finite s mz ez
    /\ valid_binary (S754_finite s mz ez) = true
    /\ ez <= 0 /\ Z.pos mz = Z.pos m * 2 ^ (- ez).
Proof.
  intros Hm.
  pose proof (digits2_pos_bounds m) as [Hlo Hhi].
  assert (Hd : Z.pos (digits2_pos m) <= 53).
  { destruct (Z_le_gt_dec (Z.pos (digits2_pos m)) 53) as [|Hgt]; [assumption|].
    assert (2 ^ 53 <= 2 ^ (Z.pos (digits2_pos m) - 1)) by (apply Z.pow_le_mono_r; lia). lia. }
  unfold binary_round, shl_align.
  rewrite fexp_normal by lia.
  destruct (Z.pos (digits2_pos m) + 0 - 53 - 0) as [|p|p] eqn:Hdiff; try lia.
  - destruct (binary_round_aux_canonical s m 0) as [-> Hv]; [lia | lia |].
    exists m, 0. repeat split; auto; lia.
  - destruct (binary_round_aux_canonical s (Pos.iter xO m p)
                (Z.pos (digits2_pos m) + 0 - 53)) as [-> Hv].
    + rewrite digits2_pos_iter_xO. lia.
    + lia.
    + eexists _, _. repeat split; eauto; try lia.
      rewrite iter_xO_pow. f_equal. f_equal. lia.
Qed.

(** An [int] of magnitude below 2^53 survives the way through a JSON
    number and back. *)
Lemma float_to_int_int_to_float64 (z : Z) :
  - 2 ^ 53 < z < 2 ^ 53 -> float_to_int (int_to_float64 z) = z.
Proof.
  intros Hz. unfold float_to_int, int_to_float64.
  assert (Hpow : 2 ^ 53 = 9007199254740992) by reflexivity.
  assert (Hmag : forall (m mz : positive) (ez : Z),
             ez <= 0 -> Z.pos mz = Z.pos m * 2 ^ (- ez) ->
             (if 0 <=? ez then Z.pos mz * 2 ^ ez else Z.pos mz / 2 ^ (- ez)) = Z.pos m).
  { intros m mz ez He Hmz. destruct (Z.leb_spec 0 ez).
    - assert (ez = 0) as -> by lia. cbn in Hmz. lia.
    - rewrite Hmz. apply Z.div_mul. apply Z.pow_nonzero; lia. }
  destruct z as [|m|m]; cbn [binary_normalize].
  - rewrite Prim2SF_SF2Prim by reflexivity. reflexivity.
  - destruct (binary_round_small false m) as (mz & ez & -> & Hv & He & Hmz); [lia|].
    rewrite Prim2SF_SF2Prim by assumption. rewrite (Hmag m mz ez He Hmz).
    assert (Go.inRange (Z.pos m) = true) as ->; [|reflexivity].
    apply inRange_spec. rewrite MinInt_eq, MaxInt_eq. lia.
  - destruct (binary_round_small true m) as (mz & ez & -> & Hv & He & Hmz); [lia|].
    rewrite Prim2SF_SF2Prim by assumption. rewrite (Hmag m mz ez He Hmz).
    assert (Go.inRange (- Z.pos m) = true) as ->; [|reflexivity].
    apply inRange_spec. rewrite MinInt_eq, MaxInt_eq. lia.
Qed.

End Float64Facts.

Section MovieProperties.

Import SearchEngine Movies.

Variable es_accepts : string -> Source -> bool.

(** [mapToMovie] reads back what [indexMovie] wrote. *)
Lemma mapToMovie_movieJSON movie :
  - 2 ^ 53 < ReleaseYear movie < 2 ^ 53 ->
  mapToMovie (movieJSON movie) = withID movie "".
Proof.
  intros Hyear. unfold mapToMovie, movieJSON.
  repeat (rewrite ?lookup_insert_eq; rewrite ?lookup_insert_ne by done).
  rewrite ?lookup_singleton_eq.
  rewrite float_to_int_int_to_float64 by exact Hyear. reflexivity.
Qed.

(** [mapToMovie] does not look at an [id] member. *)
Lemma mapToMovie_delete_id source : mapToMovie (delete "id" source) = mapToMovie source.
Proof. unfold mapToMovie. now rewrite !lookup_delete_ne by done. Qed.

Lemma indexMovie_stores es id movie :
  fault es = Healthy ->
  is_finite (Rating movie) = true ->
  es_accepts id (movieJSON movie) = true ->
  indexMovie es_accepts es id movie
  = (None, {| docs := <[id := movieJSON movie]> (docs es); fault := Healthy |}).
Proof.
  intros Hes Hfinite Hacc. unfold indexMovie, es_Index. rewrite Hfinite, Hes, Hacc.
  cbn [negb]. destruct (docs es !! id); reflexivity.
Qed.

Lemma handleGetMovie_stored es id source :
  fault es = Healthy ->
  docs es !! id = Some source ->
  handleGetMovie es id
  = {| movie_status := 200; movie_body := MovieJSON (withID (mapToMovie source) id) |}.
Proof. intros Hes Hdoc. unfold handleGetMovie, es_Get. now rewrite Hes, Hdoc. Qed.

Lemma handleGetMovie_missing es id :
  fault es = Healthy ->
  docs es !! id = None ->
  handleGetMovie es id
  = {| movie_status := 404; movie_body := MovieError "movie not found" |}.
Proof. intros Hes Hdoc. unfold handleGetMovie, es_Get. now rewrite Hes, Hdoc. Qed.

(** On a healthy cluster the answer to a GET depends on the document of
    that id only. *)
Lemma handleGetMovie_same_doc es es' id :
  fault es = Healthy -> fault es' = Healthy ->
  docs es' !! id = docs es !! id ->
  handleGetMovie es' id = handleGetMovie es id.
Proof. intros H H' Hdoc. unfold handleGetMovie, es_Get. now rewrite H, H', Hdoc. Qed.

(** X1.  A PUT that binds, on a healthy cluster that takes the document,
    is answered 200 whether or not the id was known, and replaces the whole
    document: a GET of the id then returns the movie of the body under the
    id of the path (members the body leaves out as zero values), and every
    other id is answered as before. *)
Theorem updated_movie_is_read_back es id body input :
  fault es = Healthy ->
  ShouldBindJSON body = Some input ->
  is_finite (Rating input) = true ->
  - 2 ^ 53 < ReleaseYear input < 2 ^ 53 ->
  es_accepts id (movieJSON input) = true ->
  exists es',
    handleUpdateMovie es_accepts es id body
    = ({| movie_status := 200; movie_body := MovieJSON (withID input id) |}, es')
    /\ docs es' = <[id := movieJSON input]> (docs es)
    /\ handleGetMovie es' id
       = {| movie_status := 200; movie_body := MovieJSON (withID input id) |}
    /\ forall other, other <> id -> handleGetMovie es' other = handleGetMovie es other.
Proof.
  intros Hes Hbind Hfinite Hyear Hacc. unfold handleUpdateMovie. rewrite Hbind. cbv zeta.
  rewrite (indexMovie_stores es id (withID input id) Hes Hfinite Hacc).
  eexists. split; [reflexivity|]. split; [reflexivity|]. split.
  - rewrite (handleGetMovie_stored _ id (movieJSON input)) by (try apply lookup_insert_eq; reflexivity).
    now rewrite mapToMovie_movieJSON.
  - intros other Hother. apply handleGetMovie_same_doc; [exact Hes|reflexivity|].
    cbn. now rewrite lookup_insert_ne.
Qed.

(** X2.  A POST that binds, on a healthy cluster that takes the document,
    is answered 201 with the movie under the identifier drawn, whatever
    [id] the body carries; the document is stored under that identifier and
    a GET of it returns the same movie. *)
Theorem created_movie_is_read_back es uuid body input :
  fault es = Healthy ->
  ShouldBindJSON body = Some input ->
  is_finite (Rating input) = true ->
  - 2 ^ 53 < ReleaseYear input < 2 ^ 53 ->
  es_accepts uuid (movieJSON input) = true ->
  exists es',
    handleCreateMovie es_accepts es uuid body
    = ({| movie_status := 201; movie_body := MovieJSON (withID input uuid) |}, es')
    /\ docs es' = <[uuid := movieJSON input]> (docs es)
    /\ handleGetMovie es' uuid
       = {| movie_status := 200; movie_body := MovieJSON (withID input uuid) |}
    /\ forall other, other <> uuid -> handleGetMovie es' other = handleGetMovie es other.
Proof.
  intros Hes Hbind Hfinite Hyear Hacc. unfold handleCreateMovie. rewrite Hbind. cbv zeta.
  cbn [ID withID].
  rewrite (indexMovie_stores es uuid (withID input uuid) Hes Hfinite Hacc).
  eexists. split; [reflexivity|]. split; [reflexivity|]. split.
  - rewrite (handleGetMovie_stored _ uuid (movieJSON input)) by (try apply lookup_insert_eq; reflexivity).
    now rewrite mapToMovie_movieJSON.
  - intros other Hother. apply handleGetMovie_same_doc; [exact Hes|reflexivity|].
    cbn. now rewrite lookup_insert_ne.
Qed.

(** X3.  [handleUpdateMovie] answers 200, 400 or 500 and
    [handleCreateMovie] 201, 400 or 500: an unknown id is never a 404 for a
    PUT.  The answer is 400 exactly when the body does not bind, and then
    nothing has been sent: the cluster is as it was. *)
Theorem movie_write_statuses es id body :
  (let '(resp, es') := handleUpdateMovie es_accepts es id body in
   (movie_status resp = 200 \/ movie_status resp = 400 \/ movie_status resp = 500)
   /\ (movie_status resp = 400 <-> ShouldBindJSON body = None)
   /\ (movie_status resp = 400 -> es' = es))
  /\ (let '(resp, es') := handleCreateMovie es_accepts es id body in
      (movie_status resp = 201 \/ movie_status resp = 400 \/ movie_status resp = 500)
      /\ (movie_status resp = 400 <-> ShouldBindJSON body = None)
      /\ (movie_status resp = 400 -> es' = es)).
Proof.
  assert (Hanswer : forall (ok st : Z) (b : MovieBody) (es' : Cluster) (bound : option Movie),
             st = ok \/ st = 400 \/ st = 500 ->
             (st = 400 <-> bound = None) ->
             (st = 400 -> es' = es) ->
             (movie_status {| movie_status := st; movie_body := b |} = ok
              \/ movie_status {| movie_status := st; movie_body := b |} = 400
              \/ movie_status {| movie_status := st; movie_body := b |} = 500)
             /\ (movie_status {| movie_status := st; movie_body := b |} = 400 <-> bound = None)
             /\ (movie_status {| movie_status := st; movie_body := b |} = 400 -> es' = es))
    by (cbn; auto).
  unfold handleUpdateMovie, handleCreateMovie.
  destruct (ShouldBindJSON body) as [input|].
  - cbv zeta. cbn [ID withID].
    destruct (indexMovie es_accepts es id (withID input id)) as [[text|] es'].
    + split; apply Hanswer; auto; try (split; discriminate); discriminate.
    + split; apply Hanswer; auto; try (split; discriminate); discriminate.
  - split; apply Hanswer; auto; split; reflexivity.
Qed.

(** X4.  A body whose [title] is absent, [null] or empty is refused with
    400 by POST and PUT alike, whatever its other members, and nothing is
    sent to the cluster. *)
Theorem untitled_movie_is_refused es id w :
  doc_title w = Go.Absent \/ doc_title w = Go.Null \/ doc_title w = Go.Value "" ->
  handleCreateMovie es_accepts es id (Go.Document (Go.Value w))
  = ({| movie_status := 400; movie_body := BindingError |}, es)
  /\ handleUpdateMovie es_accepts es id (Go.Document (Go.Value w))
     = ({| movie_status := 400; movie_body := BindingError |}, es).
Proof.
  intros Htitle.
  assert (Hbind : ShouldBindJSON (Go.Document (Go.Value w)) = None).
  { unfold ShouldBindJSON, decodeMovie. cbn [Go.decode_document].
    destruct (Go.decode_value "" Some (doc_id w)); [|reflexivity].
    destruct (Go.decode_value "" Some (doc_title w)) as [t|] eqn:Ht; [|reflexivity].
    assert (t = "") as ->.
    { destruct Htitle as [H|[H|H]]; rewrite H in Ht; cbn in Ht; congruence. }
    destruct (Go.decode_value "" Some (doc_description w)); [|reflexivity].
    destruct (Go.decode_value "" Some (doc_genre w)); [|reflexivity].
    destruct (Go.decode_value 0%float Some (doc_rating w)); [|reflexivity].
    destruct (Go.decode_value 0 decodeInt (doc_release_year w)); reflexivity. }
  unfold handleCreateMovie, handleUpdateMovie. now rewrite Hbind.
Qed.

(** X5.  On a healthy cluster a GET is answered 404 exactly when the index
    holds no document of the id; a document held is answered 200 with the
    id of the path as the movie's [ID], whatever [id] member the stored
    document has.  A GET on a cluster that cannot be reached is a 500. *)
Theorem get_movie_answers es id :
  (fault es = Healthy ->
   (movie_status (handleGetMovie es id) = 404 <-> docs es !! id = None)
   /\ forall source,
        docs es !! id = Some source ->
        handleGetMovie es id
        = {| movie_status := 200;
             movie_body := MovieJSON (withID (mapToMovie (delete "id" source)) id) |})
  /\ (fault es = Unreachable ->
      handleGetMovie es id
      = {| movie_status := 500; movie_body := MovieError "failed to fetch movie" |}).
Proof.
  split.
  - intros Hes. split.
    + destruct (docs es !! id) as [source|] eqn:Hdoc.
      * rewrite (handleGetMovie_stored _ _ _ Hes Hdoc). cbn. split; discriminate.
      * rewrite (handleGetMovie_missing _ _ Hes Hdoc). cbn. split; reflexivity.
    + intros source Hdoc. rewrite (handleGetMovie_stored _ _ _ Hes Hdoc).
      now rewrite mapToMovie_delete_id.
  - intros Hes. unfold handleGetMovie, es_Get. now rewrite Hes.
Qed.

(** X6.  On a healthy cluster, a DELETE answered 204 makes the next GET
    and the next DELETE of the id a 404, and leaves the answer to a GET of
    any other id as it was. *)
Theorem deleted_movie_is_gone es id es' :
  fault es = Healthy ->
  handleDeleteMovie es id = ({| status := 204; body := NoBody |}, es') ->
  handleGetMovie es' id = {| movie_status := 404; movie_body := MovieError "movie not found" |}
  /\ handleDeleteMovie es' id = ({| status := 404; body := ErrorJSON "movie not found" |}, es')
  /\ forall other, other <> id -> handleGetMovie es' other = handleGetMovie es other.
Proof.
  intros Hes. unfold handleDeleteMovie at 1. unfold es_Delete. rewrite Hes.
  destruct (docs es !! id) as [source|] eqn:Hdoc; cbn; [|discriminate].
  intros [= <-]. split; [|split].
  - apply handleGetMovie_missing; [reflexivity|apply lookup_delete_eq].
  - unfold handleDeleteMovie, es_Delete. cbn. now rewrite lookup_delete_eq.
  - intros other Hother. apply handleGetMovie_same_doc; [exact Hes|reflexivity|].
    cbn. now rewrite lookup_delete_ne.
Qed.

End MovieProperties.

(** *** Seeding, and the movies of a search *)

Section SeedProperties.

Import SearchEngine Movies.

Variable es_accepts : string -> Source -> bool.
Variable es_search : gmap string Source -> SearchBody -> option SearchResult.

Lemma indexMovie_done es id movie es' :
  indexMovie es_accepts es id movie = (None, es') ->
  fault es = Healthy ->
  es' = {| docs := <[id := movieJSON movie]> (docs es); fault := Healthy |}.
Proof.
  unfold indexMovie, es_Index. intros Hidx Hes. rewrite Hes in Hidx.
  destruct (negb (is_finite (Rating movie))); [discriminate|].
  destruct (es_accepts id _); [|discriminate].
  destruct (docs es !! id); cbn in Hidx; congruence.
Qed.

(** A loop that ends without an error on a healthy cluster has stored a
    document. *)
Lemma seedLoop_done NewString movies : forall n es es',
  seedLoop es_accepts NewString n movies es = (None, es') ->
  fault es = Healthy ->
  movies <> [] ->
  fault es' = Healthy /\ docs es' <> ∅.
Proof.
  induction movies as [|movie rest IH]; intros n es es' Hloop Hes Hne; [contradiction|].
  cbn [seedLoop] in Hloop. cbv zeta in Hloop. cbn [ID withID] in Hloop.
  destruct (indexMovie es_accepts es (NewString n) _) as [[text|] es1] eqn:Hidx;
    [discriminate|].
  apply indexMovie_done in Hidx; [|exact Hes]. subst es1.
  destruct rest as [|next rest].
  - cbn in Hloop. injection Hloop as <-. cbn. split; [reflexivity|apply insert_non_empty].
  - eapply IH; [exact Hloop|reflexivity|discriminate].
Qed.

Lemma seedMovies_filled NewString es :
  fault es = Healthy -> docs es <> ∅ -> seedMovies es_accepts NewString es = (None, es).
Proof.
  intros Hes Hdocs. unfold seedMovies, es_Count. rewrite Hes.
  apply map_size_non_empty_iff in Hdocs.
  destruct (Z.ltb_spec 0 (Z.of_nat (base.size (docs es)))); [reflexivity|lia].
Qed.

(** X7.  On a healthy cluster [seedMovies] leaves an index that holds a
    document as it is, and an index it has seeded without an error is left
    alone by every later call: the seed movies are indexed once. *)
Theorem seeding_is_done_once NewString es :
  fault es = Healthy ->
  (docs es <> ∅ -> seedMovies es_accepts NewString es = (None, es))
  /\ forall es',
       seedMovies es_accepts NewString es = (None, es') ->
       forall NewString', seedMovies es_accepts NewString' es' = (None, es').
Proof.
  intros Hes. split; [now apply seedMovies_filled|].
  intros es' Hseed NewString'. unfold seedMovies, es_Count in Hseed. rewrite Hes in Hseed.
  destruct (0 <? Z.of_nat (base.size (docs es))) eqn:Hcount.
  - injection Hseed as <-. apply seedMovies_filled; [exact Hes|].
    apply map_size_non_empty_iff. apply Z.ltb_lt in Hcount. lia.
  - apply seedLoop_done in Hseed as (Hes' & Hdocs); [|exact Hes|discriminate].
    now apply seedMovies_filled.
Qed.

(** X8.  In a 200 answer to a search the movies are the hits of the reply,
    one for one and in their order: each carries the [_id] of its hit as
    [ID] (an [id] member of the stored document is not read), and
    [total_hits] is the total of the reply. *)
Theorem search_movies_follow_hits es params movies pg :
  body (fst (handleSearchMovies es_search es params)) = SearchJSON movies pg ->
  exists b result,
    snd (handleSearchMovies es_search es params) = [b]
    /\ fault es = Healthy
    /\ es_search (docs es) b = Some result
    /\ movies = map (fun hit => withID (mapToMovie (delete "id" (hit_source hit))) (hit_id hit))
                    (hits result)
    /\ map ID movies = map hit_id (hits result)
    /\ TotalHits pg = total_value result.
Proof.
  unfold handleSearchMovies. cbv zeta. unfold es_Search.
  destruct (fault es) as [| |st]; [|discriminate|destruct (IsError st); discriminate].
  change (IsError 200) with false. cbv iota.
  destruct (es_search (docs es) _) as [result|] eqn:Hsearch; [|discriminate].
  cbn [fst snd body]. intros [= <- <-]. eexists _, result.
  split; [reflexivity|]. split; [reflexivity|]. split; [exact Hsearch|].
  split; [|split; [|reflexivity]].
  - apply map_ext. intros hit. unfold mapToMovie. now rewrite !lookup_delete_ne by done.
  - rewrite map_map. reflexivity.
Qed.

End SeedProperties.

(** ** The converter: what every request gets *)

Section ConverterServerProperties.

Import Converter ConverterServer.

Variable ToUpper : string -> string.
Variable ParseFloat : string -> option float.
Variable rateFetcher : string -> string -> result float.

(** X9.  [convertHandler] answers 200, 400, 405 or 502: 405 exactly for a
    method other than GET.  It calls the rate fetcher at most once, with
    the upper-cased [base] and [target], and exactly when it answers 200 or
    502: a request it refuses costs no call. *)
Theorem convert_answers_and_fetches r :
  let w := fst (convertHandler ToUpper ParseFloat rateFetcher r) in
  let calls := snd (convertHandler ToUpper ParseFloat rateFetcher r) in
  (Code w = 200 \/ Code w = 400 \/ Code w = 405 \/ Code w = 502)
  /\ (Code w = 405 <-> Method r <> "GET")
  /\ (calls = []
      \/ calls = [(ToUpper (Get (URL_Query r) "base"), ToUpper (Get (URL_Query r) "target"))])
  /\ (calls <> [] <-> Code w = 200 \/ Code w = 502).
Proof.
  intros w calls.
  assert (Hrefused : forall (out : ResponseRecorder * list (string * string)) (code : Z),
             Code (fst out) = code -> snd out = [] ->
             (code = 405 <-> Method r <> "GET") -> code = 400 \/ code = 405 ->
             (Code (fst out) = 200 \/ Code (fst out) = 400 \/ Code (fst out) = 405
              \/ Code (fst out) = 502)
             /\ (Code (fst out) = 405 <-> Method r <> "GET")
             /\ (snd out = []
                 \/ snd out = [(ToUpper (Get (URL_Query r) "base"),
                                ToUpper (Get (URL_Query r) "target"))])
             /\ (snd out <> [] <-> Code (fst out) = 200 \/ Code (fst out) = 502)).
  { intros out code -> -> Hiff Hcode. split; [tauto|]. split; [exact Hiff|].
    split; [auto|]. split; [contradiction|]. lia. }
  assert (Hfetched : forall out : ResponseRecorder * list (string * string),
             Method r = "GET" ->
             Code (fst out) = 200 \/ Code (fst out) = 502 ->
             snd out = [(ToUpper (Get (URL_Query r) "base"),
                         ToUpper (Get (URL_Query r) "target"))] ->
             (Code (fst out) = 200 \/ Code (fst out) = 400 \/ Code (fst out) = 405
              \/ Code (fst out) = 502)
             /\ (Code (fst out) = 405 <-> Method r <> "GET")
             /\ (snd out = []
                 \/ snd out = [(ToUpper (Get (URL_Query r) "base"),
                                ToUpper (Get (URL_Query r) "target"))])
             /\ (snd out <> [] <-> Code (fst out) = 200 \/ Code (fst out) = 502)).
  { intros out Hget Hcode ->. split; [tauto|]. split; [split; [lia|contradiction]|].
    split; [auto|]. split; [auto|discriminate]. }
  subst w calls. unfold convertHandler.
  destruct (String.eqb_spec (Method r) "GET") as [Hget|Hget]; cbn [negb].
  2: { apply (Hrefused _ 405); [reflexivity|reflexivity|tauto|auto]. }
  assert (Hconvert : forall amount,
             let out :=
               match rateFetcher (ToUpper (Get (URL_Query r) "base"))
                       (ToUpper (Get (URL_Query r) "target")) with
               | Ok rate =>
                   (Encode {| Base := ToUpper (Get (URL_Query r) "base");
                              Target := ToUpper (Get (URL_Query r) "target");
                              Amount := amount; Rate := rate; Converted := rate * amount;
                              Source := "yahoo-finance" |},
                    [(ToUpper (Get (URL_Query r) "base"), ToUpper (Get (URL_Query r) "target"))])
               | Err _ =>
                   (http_Error "failed to fetch rate" StatusBadGateway,
                    [(ToUpper (Get (URL_Query r) "base"), ToUpper (Get (URL_Query r) "target"))])
               end in
             (Code (fst out) = 200 \/ Code (fst out) = 502)
             /\ snd out
                = [(ToUpper (Get (URL_Query r) "base"), ToUpper (Get (URL_Query r) "target"))]).
  { intros amount. destruct (rateFetcher _ _) as [rate|err]; cbn [fst snd].
    - unfold Encode. match goal with |- context [if ?c then _ else _] => destruct c end; cbn; auto.
    - cbn. auto. }
  destruct (String.eqb _ "" || String.eqb _ "")%bool.
  { apply (Hrefused _ 400); [reflexivity|reflexivity|split; [discriminate|contradiction]|auto]. }
  destruct (negb (String.eqb (Get (URL_Query r) "amount") "")).
  - destruct (ParseFloat _) as [parsed|].
    + destruct (Hconvert parsed) as (Hcode & Hcalls). now apply Hfetched.
    + apply (Hrefused _ 400); [reflexivity|reflexivity|split; [discriminate|contradiction]|auto].
  - destruct (Hconvert 1%float) as (Hcode & Hcalls). now apply Hfetched.
Qed.

(** X10.  Behind [withCORS] a handler never sees an OPTIONS request: the
    answer is an empty 204 and the handler is not called, so that
    [convertHandler], which alone would answer 405, fetches nothing; every
    other request gets the handler's own response.  All answers carry the
    three CORS headers. *)
Theorem preflight_stops_at_the_wrapper :
  (forall (T : Type) (next : Request -> ResponseRecorder * T) (r : Request),
     Header (withCORS next r)
     = [("Access-Control-Allow-Origin", "*");
        ("Access-Control-Allow-Methods", "GET, OPTIONS");
        ("Access-Control-Allow-Headers", "Content-Type")]
     /\ (Method r = "OPTIONS" ->
         Recorder (withCORS next r) = {| Code := 204; Body := Empty |}
         /\ Next (withCORS next r) = None)
     /\ (Method r <> "OPTIONS" ->
         Recorder (withCORS next r) = fst (next r)
         /\ Next (withCORS next r) = Some (snd (next r))))
  /\ (forall r,
        Method r = "OPTIONS" ->
        Code (fst (convertHandler ToUpper ParseFloat rateFetcher r)) = 405
        /\ Code (Recorder (withCORS (convertHandler ToUpper ParseFloat rateFetcher) r)) = 204
        /\ Next (withCORS (convertHandler ToUpper ParseFloat rateFetcher) r) = None).
Proof.
  split.
  - intros T next r. unfold withCORS.
    destruct (String.eqb_spec (Method r) "OPTIONS") as [Hopt|Hopt].
    + cbn. repeat split; auto. all: intros; contradiction.
    + destruct (next r) as [w t]. cbn. repeat split; auto. all: intros; contradiction.
  - intros r Hopt. unfold withCORS, convertHandler. rewrite Hopt. cbn. auto.
Qed.

End ConverterServerProperties.

Section FetchProperties.

Import Converter.

Lemma string_append_assoc (a b c : string) : (a ++ (b ++ c) = (a ++ b) ++ c)%string.
Proof.
  induction a as [|ch a IH]; [reflexivity|].
  change (String ch (a ++ (b ++ c)) = String ch ((a ++ b) ++ c))%string. now rewrite IH.
Qed.

(** X11.  [fetchRate] asks for the symbol [base ++ target ++ "=X"] and so
    cannot tell two pairs with the same concatenation apart: they get the
    same answer from the same request. *)
Theorem fetchRate_reads_the_concatenation yahoo base target base' target' :
  (base ++ target = base' ++ target')%string ->
  endpoint base target = endpoint base' target'
  /\ fetchRate yahoo base target = fetchRate yahoo base' target'.
Proof.
  intros Hcat.
  assert (Hend : endpoint base target = endpoint base' target').
  { unfold endpoint. cbv zeta. rewrite !(string_append_assoc _ _ "=X"), Hcat. reflexivity. }
  split; [exact Hend|]. unfold fetchRate. now rewrite Hend.
Qed.

End FetchProperties.

(** ** The travel blog: listing, reading, creating, deleting a place *)

Section DestinationsProperties.

Import TravelBlog Contract Destinations.

Variable order_places : list Place -> list Place.
Variable order_countries : list (Z * CountryRow) -> list (Z * CountryRow).

(** The places [fetchPlaces] reads for a country. *)
Abbreviation places_of countryID db :=
  (order_places
     (map place_of_row
        (map_to_list (filter (fun kv => p_country_id (snd kv) = countryID) (places db))))).

Lemma fetchPlaces_healthy id db :
  faults db = [] -> fetchPlaces order_places id db = (Ok (places_of id db), db).
Proof. intros Hf. unfold fetchPlaces. now rewrite statement_healthy. Qed.

Lemma fetchCountry_healthy id db :
  faults db = [] ->
  fetchCountry order_places id db
  = (Ok ((fun row => country_of_row id row (places_of id db)) <$> countries db !! id), db).
Proof.
  intros Hf. unfold fetchCountry. rewrite statement_healthy by exact Hf. cbn [fst snd].
  destruct (countries db !! id) as [row|]; [|reflexivity].
  now rewrite fetchPlaces_healthy.
Qed.

Lemma query_inv {A} db (run : Database -> result A * Database) r db' :
  query db run = (r, db') ->
  (exists text, r = Err (DriverError text)
                /\ countries db' = countries db /\ places db' = places db /\ now db' = now db)
  \/ (exists dbi, run dbi = (r, db')
                  /\ countries dbi = countries db /\ places dbi = places db
                  /\ now dbi = now db).
Proof.
  unfold query. destruct (statement db run) as [[a|err] db1] eqn:Hs;
    apply statement_inv in Hs as [(text & Hr & Hc & Hp & Hn)|(dbi & a' & Hr & Hrun & Hc & Hp & Hn)];
    try discriminate Hr; intros [= <- <-].
  - injection Hr as <-. right. exists dbi. auto.
  - injection Hr as ->. left. exists text. auto.
Qed.

Lemma query_healthy {A} db (run : Database -> result A * Database) :
  faults db = [] -> query db run = run db.
Proof.
  intros Hf. unfold query. rewrite statement_healthy by exact Hf.
  destruct (run db) as [[a|err] db1]; reflexivity.
Qed.

(** X12.  [createCountry] refuses a name that is absent, [null], empty or
    nothing but white space with a 400, before any statement is sent: the
    database is as it was. *)
Theorem blank_country_name_is_refused db nextval patch :
  patch_country_name patch = Go.Absent
  \/ patch_country_name patch = Go.Null
  \/ (exists v, patch_country_name patch = Go.Value v /\ Go.TrimSpace v = "") ->
  status (fst (createCountry order_places db nextval (Go.Document (Go.Value patch)))) = 400
  /\ snd (createCountry order_places db nextval (Go.Document (Go.Value patch))) = db.
Proof.
  intros Hname. unfold createCountry, bindNewCountry. cbn [Go.decode_document].
  destruct (Go.decode_value "" Some (patch_country_name patch)) as [n|] eqn:Hn; [|cbn; auto].
  destruct (Go.decode_value "" Some (patch_country_description patch)) as [d|]; [|cbn; auto].
  cbn [new_country_name new_country_description].
  destruct (String.eqb n ""); [cbn; auto|]. cbn [new_country_name].
  assert (Go.TrimSpace n = "") as ->; [|cbn; auto].
  destruct Hname as [H|[H|(v & H & Hv)]]; rewrite H in Hn; cbn in Hn; injection Hn as <-;
    [reflexivity|reflexivity|exact Hv].
Qed.

(** X13.  With a driver that does not fail and an [id] the sequence has not
    handed out, [createCountry] answers 201 with the new country: its name
    and description are the trimmed texts of the body, both times are
    [NOW()], the row is stored under the new [id] and nothing else is
    changed; a GET of that [id] then answers 200 with the same country. *)
Theorem created_country_is_read_back db nextval doc input idParam :
  faults db = [] ->
  countries db !! nextval = None ->
  bindNewCountry doc = Some input ->
  Go.TrimSpace (new_country_name input) <> "" ->
  parseIDParam idParam = Ok nextval ->
  exists db' country,
    createCountry order_places db nextval doc
    = ({| status := 201; body := CountryJSON (Some country) |}, db')
    /\ countries db'
       = <[nextval := {| c_name := Go.TrimSpace (new_country_name input);
                         c_description := Go.TrimSpace (new_country_description input);
                         c_created_at := now db; c_updated_at := now db |}]> (countries db)
    /\ places db' = places db
    /\ ID country = nextval
    /\ Name country = Go.TrimSpace (new_country_name input)
    /\ Description country = Go.TrimSpace (new_country_description input)
    /\ CreatedAt country = now db
    /\ UpdatedAt country = now db
    /\ getCountry order_places db' idParam
       = ({| status := 200; body := CountryJSON (Some country) |}, db').
Proof.
  intros Hf Hfresh Hbind Hname Hid. unfold createCountry. rewrite Hbind.
  apply String.eqb_neq in Hname. rewrite Hname.
  rewrite query_healthy by exact Hf. unfold sql_insert_country. rewrite Hfresh.
  rewrite fetchCountry_healthy by exact Hf.
  cbn [countries with_tables]. rewrite lookup_insert_eq. cbn [fmap option_fmap option_map].
  eexists _, _. split; [reflexivity|]. cbn [countries places with_tables].
  repeat (split; [reflexivity|]).
  unfold getCountry. rewrite Hid, fetchCountry_healthy by exact Hf.
  cbn [countries with_tables]. rewrite lookup_insert_eq. reflexivity.
Qed.

(** X14.  [updateCountry] takes the name [createCountry] refuses: with a
    driver that does not fail, a name of nothing but white space is answered
    200 and the stored name becomes the empty string. *)
Theorem blank_name_is_stored_by_update db idParam id doc input v row :
  faults db = [] ->
  parseIDParam idParam = Ok id ->
  bindCountryInput doc = Some input ->
  in_country_name input = Some v ->
  Go.TrimSpace v = "" ->
  countries db !! id = Some row ->
  exists db' row',
    status (fst (updateCountry order_places db idParam doc)) = 200
    /\ snd (updateCountry order_places db idParam doc) = db'
    /\ countries db' !! id = Some row'
    /\ c_name row' = "".
Proof.
  intros Hf Hid Hbind Hname Hblank Hrow. unfold updateCountry. rewrite Hid, Hbind, Hname, Hblank.
  cbn [negb String.eqb]. rewrite statement_healthy by exact Hf.
  unfold sql_update_country. rewrite Hrow. cbn [fst snd]. change (1 =? 0) with false. cbv iota.
  rewrite fetchCountry_healthy by exact Hf. cbn [countries with_tables fst snd status].
  eexists _, _. split; [reflexivity|]. split; [reflexivity|].
  cbn [countries with_tables]. split; [apply lookup_insert_eq|]. reflexivity.
Qed.

Lemma scanCountries_tables rows : forall db r db',
  scanCountries order_places rows db = (r, db') ->
  countries db' = countries db /\ places db' = places db /\ now db' = now db.
Proof.
  induction rows as [|[id row] rest IH]; intros db r db'; cbn [scanCountries].
  - intros [= _ <-]. auto.
  - destruct (fetchPlaces order_places id db) as [[ps|err] db1] eqn:Hfetch;
      apply fetchPlaces_tables in Hfetch as (Hc & Hp & Hn); [|intros [= _ <-]; auto].
    destruct (scanCountries order_places rest db1) as [[cs|err] db2] eqn:Hscan;
      apply IH in Hscan as (Hc' & Hp' & Hn'); intros [= _ <-]; repeat split; congruence.
Qed.

(** [listCountries] under any driver. *)
Lemma listCountries_tables db :
  countries (snd (listCountries order_places order_countries db)) = countries db
  /\ places (snd (listCountries order_places order_countries db)) = places db.
Proof.
  unfold listCountries, fetchCountries.
  destruct (statement db _) as [[rows|err] db1] eqn:Hs;
    apply statement_inv in Hs as [(text & Hr & Hc & Hp & _)|(dbi & a & Hr & Hrun & Hc & Hp & _)];
    try discriminate Hr; [|cbn; auto].
  injection Hrun as _ <-.
  destruct (scanCountries order_places rows dbi) as [[cs|err] db2] eqn:Hscan;
    apply scanCountries_tables in Hscan as (Hc' & Hp' & _); cbn; split; congruence.
Qed.

(** X15.  Reading changes no table: neither [getCountry] nor
    [listCountries] does, whatever the driver does.  With a driver that
    does not fail, [getCountry] answers 404 for an [id] without a row and
    200 with the row and its places otherwise; an [id] that is no integer is
    a 400. *)
Theorem get_country_answers db idParam :
  (countries (snd (getCountry order_places db idParam)) = countries db
   /\ places (snd (getCountry order_places db idParam)) = places db)
  /\ (countries (snd (listCountries order_places order_countries db)) = countries db
      /\ places (snd (listCountries order_places order_countries db)) = places db)
  /\ (forall id,
        parseIDParam idParam = Ok id ->
        faults db = [] ->
        getCountry order_places db idParam
        = match countries db !! id with
          | None => ({| status := 404; body := ErrorJSON "country not found" |}, db)
          | Some row =>
              ({| status := 200;
                  body := CountryJSON (Some (country_of_row id row (places_of id db))) |}, db)
          end)
  /\ (forall err,
        parseIDParam idParam = Err err ->
        getCountry order_places db idParam = ({| status := 400; body := ErrorOf err |}, db)).
Proof.
  split; [|split; [apply listCountries_tables|split]].
  - unfold getCountry. destruct (parseIDParam idParam) as [id|err]; [|auto].
    destruct (fetchCountry order_places id db) as [[[c|]|err] db1] eqn:Hfetch;
      apply fetchCountry_tables in Hfetch as (Hc & Hp & _); auto.
  - intros id Hid Hf. unfold getCountry. rewrite Hid, fetchCountry_healthy by exact Hf.
    destruct (countries db !! id); reflexivity.
  - intros err Hid. unfold getCountry. now rewrite Hid.
Qed.

(** What [createPlace] does once the body is read: the [INSERT] under a
    country without a row fails, by the driver or by the foreign key. *)
Lemma insert_place_orphan db countryID name category city description visitedAt nextval r db' :
  countries db !! countryID = None ->
  query db (sql_insert_place countryID name category city description visitedAt nextval)
  = (r, db') ->
  (exists err, r = Err err) /\ countries db' = countries db /\ places db' = places db.
Proof.
  intros Hnone Hq.
  apply query_inv in Hq as [(text & -> & Hc & Hp & _)|(dbi & Hrun & Hc & Hp & _)]; [eauto|].
  unfold sql_insert_place in Hrun. rewrite Hc, Hnone in Hrun. injection Hrun as <- <-. eauto.
Qed.

(** X16.  A place cannot be created under a country without a row: the
    answer is never 201 and no table changes; with a driver that does not
    fail and a body that passes the checks, the answer is the 500 of the
    foreign key, not a 404. *)
Theorem place_of_unknown_country_is_an_error db nextval idParam countryID doc :
  parseIDParam idParam = Ok countryID ->
  countries db !! countryID = None ->
  (status (fst (createPlace order_places db nextval idParam doc)) <> 201
   /\ countries (snd (createPlace order_places db nextval idParam doc)) = countries db
   /\ places (snd (createPlace order_places db nextval idParam doc)) = places db)
  /\ (forall input,
        faults db = [] ->
        bindNewPlace doc = Some input ->
        Go.TrimSpace (new_name input) <> "" ->
        Go.TrimSpace (new_category input) <> "" ->
        (forall v, new_visited_at input = Some v -> v <> "" -> Go.ParseDate v <> None) ->
        exists text,
          createPlace order_places db nextval idParam doc
          = ({| status := 500; body := ErrorOf (DriverError text) |}, db)).
Proof.
  intros Hid Hnone. split.
  - unfold createPlace. rewrite Hid.
    destruct (bindNewPlace doc) as [input|]; [|cbn; auto]. cbv zeta.
    destruct (String.eqb _ "" || String.eqb _ "")%bool; [cbn; auto|].
    assert (Hinsert : forall visitedAt,
               let r :=
                 match query db
                         (sql_insert_place countryID (Go.TrimSpace (new_name input))
                            (Go.TrimSpace (new_category input)) (Go.TrimSpace (new_city input))
                            (Go.TrimSpace (new_description input)) visitedAt nextval) with
                 | (Err err, db1) =>
                     ({| status := StatusInternalServerError; body := ErrorOf err |}, db1)
                 | (Ok _, db1) =>
                     match fetchCountry order_places countryID db1 with
                     | (Err err, db2) =>
                         ({| status := StatusInternalServerError; body := ErrorOf err |}, db2)
                     | (Ok country, db2) =>
                         ({| status := StatusCreated; body := CountryJSON country |}, db2)
                     end
                 end in
               status (fst r) <> 201 /\ countries (snd r) = countries db
               /\ places (snd r) = places db).
    { intros visitedAt. destruct (query db _) as [r db1] eqn:Hq.
      apply (insert_place_orphan _ _ _ _ _ _ _ _ _ _ Hnone) in Hq as ((err & ->) & Hc & Hp).
      cbn. auto. }
    destruct (new_visited_at input) as [v|]; [|apply Hinsert].
    destruct (String.eqb v ""); [apply Hinsert|].
    destruct (Go.ParseDate v); [apply Hinsert|cbn; auto].
  - intros input Hf Hbind Hname Hcategory Hdate. unfold createPlace. rewrite Hid, Hbind.
    cbv zeta. apply String.eqb_neq in Hname, Hcategory. rewrite Hname, Hcategory. cbn [orb].
    assert (Hinsert : forall visitedAt,
               query db
                 (sql_insert_place countryID (Go.TrimSpace (new_name input))
                    (Go.TrimSpace (new_category input)) (Go.TrimSpace (new_city input))
                    (Go.TrimSpace (new_description input)) visitedAt nextval)
               = (Err (DriverError "violates foreign key constraint"), db)).
    { intros visitedAt. rewrite query_healthy by exact Hf. unfold sql_insert_place.
      now rewrite Hnone. }
    eexists.
    destruct (new_visited_at input) as [v|]; [|now rewrite Hinsert].
    destruct (String.eqb_spec v "") as [->|Hv]; [now rewrite Hinsert|].
    destruct (Go.ParseDate v) eqn:Hparse; [now rewrite Hinsert|].
    now destruct (Hdate v eq_refl Hv).
Qed.

(** X17.  With a driver that does not fail, a body that passes the checks,
    a country that has a row and an [id] the sequence has not handed out,
    [createPlace] answers 201 with the country of the path: the place is
    stored under the new [id] with the trimmed texts, the date of
    [visited_at] (none for an absent, [null] or empty member) and both times
    [NOW()]; no other row changes, and the answer lists the new place as
    long as the ordering of [fetchPlaces] drops no row. *)
Theorem created_place_is_listed db nextval idParam countryID doc input crow :
  faults db = [] ->
  parseIDParam idParam = Ok countryID ->
  bindNewPlace doc = Some input ->
  Go.TrimSpace (new_name input) <> "" ->
  Go.TrimSpace (new_category input) <> "" ->
  (forall v, new_visited_at input = Some v -> v <> "" -> Go.ParseDate v <> None) ->
  countries db !! countryID = Some crow ->
  places db !! nextval = None ->
  (forall l x, In x l -> In x (order_places l)) ->
  let row :=
    {| p_country_id := countryID; p_name := Go.TrimSpace (new_name input);
       p_category := Go.TrimSpace (new_category input);
       p_city := Go.TrimSpace (new_city input);
       p_description := Go.TrimSpace (new_description input);
       p_visited_at := resolve_date None (new_visited_at input);
       p_created_at := now db; p_updated_at := now db |} in
  exists db' country,
    createPlace order_places db nextval idParam doc
    = ({| status := 201; body := CountryJSON (Some country) |}, db')
    /\ places db' = <[nextval := row]> (places db)
    /\ countries db' = countries db
    /\ ID country = countryID
    /\ In (place_of_row (nextval, row)) (Places country).
Proof.
  intros Hf Hid Hbind Hname Hcategory Hdate Hcrow Hfresh Hkeeps row.
  unfold createPlace. rewrite Hid, Hbind.
  cbv zeta. apply String.eqb_neq in Hname, Hcategory. rewrite Hname, Hcategory. cbn [orb].
  assert (Hinsert : forall visitedAt,
             visitedAt = resolve_date None (new_visited_at input) ->
             exists db' country,
               match query db
                       (sql_insert_place countryID (Go.TrimSpace (new_name input))
                          (Go.TrimSpace (new_category input)) (Go.TrimSpace (new_city input))
                          (Go.TrimSpace (new_description input)) visitedAt nextval) with
               | (Err err, db1) =>
                   ({| status := StatusInternalServerError; body := ErrorOf err |}, db1)
               | (Ok _, db1) =>
                   match fetchCountry order_places countryID db1 with
                   | (Err err, db2) =>
                       ({| status := StatusInternalServerError; body := ErrorOf err |}, db2)
                   | (Ok country, db2) =>
                       ({| status := StatusCreated; body := CountryJSON country |}, db2)
                   end
               end
               = ({| status := 201; body := CountryJSON (Some country) |}, db')
               /\ places db' = <[nextval := row]> (places db)
               /\ countries db' = countries db
               /\ ID country = countryID
               /\ In (place_of_row (nextval, row)) (Places country)).
  { intros visitedAt ->. rewrite query_healthy by exact Hf.
    unfold sql_insert_place. rewrite Hcrow, Hfresh.
    rewrite fetchCountry_healthy by exact Hf. cbn [countries places with_tables].
    rewrite Hcrow. cbn [fmap option_fmap option_map].
    eexists _, _. split; [reflexivity|]. cbn [countries places with_tables].
    repeat (split; [reflexivity|]). cbn [Places country_of_row].
    apply Hkeeps. apply (in_map place_of_row _ (nextval, row)).
    apply list_elem_of_In, elem_of_map_to_list, map_lookup_filter_Some.
    split; [apply lookup_insert_eq|reflexivity]. }
  destruct (new_visited_at input) as [v|] eqn:Hv; [|now apply Hinsert].
  destruct (String.eqb_spec v "") as [->|Hne]; [now apply Hinsert|].
  destruct (Go.ParseDate v) as [t|] eqn:Hparse; [|now destruct (Hdate v eq_refl Hne)].
  apply Hinsert. cbn. apply String.eqb_neq in Hne. now rewrite Hne, Hparse.
Qed.

(** Every branch of a handler, with the answer it ends in. *)
Ltac branches :=
  cbv zeta;
  repeat match goal with
    | |- context [match ?x with _ => _ end] => destruct x
    end;
  cbn [fst snd status]; intros Hstatus; try reflexivity; discriminate Hstatus.

(** X18.  A 400 is given before any statement is sent: whichever handler
    answers it, the database is exactly as it was. *)
Theorem bad_request_sends_nothing db nextval idParam :
  (forall doc, status (fst (createCountry order_places db nextval doc)) = 400 ->
               snd (createCountry order_places db nextval doc) = db)
  /\ (forall doc, status (fst (createPlace order_places db nextval idParam doc)) = 400 ->
                  snd (createPlace order_places db nextval idParam doc) = db)
  /\ (forall doc, status (fst (updateCountry order_places db idParam doc)) = 400 ->
                  snd (updateCountry order_places db idParam doc) = db)
  /\ (forall doc, status (fst (updatePlace order_places db idParam doc)) = 400 ->
                  snd (updatePlace order_places db idParam doc) = db)
  /\ (status (fst (getCountry order_places db idParam)) = 400 ->
      snd (getCountry order_places db idParam) = db)
  /\ (status (fst (deleteCountry db idParam)) = 400 -> snd (deleteCountry db idParam) = db)
  /\ (status (fst (deletePlace order_places db idParam)) = 400 ->
      snd (deletePlace order_places db idParam) = db).
Proof.
  repeat split; [intros doc|intros doc|intros doc|intros doc|..].
  - unfold createCountry. branches.
  - unfold createPlace. branches.
  - unfold updateCountry. branches.
  - unfold updatePlace. branches.
  - unfold getCountry. branches.
  - unfold deleteCountry. branches.
  - unfold deletePlace. branches.
Qed.

(** X19.  [deletePlace] changes no country and no other place.  With a
    driver that does not fail, an [id] without a row is answered 404 and
    nothing changes; a place that has a row is removed, and the answer is a
    200 with its country as read after the removal. *)
Theorem deleted_place_leaves_the_rest db idParam id :
  parseIDParam idParam = Ok id ->
  (forall resp db',
     deletePlace order_places db idParam = (resp, db') ->
     countries db' = countries db
     /\ (forall other, other <> id -> places db' !! other = places db !! other)
     /\ (status resp = 200 -> places db' !! id = None)
     /\ (status resp = 404 -> places db' = places db))
  /\ (faults db = [] ->
      deletePlace order_places db idParam
      = match places db !! id with
        | None => ({| status := 404; body := ErrorJSON "place not found" |}, db)
        | Some row =>
            let db' := with_tables db (countries db) (delete id (places db)) in
            ({| status := 200;
                body := CountryJSON
                          ((fun crow => country_of_row (p_country_id row) crow
                                          (places_of (p_country_id row) db'))
                           <$> countries db !! p_country_id row) |}, db')
        end).
Proof.
  intros Hid. split.
  - intros resp db'. unfold deletePlace. rewrite Hid.
    destruct (statement db (sql_place_country id)) as [[[countryID|]|err] db1] eqn:Hs1;
      apply statement_inv in Hs1
        as [(text & Hr & Hc1 & Hp1 & _)|(dbi & a & Hr & Hrun & Hc1 & Hp1 & _)];
      try discriminate Hr; try (unfold sql_place_country in Hrun; injection Hrun as _ <-).
    2-3: intros [= <- <-]; cbn [status]; repeat split; try congruence;
         try (intros; congruence); intros H; discriminate H.
    destruct (statement dbi (sql_delete_place id)) as [[affected|err] db2] eqn:Hs2;
      apply statement_inv in Hs2
        as [(text & Hr2 & Hc2 & Hp2 & _)|(dbj & a2 & Hr2 & Hrun2 & Hc2 & Hp2 & _)];
      try discriminate Hr2.
    2: intros [= <- <-]; cbn [status]; repeat split; try congruence;
       try (intros; congruence); intros H; discriminate H.
    injection Hr2 as <-. unfold sql_delete_place in Hrun2.
    destruct (places dbj !! id) as [prow|] eqn:Hprow; injection Hrun2 as <- <-.
    + change (1 =? 0) with false. cbv iota.
      destruct (fetchCountry order_places countryID _) as [[c|err] db3] eqn:Hfetch;
        apply fetchCountry_tables in Hfetch as (Hc3 & Hp3 & _);
        cbn [countries places with_tables] in Hc3, Hp3;
        intros [= <- <-]; cbn [status].
      all: split; [congruence|].
      all: split; [intros other Hother; rewrite Hp3, lookup_delete_ne by congruence; congruence|].
      all: split; [intros _; rewrite Hp3; apply lookup_delete_eq|intros H; discriminate H].
    + intros [= <- <-]. cbn [status]. repeat split; try congruence;
        try (intros; congruence); intros H; discriminate H.
  - intros Hf. unfold deletePlace. rewrite Hid, statement_healthy by exact Hf.
    unfold sql_place_country. cbn [fst snd].
    destruct (places db !! id) as [row|] eqn:Hrow; [|reflexivity]. cbn [fmap option_fmap option_map].
    rewrite statement_healthy by exact Hf. unfold sql_delete_place. rewrite Hrow.
    cbn [fst snd]. change (1 =? 0) with false. cbv iota.
    rewrite fetchCountry_healthy by exact Hf. cbn [countries with_tables].
    reflexivity.
Qed.

(** X20.  An update answered 200 has stamped the addressed row:
    [updated_at] is [NOW()] whatever the body holds, an empty one included,
    while [created_at] and, for a place, its country stay as stored. *)
Theorem update_stamps_the_row :
  (forall db idParam doc resp db' id,
      updatePlace order_places db idParam doc = (resp, db') ->
      status resp = 200 ->
      parseIDParam idParam = Ok id ->
      exists row row',
        places db !! id = Some row
        /\ places db' !! id = Some row'
        /\ p_country_id row' = p_country_id row
        /\ p_created_at row' = p_created_at row
        /\ p_updated_at row' = now db)
  /\ (forall db idParam doc resp db' id,
        updateCountry order_places db idParam doc = (resp, db') ->
        status resp = 200 ->
        parseIDParam idParam = Ok id ->
        exists row row',
          countries db !! id = Some row
          /\ countries db' !! id = Some row'
          /\ c_created_at row' = c_created_at row
          /\ c_updated_at row' = now db).
Proof.
  split.
  - intros db idParam doc resp db' id Hrun Hok Hid.
    apply updatePlace_runs in Hrun as (_ & [(_ & Hne)|Hrun]); [contradiction|].
    destruct Hrun as (placeID & input & row & Hid' & _ & _ & Hrow & ->).
    assert (placeID = id) as -> by congruence.
    eexists row, _. split; [exact Hrow|]. split; [apply lookup_insert_eq|]. cbn. auto.
  - intros db idParam doc resp db' id Hrun Hok Hid.
    apply updateCountry_runs in Hrun as (_ & [(_ & Hne)|Hrun]); [contradiction|].
    destruct Hrun as (cid & input & row & Hid' & _ & Hrow & ->).
    assert (cid = id) as -> by congruence.
    eexists row, _. split; [exact Hrow|]. split; [apply lookup_insert_eq|]. cbn. auto.
Qed.

(** X21.  Whatever it answers, an update touches at most the row its path
    names: [updatePlace] changes no country, [updateCountry] no place, every
    other row of the table is as it was, and no row is added or removed. *)
Theorem update_touches_one_row :
  (forall db idParam doc resp db',
      updatePlace order_places db idParam doc = (resp, db') ->
      countries db' = countries db
      /\ (forall other, parseIDParam idParam <> Ok other ->
          places db' !! other = places db !! other)
      /\ (forall id, is_Some (places db' !! id) <-> is_Some (places db !! id)))
  /\ (forall db idParam doc resp db',
        updateCountry order_places db idParam doc = (resp, db') ->
        places db' = places db
        /\ (forall other, parseIDParam idParam <> Ok other ->
            countries db' !! other = countries db !! other)
        /\ (forall id, is_Some (countries db' !! id) <-> is_Some (countries db !! id))).
Proof.
  split.
  - intros db idParam doc resp db' Hrun.
    apply updatePlace_runs in Hrun as (Hc & [(-> & _)|Hrun]); [auto|].
    destruct Hrun as (placeID & input & row & Hid & _ & _ & Hrow & ->).
    split; [exact Hc|]. split.
    + intros other Hother. apply lookup_insert_ne. congruence.
    + intros id. destruct (decide (placeID = id)) as [<-|Hne].
      * rewrite lookup_insert_eq, Hrow. split; eauto.
      * now rewrite lookup_insert_ne.
  - intros db idParam doc resp db' Hrun.
    apply updateCountry_runs in Hrun as (Hp & [(-> & _)|Hrun]); [auto|].
    destruct Hrun as (cid & input & row & Hid & _ & Hrow & ->).
    split; [exact Hp|]. split.
    + intros other Hother. apply lookup_insert_ne. congruence.
    + intros id. destruct (decide (cid = id)) as [<-|Hne].
      * rewrite lookup_insert_eq, Hrow. split; eauto.
      * now rewrite lookup_insert_ne.
Qed.

(** X22.  [updatePlace] stores before it answers: when the [UPDATE] runs
    and the statement after it fails, the answer is a 500 with the driver's
    error, and the row holds the update. *)
Theorem update_is_stored_before_it_is_answered db idParam id doc input row text rest :
  faults db = None :: Some text :: rest ->
  parseIDParam idParam = Ok id ->
  bindPlaceInput doc = Some input ->
  (forall v, in_visited_at input = Some v -> v <> "" -> Go.ParseDate v <> None) ->
  places db !! id = Some row ->
  exists db',
    updatePlace order_places db idParam doc
    = ({| status := 500; body := ErrorOf (DriverError text) |}, db')
    /\ places db' !! id = Some (resolve_place row input (now db))
    /\ faults db' = rest.
Proof.
  intros Hf Hid Hbind Hdate Hrow. unfold updatePlace. rewrite Hid, Hbind.
  assert (Hexec : forall (setVisited : bool) (visitedAt : option Go.date),
             (if setVisited then visitedAt else p_visited_at row)
             = resolve_date (p_visited_at row) (in_visited_at input) ->
             exists db',
               match statement db
                       (sql_update_place (Go.TrimSpace <$> in_name input)
                          (Go.TrimSpace <$> in_category input) (Go.TrimSpace <$> in_city input)
                          (Go.TrimSpace <$> in_description input) setVisited visitedAt id) with
               | (Err err, db1) =>
                   ({| status := StatusInternalServerError; body := ErrorOf err |}, db1)
               | (Ok affected, db1) =>
                   if affected =? 0 then
                     ({| status := StatusNotFound; body := ErrorJSON "place not found" |}, db1)
                   else
                     match statement db1 (sql_place_country id) with
                     | (Err err, db2) =>
                         ({| status := StatusInternalServerError; body := ErrorOf err |}, db2)
                     | (Ok None, db2) =>
                         ({| status := StatusInternalServerError; body := ErrorOf ErrNoRows |},
                          db2)
                     | (Ok (Some countryID), db2) =>
                         match fetchCountry order_places countryID db2 with
                         | (Err err, db3) =>
                             ({| status := StatusInternalServerError; body := ErrorOf err |},
                              db3)
                         | (Ok country, db3) =>
                             ({| status := StatusOK; body := CountryJSON country |}, db3)
                         end
                     end
               end
               = ({| status := 500; body := ErrorOf (DriverError text) |}, db')
               /\ places db' !! id = Some (resolve_place row input (now db))
               /\ faults db' = rest).
  { intros sv va Hres. unfold statement at 1. rewrite Hf.
    unfold sql_update_place. cbn [places countries now faults]. rewrite Hrow.
    change (1 =? 0) with false. cbv iota.
    unfold statement, with_tables. cbn [faults countries places now].
    eexists. split; [reflexivity|]. cbn [places faults]. split; [|reflexivity].
    rewrite lookup_insert_eq, !COALESCE_resolve_text, Hres. reflexivity. }
  cbv zeta.
  destruct (in_visited_at input) as [v|] eqn:Hv; [|now apply Hexec].
  destruct (String.eqb_spec v "") as [->|Hne]; [now apply Hexec|].
  destruct (Go.ParseDate v) as [t|] eqn:Hparse; [|now destruct (Hdate v eq_refl Hne)].
  apply Hexec. cbn. apply String.eqb_neq in Hne. now rewrite Hne, Hparse.
Qed.

Lemma scanCountries_healthy rows : forall db,
  faults db = [] ->
  scanCountries order_places rows db
  = (Ok (map (fun kv => country_of_row (fst kv) (snd kv) (places_of (fst kv) db)) rows), db).
Proof.
  induction rows as [|[id row] rest IH]; intros db Hf; cbn [scanCountries]; [reflexivity|].
  rewrite fetchPlaces_healthy, IH by exact Hf. reflexivity.
Qed.

(** X23.  With a driver that does not fail and an ordering that permutes
    the rows, [listCountries] answers 200 with every country once, each
    with its row and its places, and leaves the database as it was; for a
    table without rows the body is the nil slice, [null], not an empty
    array. *)
Theorem list_countries_answers db :
  faults db = [] ->
  (forall rows, Permutation (order_countries rows) rows) ->
  exists listed,
    listCountries order_places order_countries db
    = ({| list_status := 200; list_body := CountriesJSON (appended listed) |}, db)
    /\ Permutation (map ID listed) (map fst (map_to_list (countries db)))
    /\ (forall country, In country listed ->
        exists row,
          countries db !! ID country = Some row
          /\ country = country_of_row (ID country) row (places_of (ID country) db))
    /\ (countries db = ∅ -> appended listed = None)
    /\ (countries db <> ∅ -> appended listed = Some listed).
Proof.
  intros Hf Hperm. unfold listCountries, fetchCountries.
  rewrite statement_healthy by exact Hf. cbn [fst snd].
  rewrite scanCountries_healthy by exact Hf.
  eexists. split; [reflexivity|].
  set (rows := order_countries (map_to_list (countries db))).
  assert (Hrows : Permutation rows (map_to_list (countries db))) by apply Hperm.
  split; [|split; [|split]].
  - rewrite map_map. cbn [ID country_of_row]. now apply Permutation_map.
  - intros country Hin. apply in_map_iff in Hin as ([id row] & <- & Hin). cbn [fst snd].
    exists row. split; [|reflexivity]. cbn [ID country_of_row].
    apply elem_of_map_to_list. apply list_elem_of_In.
    eapply Permutation_in; [exact Hrows|exact Hin].
  - intros Hempty. rewrite Hempty, map_to_list_empty in Hrows.
    apply Permutation_nil_r in Hrows. now rewrite Hrows.
  - intros Hne. destruct rows as [|kv rows'] eqn:E; [|reflexivity].
    apply Permutation_nil in Hrows. apply map_to_list_empty_iff in Hrows. contradiction.
Qed.

End DestinationsProperties.

(** ** The travel blog: how the handlers compose *)

Section BlogComposition.

Import TravelBlog Contract Destinations.

Variable order_places : list Place -> list Place.

(** With a driver that does not fail, the country [fetchCountry] returns
    is the one a later [fetchCountry] of its [ID] returns. *)
Lemma fetchCountry_again id db country db' :
  faults db = [] ->
  fetchCountry order_places id db = (Ok (Some country), db') ->
  db' = db /\ fetchCountry order_places (ID country) db = (Ok (Some country), db).
Proof.
  intros Hf. rewrite (fetchCountry_healthy order_places id db Hf).
  destruct (countries db !! id) as [row|] eqn:Hrow; cbn; [|discriminate].
  intros [= <- <-]. split; [reflexivity|]. cbn [ID country_of_row].
  rewrite (fetchCountry_healthy order_places id db Hf), Hrow. reflexivity.
Qed.

Lemma getCountry_fetched db idParam country :
  faults db = [] ->
  parseIDParam idParam = Ok (ID country) ->
  fetchCountry order_places (ID country) db = (Ok (Some country), db) ->
  getCountry order_places db idParam
  = ({| status := 200; body := CountryJSON (Some country) |}, db).
Proof. intros Hf Hid Hfetch. unfold getCountry. now rewrite Hid, Hfetch. Qed.

(** A healthy statement leaves the driver healthy, as long as its run
    does. *)
Lemma statement_keeps_healthy {A} db (run : Database -> A * Database) r db' :
  faults db = [] ->
  (forall d, faults (snd (run d)) = faults d) ->
  statement db run = (r, db') ->
  faults db' = [] /\ r = Ok (fst (run db)) /\ db' = snd (run db).
Proof.
  intros Hf Hrun. rewrite (statement_healthy db run Hf). intros [= <- <-].
  rewrite Hrun. auto.
Qed.

Lemma sql_update_country_faults name description id d :
  faults (snd (sql_update_country name description id d)) = faults d.
Proof. unfold sql_update_country. now destruct (countries d !! id). Qed.

Lemma sql_update_place_faults name category city description sv va id d :
  faults (snd (sql_update_place name category city description sv va id d)) = faults d.
Proof. unfold sql_update_place. now destruct (places d !! id). Qed.

Lemma sql_delete_place_faults id d : faults (snd (sql_delete_place id d)) = faults d.
Proof. unfold sql_delete_place. now destruct (places d !! id). Qed.

Lemma sql_insert_place_faults countryID name category city description va nextval d :
  faults (snd (sql_insert_place countryID name category city description va nextval d))
  = faults d.
Proof.
  unfold sql_insert_place. destruct (countries d !! countryID); [|reflexivity].
  now destruct (places d !! nextval).
Qed.

(** The last step of the writing handlers: the country read after the
    write is the answer, and a GET reads it again. *)
Lemma answered_country_is_read db1 countryID (code : Z) resp db' country idc :
  faults db1 = [] ->
  match fetchCountry order_places countryID db1 with
  | (Err err, db2) => ({| status := StatusInternalServerError; body := ErrorOf err |}, db2)
  | (Ok c, db2) => ({| status := code; body := CountryJSON c |}, db2)
  end = (resp, db') ->
  body resp = CountryJSON (Some country) ->
  parseIDParam idc = Ok (ID country) ->
  getCountry order_places db' idc = ({| status := 200; body := CountryJSON (Some country) |}, db').
Proof.
  intros Hf Hrun Hbody Hid.
  destruct (fetchCountry order_places countryID db1) as [[c|err] db2] eqn:Hfetch;
    injection Hrun as <- <-; cbn [body] in Hbody; [|discriminate].
  injection Hbody as ->.
  apply fetchCountry_again in Hfetch as (-> & Hagain); [|exact Hf].
  now apply getCountry_fetched.
Qed.

(** X24.  With a driver that does not fail, the country a writing handler
    answers with is the country as stored: a GET of its [id] on the
    resulting database answers 200 with the same body.  This holds for
    [updateCountry], [createPlace], [updatePlace] and [deletePlace]. *)
Theorem answer_is_the_country_as_read db nextval idParam resp db' country idc :
  faults db = [] ->
  body resp = CountryJSON (Some country) ->
  parseIDParam idc = Ok (ID country) ->
  (forall doc, updateCountry order_places db idParam doc = (resp, db') ->
               getCountry order_places db' idc
               = ({| status := 200; body := CountryJSON (Some country) |}, db'))
  /\ (forall doc, createPlace order_places db nextval idParam doc = (resp, db') ->
                  getCountry order_places db' idc
                  = ({| status := 200; body := CountryJSON (Some country) |}, db'))
  /\ (forall doc, updatePlace order_places db idParam doc = (resp, db') ->
                  getCountry order_places db' idc
                  = ({| status := 200; body := CountryJSON (Some country) |}, db'))
  /\ (deletePlace order_places db idParam = (resp, db') ->
      getCountry order_places db' idc
      = ({| status := 200; body := CountryJSON (Some country) |}, db')).
Proof.
  intros Hf Hbody Hid.
  assert (Hno : forall (st : Z) (b : Body) (d : Database),
             (match b with CountryJSON _ => False | _ => True end) ->
             ({| status := st; body := b |}, d) = (resp, db') ->
             getCountry order_places db' idc
             = ({| status := 200; body := CountryJSON (Some country) |}, db')).
  { intros st b d Hb [= <- <-]. cbn [body] in Hbody. subst b. contradiction. }
  split; [|split; [|split]].
  - intros doc. unfold updateCountry.
    destruct (parseIDParam idParam) as [id|err]; [|now apply Hno].
    destruct (bindCountryInput doc) as [input|]; [|now apply Hno]. cbv zeta.
    destruct (statement db _) as [r db1] eqn:Hs.
    apply statement_keeps_healthy in Hs as (Hf1 & -> & _);
      [|exact Hf|apply sql_update_country_faults].
    destruct (_ =? 0); [now apply Hno|].
    intros Hrun. eapply answered_country_is_read; eauto.
  - intros doc. unfold createPlace.
    destruct (parseIDParam idParam) as [id|err]; [|now apply Hno].
    destruct (bindNewPlace doc) as [input|]; [|now apply Hno]. cbv zeta.
    destruct (String.eqb _ "" || String.eqb _ "")%bool; [now apply Hno|].
    assert (Hinsert : forall visitedAt,
               match query db
                       (sql_insert_place id (Go.TrimSpace (new_name input))
                          (Go.TrimSpace (new_category input)) (Go.TrimSpace (new_city input))
                          (Go.TrimSpace (new_description input)) visitedAt nextval) with
               | (Err err, db1) =>
                   ({| status := StatusInternalServerError; body := ErrorOf err |}, db1)
               | (Ok _, db1) =>
                   match fetchCountry order_places id db1 with
                   | (Err err, db2) =>
                       ({| status := StatusInternalServerError; body := ErrorOf err |}, db2)
                   | (Ok c, db2) => ({| status := StatusCreated; body := CountryJSON c |}, db2)
                   end
               end = (resp, db') ->
               getCountry order_places db' idc
               = ({| status := 200; body := CountryJSON (Some country) |}, db')).
    { intros visitedAt. rewrite query_healthy by exact Hf.
      destruct (sql_insert_place _ _ _ _ _ _ _ db) as [[newid|err] db1] eqn:Hins;
        [|now apply Hno].
      assert (Hf1 : faults db1 = []).
      { rewrite <- Hf, <- (sql_insert_place_faults id (Go.TrimSpace (new_name input))
                             (Go.TrimSpace (new_category input))
                             (Go.TrimSpace (new_city input))
                             (Go.TrimSpace (new_description input)) visitedAt nextval db).
        now rewrite Hins. }
      intros Hrun. eapply answered_country_is_read; eauto. }
    destruct (new_visited_at input) as [v|]; [|apply Hinsert].
    destruct (String.eqb v ""); [apply Hinsert|].
    destruct (Go.ParseDate v); [apply Hinsert|now apply Hno].
  - intros doc. unfold updatePlace.
    destruct (parseIDParam idParam) as [id|err]; [|now apply Hno].
    destruct (bindPlaceInput doc) as [input|]; [|now apply Hno]. cbv zeta.
    assert (Hexec : forall sv va,
               match statement db
                       (sql_update_place (Go.TrimSpace <$> in_name input)
                          (Go.TrimSpace <$> in_category input) (Go.TrimSpace <$> in_city input)
                          (Go.TrimSpace <$> in_description input) sv va id) with
               | (Err err, db1) =>
                   ({| status := StatusInternalServerError; body := ErrorOf err |}, db1)
               | (Ok affected, db1) =>
                   if affected =? 0 then
                     ({| status := StatusNotFound; body := ErrorJSON "place not found" |}, db1)
                   else
                     match statement db1 (sql_place_country id) with
                     | (Err err, db2) =>
                         ({| status := StatusInternalServerError; body := ErrorOf err |}, db2)
                     | (Ok None, db2) =>
                         ({| status := StatusInternalServerError; body := ErrorOf ErrNoRows |},
                          db2)
                     | (Ok (Some countryID), db2) =>
                         match fetchCountry order_places countryID db2 with
                         | (Err err, db3) =>
                             ({| status := StatusInternalServerError; body := ErrorOf err |},
                              db3)
                         | (Ok c, db3) => ({| status := StatusOK; body := CountryJSON c |}, db3)
                         end
                     end
               end = (resp, db') ->
               getCountry order_places db' idc
               = ({| status := 200; body := CountryJSON (Some country) |}, db')).
    { intros sv va. destruct (statement db _) as [r db1] eqn:Hs.
      apply statement_keeps_healthy in Hs as (Hf1 & -> & _);
        [|exact Hf|apply sql_update_place_faults].
      destruct (_ =? 0); [now apply Hno|].
      destruct (statement db1 (sql_place_country id)) as [r2 db2] eqn:Hs2.
      apply statement_keeps_healthy in Hs2 as (Hf2 & -> & _); [|exact Hf1|reflexivity].
      destruct (fst (sql_place_country id db1)) as [countryID|]; [|now apply Hno].
      intros Hrun. eapply answered_country_is_read; eauto. }
    destruct (in_visited_at input) as [v|]; [|apply Hexec].
    destruct (String.eqb v ""); [apply Hexec|].
    destruct (Go.ParseDate v); [apply Hexec|now apply Hno].
  - unfold deletePlace.
    destruct (parseIDParam idParam) as [id|err]; [|now apply Hno].
    destruct (statement db (sql_place_country id)) as [r db1] eqn:Hs.
    apply statement_keeps_healthy in Hs as (Hf1 & -> & _); [|exact Hf|reflexivity].
    destruct (fst (sql_place_country id db)) as [countryID|]; [|now apply Hno].
    destruct (statement db1 (sql_delete_place id)) as [r2 db2] eqn:Hs2.
    apply statement_keeps_healthy in Hs2 as (Hf2 & -> & _);
      [|exact Hf1|apply sql_delete_place_faults].
    destruct (_ =? 0); [now apply Hno|].
    intros Hrun. eapply answered_country_is_read; eauto.
Qed.

(** X25.  With a driver that does not fail, a country deleted with a 204
    is gone for every later request: a GET and a second DELETE of its [id]
    answer 404, its places have no row any more, and every other country
    and every place of another country is as it was. *)
Theorem deleted_country_is_gone db idParam id row :
  faults db = [] ->
  parseIDParam idParam = Ok id ->
  countries db !! id = Some row ->
  exists db',
    deleteCountry db idParam = ({| status := 204; body := NoBody |}, db')
    /\ getCountry order_places db' idParam
       = ({| status := 404; body := ErrorJSON "country not found" |}, db')
    /\ deleteCountry db' idParam
       = ({| status := 404; body := ErrorJSON "country not found" |}, db')
    /\ (forall other, other <> id -> countries db' !! other = countries db !! other)
    /\ (forall place prow,
          places db !! place = Some prow ->
          (p_country_id prow = id -> places db' !! place = None)
          /\ (p_country_id prow <> id -> places db' !! place = Some prow)).
Proof.
  intros Hf Hid Hrow. unfold deleteCountry at 1. rewrite Hid, statement_healthy by exact Hf.
  unfold sql_delete_country. rewrite Hrow. cbn [fst snd]. change (1 =? 0) with false.
  cbv iota.
  set (db' := with_tables db (delete id (countries db))
                (filter (fun kv => p_country_id (snd kv) <> id) (places db))).
  exists db'. split; [reflexivity|].
  assert (Hf' : faults db' = []) by exact Hf.
  assert (Hgone : countries db' !! id = None) by apply lookup_delete_eq.
  split; [|split; [|split]].
  - unfold getCountry. rewrite Hid, (fetchCountry_healthy order_places id db' Hf'), Hgone.
    reflexivity.
  - unfold deleteCountry. rewrite Hid, statement_healthy by exact Hf'.
    unfold sql_delete_country. rewrite Hgone. reflexivity.
  - intros other Hother. apply lookup_delete_ne. congruence.
  - intros place prow Hplace. split; intros Hc; cbn [db' places with_tables].
    + apply map_lookup_filter_None. right. intros prow' Hplace'. cbn.
      rewrite Hplace in Hplace'. injection Hplace' as <-. intros Hne. contradiction.
    + apply map_lookup_filter_Some. split; [exact Hplace|exact Hc].
Qed.

End BlogComposition.

(** ** The further properties on concrete requests *)

Section MovieRuns.

Import SearchEngine Movies Fixtures Samples.

(** X1, an instance: a PUT of Dune on m1 replaces Inception, and m2 is
    answered as before. *)
Lemma dune_replaces_inception :
  exists es',
    handleUpdateMovie accepts_all seeded "m1" dune
    = ({| movie_status := 200; movie_body := MovieJSON (withID dune_read "m1") |}, es')
    /\ handleGetMovie es' "m1"
       = {| movie_status := 200;
            movie_body := MovieJSON {| ID := "m1"; Title := "Dune"; Description := "";
                                       Genre := "Sci-Fi"; Rating := 8; ReleaseYear := 2021 |} |}
    /\ handleGetMovie es' "m2" = handleGetMovie seeded "m2".
Proof.
  destruct (updated_movie_is_read_back accepts_all seeded "m1" dune dune_read)
    as (es' & Hput & _ & Hget & Hother); try reflexivity.
  - split; reflexivity.
  - exists es'. split; [exact Hput|]. split; [exact Hget|]. apply Hother. discriminate.
Defined.

(** X2, an instance: a POST of Dune, whose body names the id "ignored". *)
Lemma dune_is_created :
  exists es',
    handleCreateMovie accepts_all seeded "7d3c" dune
    = ({| movie_status := 201; movie_body := MovieJSON (withID dune_read "7d3c") |}, es')
    /\ handleGetMovie es' "7d3c"
       = {| movie_status := 200;
            movie_body := MovieJSON {| ID := "7d3c"; Title := "Dune"; Description := "";
                                       Genre := "Sci-Fi"; Rating := 8; ReleaseYear := 2021 |} |}
    /\ handleGetMovie es' "ignored" = handleGetMovie seeded "ignored".
Proof.
  destruct (created_movie_is_read_back accepts_all seeded "7d3c" dune dune_read)
    as (es' & Hpost & _ & Hget & Hother); try reflexivity.
  - split; reflexivity.
  - exists es'. split; [exact Hpost|]. split; [exact Hget|]. apply Hother. discriminate.
Defined.

(** X4, an instance: a body without a title. *)
Lemma genre_alone_is_refused :
  handleCreateMovie accepts_all seeded "7d3c" (Go.Document (Go.Value untitled))
  = ({| movie_status := 400; movie_body := BindingError |}, seeded)
  /\ handleUpdateMovie accepts_all seeded "7d3c" (Go.Document (Go.Value untitled))
     = ({| movie_status := 400; movie_body := BindingError |}, seeded).
Proof.
  apply (untitled_movie_is_refused accepts_all seeded "7d3c" untitled). left. reflexivity.
Defined.

(** X6, an instance: m1 deleted from the seeded index. *)
Lemma inception_is_gone :
  handleGetMovie {| docs := delete "m1" (docs seeded); fault := Healthy |} "m1"
  = {| movie_status := 404; movie_body := MovieError "movie not found" |}
  /\ handleDeleteMovie {| docs := delete "m1" (docs seeded); fault := Healthy |} "m1"
     = ({| status := 404; body := ErrorJSON "movie not found" |},
        {| docs := delete "m1" (docs seeded); fault := Healthy |})
  /\ handleGetMovie {| docs := delete "m1" (docs seeded); fault := Healthy |} "m2"
     = handleGetMovie seeded "m2".
Proof.
  destruct (deleted_movie_is_gone seeded "m1"
              {| docs := delete "m1" (docs seeded); fault := Healthy |})
    as (Hget & Hdelete & Hother).
  - reflexivity.
  - vm_compute. reflexivity.
  - split; [exact Hget|]. split; [exact Hdelete|]. apply Hother. discriminate.
Defined.

(** X7, instances: the seeded index is left alone; an empty one is seeded
    with five documents, and then left alone. *)
Lemma seeding_twice :
  seedMovies accepts_all numbered seeded = (None, seeded)
  /\ exists es',
       seedMovies accepts_all numbered emptied = (None, es')
       /\ base.size (docs es') = 5%nat
       /\ seedMovies accepts_all numbered es' = (None, es').
Proof.
  split.
  - apply (proj1 (seeding_is_done_once accepts_all numbered seeded eq_refl)).
    apply insert_non_empty.
  - destruct (seeding_is_done_once accepts_all numbered emptied eq_refl) as [_ Hagain].
    assert (Hdone : fst (seedMovies accepts_all numbered emptied) = None)
      by (vm_compute; reflexivity).
    assert (Hsize : base.size (docs (snd (seedMovies accepts_all numbered emptied))) = 5%nat)
      by (vm_compute; reflexivity).
    destruct (seedMovies accepts_all numbered emptied) as [r es'] eqn:Hseed.
    cbn [fst snd] in Hdone, Hsize. subst r.
    exists es'. split; [reflexivity|]. split; [exact Hsize|]. now apply Hagain.
Defined.

(** X8, an instance: the one document of the index carries a stale [id]
    member; the movie of the answer carries the [_id] of the hit. *)
Lemma stale_id_is_not_read :
  exists b result,
    snd (handleSearchMovies unranked_search solo []) = [b]
    /\ unranked_search (docs solo) b = Some result
    /\ map hit_id (hits result) = ["m1"]
    /\ map (fun hit => hit_source hit !! "id") (hits result) = [Some (JString "stale")]
    /\ total_value result = 1.
Proof.
  destruct (search_movies_follow_hits unranked_search solo []
              [ {| ID := "m1"; Title := "Inception"; Description := ""; Genre := "Sci-Fi";
                   Rating := 8.75; ReleaseYear := 2010 |} ]
              {| Page := 1; PageSize := 5; TotalHits := 1; TotalPages := 1 |})
    as (b & result & Hsent & _ & Hsearch & _ & Hids & Htotal).
  - vm_compute. reflexivity.
  - exists b, result. split; [exact Hsent|]. split; [exact Hsearch|].
    split; [now rewrite <- Hids|]. split; [|now rewrite <- Htotal].
    injection Hsent as <-. injection Hsearch as <-. vm_compute. reflexivity.
Defined.

End MovieRuns.

Section FetchRuns.

Import Converter Fixtures.

(** X11, an instance: the pair US/DIDR is asked as USD/IDR is. *)
Lemma us_didr_is_usd_idr :
  endpoint "US" "DIDR" = endpoint "USD" "IDR"
  /\ fetchRate (yahoo_answers (Go.Value 15000.5%float)) "US" "DIDR"
     = fetchRate (yahoo_answers (Go.Value 15000.5%float)) "USD" "IDR".
Proof.
  apply (fetchRate_reads_the_concatenation (yahoo_answers (Go.Value 15000.5%float))
           "US" "DIDR" "USD" "IDR").
  reflexivity.
Defined.

End FetchRuns.

Section DestinationsRuns.

Import TravelBlog Contract Destinations Fixtures Samples.

(** X12, an instance: a name of three spaces. *)
Lemma three_spaces_are_no_name :
  status (fst (createCountry as_stored blog 2 (Go.Document (Go.Value blank_name)))) = 400
  /\ snd (createCountry as_stored blog 2 (Go.Document (Go.Value blank_name))) = blog.
Proof.
  apply (blank_country_name_is_refused as_stored blog 2 blank_name).
  right. right. exists "   ". split; [reflexivity|vm_compute; reflexivity].
Defined.

(** X13, an instance: Japan is created as country 2 and read back. *)
Lemma japan_is_read_back :
  exists db' country,
    createCountry as_stored blog 2 japan
    = ({| status := 201; body := CountryJSON (Some country) |}, db')
    /\ ID country = 2
    /\ Name country = "Japan"
    /\ places db' = places blog
    /\ getCountry as_stored db' "2"
       = ({| status := 200; body := CountryJSON (Some country) |}, db').
Proof.
  destruct (created_country_is_read_back as_stored blog 2 japan
              {| new_country_name := "  Japan "; new_country_description := "Temples" |} "2")
    as (db' & country & Hcreate & _ & Hplaces & Hid & Hname & _ & _ & _ & Hget);
    try reflexivity.
  - vm_compute. discriminate.
  - exists db', country. split; [exact Hcreate|]. split; [exact Hid|].
    split; [rewrite Hname; vm_compute; reflexivity|]. split; [exact Hplaces|exact Hget].
Defined.

(** X14, an instance: the name of three spaces, put on country 1. *)
Lemma three_spaces_rename_france :
  exists db' row',
    status (fst (updateCountry as_stored blog "1" (Go.Document (Go.Value blank_name)))) = 200
    /\ snd (updateCountry as_stored blog "1" (Go.Document (Go.Value blank_name))) = db'
    /\ countries db' !! 1 = Some row'
    /\ c_name row' = "".
Proof.
  apply (blank_name_is_stored_by_update as_stored blog "1" 1 (Go.Document (Go.Value blank_name))
           {| in_country_name := Some "   "; in_country_description := None |} "   " france);
    reflexivity.
Defined.

(** X16, an instance: the Louvre under a country 7 that has no row. *)
Lemma louvre_needs_a_country :
  exists text,
    createPlace as_stored blog 11 "7" louvre
    = ({| status := 500; body := ErrorOf (DriverError text) |}, blog).
Proof.
  apply (proj2 (place_of_unknown_country_is_an_error as_stored blog 11 "7" 7 louvre
                  eq_refl eq_refl) louvre_read); try reflexivity.
  - vm_compute. discriminate.
  - vm_compute. discriminate.
  - intros v [= <-] _. vm_compute. discriminate.
Defined.

(** X17, an instance: the Louvre under France. *)
Lemma louvre_is_listed :
  exists db' country,
    createPlace as_stored blog 11 "1" louvre
    = ({| status := 201; body := CountryJSON (Some country) |}, db')
    /\ ID country = 1
    /\ p_name <$> places db' !! 11 = Some "Louvre"
    /\ p_visited_at <$> places db' !! 11
       = Some (Some {| Go.year := 2024; Go.month := 5; Go.day := 2 |})
    /\ places db' !! 10 = Some eiffel.
Proof.
  destruct (created_place_is_listed as_stored blog 11 "1" 1 louvre louvre_read france)
    as (db' & country & Hcreate & Hplaces & _ & Hid & _); try reflexivity.
  - vm_compute. discriminate.
  - vm_compute. discriminate.
  - intros v [= <-] _. vm_compute. discriminate.
  - intros l x Hin. exact Hin.
  - exists db', country. split; [exact Hcreate|]. split; [exact Hid|].
    rewrite Hplaces. split; [|split]; vm_compute; reflexivity.
Defined.

(** X19, an instance: the one place of the blog is deleted; France is
    answered without places. *)
Lemma eiffel_is_deleted :
  exists db',
    deletePlace as_stored blog "10"
    = ({| status := 200;
          body := CountryJSON
                    (Some {| ID := 1; Name := "France"; Description := "Wine and cheese";
                             Places := []; CreatedAt := 1000; UpdatedAt := 1000 |}) |}, db')
    /\ places db' !! 10 = None
    /\ countries db' = countries blog.
Proof.
  destruct (deleted_place_leaves_the_rest as_stored blog "10" 10 eq_refl) as [Hany Hrun].
  specialize (Hrun eq_refl).
  eexists. split; [rewrite Hrun; vm_compute; reflexivity|].
  split; [vm_compute; reflexivity|reflexivity].
Defined.

(** X22, an instance: the driver fails the statement after the [UPDATE];
    the rename is answered 500 and stored. *)
Lemma rename_is_stored_with_a_500 :
  exists db',
    updatePlace as_stored blog_failing_second "10"
      (Go.Document (Go.Value (name_only (Go.Value "  Tour Eiffel "))))
    = ({| status := 500; body := ErrorOf (DriverError "connection reset") |}, db')
    /\ p_name <$> places db' !! 10 = Some "Tour Eiffel".
Proof.
  destruct (update_is_stored_before_it_is_answered as_stored blog_failing_second "10" 10
              (Go.Document (Go.Value (name_only (Go.Value "  Tour Eiffel "))))
              {| in_name := Some "  Tour Eiffel "; in_category := None; in_city := None;
                 in_description := None; in_visited_at := None |}
              eiffel "connection reset" [])
    as (db' & Hrun & Hrow & _); try reflexivity.
  - intros v [=].
  - exists db'. split; [exact Hrun|]. rewrite Hrow. vm_compute. reflexivity.
Defined.

(** X23, instances: the blog lists France; a blog without a country
    answers [null]. *)
Lemma one_country_or_null :
  (exists listed,
     listCountries as_stored countries_as_stored blog
     = ({| list_status := 200; list_body := CountriesJSON (Some listed) |}, blog)
     /\ map ID listed = [1])
  /\ listCountries as_stored countries_as_stored
       {| countries := ∅; places := ∅; now := 2000; faults := [] |}
     = ({| list_status := 200; list_body := CountriesJSON None |},
        {| countries := ∅; places := ∅; now := 2000; faults := [] |}).
Proof.
  split.
  - destruct (list_countries_answers as_stored countries_as_stored blog eq_refl
                (fun rows => Permutation_refl rows))
      as (listed & Hrun & _ & _ & _ & Hsome).
    exists listed. rewrite Hsome in Hrun.
    + split; [exact Hrun|]. vm_compute in Hrun. injection Hrun as <-. reflexivity.
    + apply map_non_empty_singleton.
  - destruct (list_countries_answers as_stored countries_as_stored
                {| countries := ∅; places := ∅; now := 2000; faults := [] |} eq_refl
                (fun rows => Permutation_refl rows))
      as (listed & Hrun & _ & _ & Hnone & _).
    rewrite Hnone in Hrun by reflexivity. exact Hrun.
Defined.

(** X24, an instance: the France that the deletion of place 10 answers
    with is the France a GET then reads. *)
Lemma france_is_read_as_answered :
  getCountry as_stored (snd (deletePlace as_stored blog "10")) "1"
  = ({| status := 200;
        body := CountryJSON
                  (Some {| ID := 1; Name := "France"; Description := "Wine and cheese";
                           Places := []; CreatedAt := 1000; UpdatedAt := 1000 |}) |},
     snd (deletePlace as_stored blog "10")).
Proof.
  apply (proj2 (proj2 (proj2
           (answer_is_the_country_as_read as_stored blog 11 "10"
              {| status := 200;
                 body := CountryJSON
                           (Some {| ID := 1; Name := "France";
                                    Description := "Wine and cheese"; Places := [];
                                    CreatedAt := 1000; UpdatedAt := 1000 |}) |}
              (snd (deletePlace as_stored blog "10")) _ "1" eq_refl eq_refl eq_refl)))).
  vm_compute. reflexivity.
Defined.

(** X25, an instance: France is deleted, and the Eiffel Tower with it. *)
Lemma france_is_gone :
  exists db',
    deleteCountry blog "1" = ({| status := 204; body := NoBody |}, db')
    /\ getCountry as_stored db' "1"
       = ({| status := 404; body := ErrorJSON "country not found" |}, db')
    /\ places db' !! 10 = None.
Proof.
  destruct (deleted_country_is_gone as_stored blog "1" 1 france eq_refl eq_refl eq_refl)
    as (db' & Hdelete & Hget & _ & _ & Hplaces).
  exists db'. split; [exact Hdelete|]. split; [exact Hget|].
  apply (proj1 (Hplaces 10 eiffel eq_refl)). reflexivity.
Defined.

End DestinationsRuns.
